(** * Trading-System: order execution, price refresh, portfolio metrics
      and strategy generation

    A shallow embedding of the parts of the dashboard that compute:
    - [PortfolioManagement]: [executeOrder] and [executeRebalance] of the
      portfolio management component;
    - [UpdatePrices]: the [POST] handler that refreshes position prices;
    - [LivePortfolioTracker]: [fetchPortfolioMetrics];
    - [GenerateStrategy]: the [POST] handler that asks a language model for
      a strategy and falls back to a template;
    - [LiveData]: the market data endpoint;
    - [TradingDashboard]: [fetchPositions].

    Conventions of the model.
    - A JavaScript [number] is a rational ([Q]); [NaN] is [None] where the
      code can produce it.  The expressions of the source are written with
      exact operations, and the properties stated over them are equalities
      with the expression the code evaluates or bounds that rounding to
      the nearest double keeps.  Where a property is about rounding itself,
      the operations are rounded by [Double.round].  Equality between
      numbers is [Qeq] ([==]).
    - A nullable column is an [option]: [None] is SQL NULL / JS [null].
    - A text that the code inspects character by character is the sequence
      of its UTF-16 code units ([Js.text]).
    - The managed database is a pair of tables (lists of rows).  It is taken
      to accept every column the client names; whether an insert into
      [orders] is refused, and the id given to an inserted position, are
      inputs of the environment. *)

From Stdlib Require Import List String Ascii ZArith QArith Bool Lia.
From Stdlib Require Import Qfield Qround Qabs Qpower Qreduction Lqa.
Import ListNotations.

Set Implicit Arguments.

(** ** JavaScript values used by the components *)
Module Js.

Local Open Scope string_scope.

(** [!s] on a string is true exactly for the empty string. *)
Definition truthy (s : string) : bool := negb (String.eqb s EmptyString).

(** [hay.includes(needle)]. *)
Definition includes (hay needle : string) : bool :=
  match String.index 0 needle hay with
  | Some _ => true
  | None => false
  end.

(** ToNumber on a nullable number: [null] converts to [0]. *)
Definition toNumber (x : option Q) : Q :=
  match x with
  | Some q => q
  | None => 0%Q
  end.

(** Truthiness of a nullable number: [null] and [0] are falsy. *)
Definition truthyNum (x : option Q) : bool :=
  match x with
  | Some q => negb (Qeq_bool q 0)
  | None => false
  end.

(** [x || y] where [y] is a number. *)
Definition orNum (x : option Q) (y : Q) : Q :=
  if truthyNum x then toNumber x else y.

(** [x || y] where both sides may be [null]. *)
Definition orNull (x y : option Q) : option Q :=
  if truthyNum x then x else y.

(** [a > 0] on numbers. *)
Definition gt0 (a : Q) : bool :=
  match Qlt_le_dec 0 a with
  | left _ => true
  | right _ => false
  end.

(** [Math.max(a, b)]. *)
Definition max (a b : Q) : Q :=
  match Qlt_le_dec a b with
  | left _ => b
  | right _ => a
  end.

(** *** Texts and white space

    A text is the sequence of its UTF-16 code units.  A [string] of the
    model stands for the text of its characters, one code unit below 256
    each. *)

Definition text : Type := list N.

Definition units (s : string) : text :=
  map N_of_ascii (list_ascii_of_string s).

(** White space and line terminators: what [trim], [\s] and [parseInt]
    skip.  These are the characters 9 to 13 and 32, the no-break space
    (160), U+1680, U+2000 to U+200A, U+2028, U+2029, U+202F, U+205F,
    U+3000 and the byte order mark U+FEFF. *)
Definition isSpace (c : N) : bool :=
  (N.leb 9 c && N.leb c 13) || N.eqb c 32 || N.eqb c 160 || N.eqb c 5760
  || (N.leb 8192 c && N.leb c 8202) || N.eqb c 8232 || N.eqb c 8233
  || N.eqb c 8239 || N.eqb c 8287 || N.eqb c 12288 || N.eqb c 65279.

(** [t.trimStart()], also what [\s*] takes from the start of [t]. *)
Fixpoint skipSpace (t : text) : text :=
  match t with
  | c :: t' => if isSpace c then skipSpace t' else t
  | [] => []
  end.

(** *** [Number.parseInt(s)] without a radix

    Leading white space is skipped, a sign is read, a [0x]/[0X] prefix
    selects radix 16, and the longest prefix of digits is converted.
    [None] stands for [NaN] (no digit could be read). *)

Definition isWhite (c : ascii) : bool := isSpace (N_of_ascii c).

Fixpoint skipWhite (s : string) : string :=
  match s with
  | String c s' => if isWhite c then skipWhite s' else s
  | EmptyString => s
  end.

Definition digitValue (radix : Z) (c : ascii) : option Z :=
  let n := Z.of_nat (nat_of_ascii c) in
  let d :=
    if ((48 <=? n) && (n <=? 57))%Z then Some (n - 48)%Z
    else if ((97 <=? n) && (n <=? 122))%Z then Some (n - 87)%Z
    else if ((65 <=? n) && (n <=? 90))%Z then Some (n - 55)%Z
    else None in
  match d with
  | Some v => if (v <? radix)%Z then Some v else None
  | None => None
  end.

Fixpoint parseDigits (radix : Z) (acc : option Z) (s : string) : option Z :=
  match s with
  | EmptyString => acc
  | String c s' =>
      match digitValue radix c with
      | Some d =>
          parseDigits radix
            (Some (match acc with
                   | Some a => a * radix + d
                   | None => d
                   end)%Z) s'
      | None => acc
      end
  end.

Definition parseUnsigned (s : string) : option Z :=
  match s with
  | String "0" (String "x" s') => parseDigits 16 None s'
  | String "0" (String "X" s') => parseDigits 16 None s'
  | _ => parseDigits 10 None s
  end.

Definition parseInt (s : string) : option Z :=
  match skipWhite s with
  | String "-" s' => option_map Z.opp (parseUnsigned s')
  | String "+" s' => parseUnsigned s'
  | s' => parseUnsigned s'
  end.

End Js.

(** ** Double precision

    The numbers of the source are IEEE 754 doubles.  [round] is rounding to
    the nearest number with a significand of 53 bits, ties to even; the
    exponent range is not bounded, so overflow and gradual underflow are
    not modelled. *)
Module Double.

Local Open Scope Q_scope.

Definition pow2 (k : Z) : Q := 2 ^ k.

(** The nearest integer, the even one of two that are equally near. *)
Definition nearest (x : Q) : Z :=
  let f := Qfloor x in
  match Qcompare (x - inject_Z f) (1 # 2) with
  | Lt => f
  | Gt => (f + 1)%Z
  | Eq => if Z.even f then f else (f + 1)%Z
  end.

(** The exponent [e] of a positive number [a]: [2^e <= a < 2^(e+1)]. *)
Definition exponent (a : Q) : Z :=
  let k := (Z.log2 (Qnum a) - Z.log2 (Zpos (Qden a)))%Z in
  if Qle_bool (pow2 k) a then k else (k - 1)%Z.

Definition roundPositive (a : Q) : Q :=
  let e := exponent a in
  Qred (inject_Z (nearest (a * pow2 (52 - e))) * pow2 (e - 52)).

Definition round (x : Q) : Q :=
  match Qcompare x 0 with
  | Eq => 0
  | Gt => roundPositive x
  | Lt => - roundPositive (- x)
  end.

(** The unit roundoff, [2^-53]. *)
Definition u : Q := pow2 (-53).

(** The factor [(1 + eps)^n] by which [n] roundings of relative error
    [eps] can enlarge a result. *)
Definition growthOf (eps : Q) (n : nat) : Q := (1 + eps) ^ Z.of_nat n.

Definition growth (n : nat) : Q := growthOf u n.

(** [l.reduce((s, v) => s + v, 0)] with every addition rounded by [fl]. *)
Definition sumOf (fl : Q -> Q) (l : list Q) : Q :=
  fold_left (fun s v => fl (s + v)) l 0.

(** The exact sum. *)
Definition total (l : list Q) : Q := fold_right Qplus 0 l.

(** [(v / T) * 100] with both operations rounded by [fl]. *)
Definition percent (fl : Q -> Q) (T v : Q) : Q := fl (fl (v / T) * 100).

End Double.

(** ** The two tables the components write *)
Module Db.

(** A row of [portfolio_positions], with the columns the code names.
    [executeOrder] addresses the average price as [avg_price]; the price
    refresh and the tracker address it as [average_price].  Both names are
    kept, as separate columns. *)
Record position : Type := {
  id : nat;
  agent_id : string;
  symbol : string;
  quantity : Q;
  avg_price : option Q;
  average_price : option Q;
  current_price : option Q;
  market_value : option Q;
  unrealized_pnl : option Q;
  created_at : option string;
  updated_at : option string
}.

(** The payload of an [update] on [portfolio_positions]: [Some v] for a
    column the payload names, [None] for a column it leaves out. *)
Record positionPatch : Type := {
  set_quantity : option Q;
  set_avg_price : option Q;
  set_current_price : option Q;
  set_market_value : option Q;
  set_unrealized_pnl : option Q;
  set_updated_at : option string
}.

Definition setNum (new : option Q) (old : option Q) : option Q :=
  match new with
  | Some v => Some v
  | None => old
  end.

Definition applyPatch (p : positionPatch) (r : position) : position :=
  {| id := id r;
     agent_id := agent_id r;
     symbol := symbol r;
     quantity := match set_quantity p with Some v => v | None => quantity r end;
     avg_price := setNum (set_avg_price p) (avg_price r);
     average_price := average_price r;
     current_price := setNum (set_current_price p) (current_price r);
     market_value := setNum (set_market_value p) (market_value r);
     unrealized_pnl := setNum (set_unrealized_pnl p) (unrealized_pnl r);
     created_at := created_at r;
     updated_at := match set_updated_at p with
                   | Some t => Some t
                   | None => updated_at r
                   end |}.

(** [.update(p).eq("id", i)]: every row whose id is [i] takes the patch. *)
Definition updateById (p : positionPatch) (i : nat) (tbl : list position)
  : list position :=
  map (fun r => if Nat.eqb (id r) i then applyPatch p r else r) tbl.

(** [.single()]: the row if the selection has exactly one, else no data. *)
Definition single (A : Type) (rows : list A) : option A :=
  match rows with
  | [r] => Some r
  | _ => None
  end.

(** The invariant of the data model: the stored [market_value] and
    [unrealized_pnl] are the ones derived from [quantity], [current_price]
    and [average_price]. *)
Definition cachesDerivable (r : position) : bool :=
  match current_price r, market_value r, unrealized_pnl r with
  | Some c, Some mv, Some pnl =>
      Qeq_bool mv (quantity r * c)
      && Qeq_bool pnl (quantity r * (c - Js.toNumber (average_price r)))
  | _, _, _ => false
  end.

Inductive OrderType : Type := market | limit.
Inductive OrderSide : Type := buy | sell.

(** A row of [orders]. *)
Record order : Type := {
  o_agent_id : string;
  o_symbol : string;
  o_order_type : OrderType;
  o_side : OrderSide;
  o_quantity : Q;
  o_price : option Q;
  o_status : string;
  o_created_at : string
}.

Record database : Type := {
  orders : list order;
  portfolio_positions : list position
}.

End Db.

(** ** The portfolio management component: placing orders *)
Module PortfolioManagement.

Import Db.
Local Open Scope string_scope.

(** The order form held in the component's state. *)
Record form : Type := {
  selectedAgent : string;
  selectedSymbol : string;
  orderQuantity : string;
  orderType : OrderType;
  orderSide : OrderSide;
  limitPrice : string
}.

(** What the surroundings answer during one call: the value of
    [Math.random()], the text of [new Date().toISOString()], the error
    (its message) the store reports for the insert into [orders], if any,
    and the id the store generates for a row inserted into
    [portfolio_positions]. *)
Record world : Type := {
  random : Q;
  now : string;
  orderError : option string;
  newId : nat
}.

Inductive toast : Type :=
  | MissingInformation
  | DatabaseSetupRequired
  | OrderPlaced
  | FailedToPlaceOrder
  | RebalanceOrderPlaced
  | RebalanceFailed.

Record outcome : Type := {
  out_db : database;
  out_form : form;
  out_toast : toast
}.

Inductive RecommendedAction : Type := rec_buy | rec_sell | rec_hold.

Record RebalanceRecommendation : Type := {
  rec_symbol : string;
  currentAllocation : Q;
  targetAllocation : Q;
  recommendedAction : RecommendedAction;
  rec_quantity : Q;
  reason : string
}.

(** [.eq("agent_id", a).eq("symbol", s)]. *)
Definition isPosition (a s : string) (r : position) : bool :=
  String.eqb (agent_id r) a && String.eqb (symbol r) s.

(** The mock fill price, [Math.random() * 1000 + 500], with exact
    operations. *)
Definition fillPrice (w : world) : Q := random w * 1000 + 500.

(** The signed quantity of an order: negative for a sell. *)
Definition signedQuantity (side : OrderSide) (n : Z) : Q :=
  match side with
  | buy => inject_Z n
  | sell => - inject_Z n
  end.

(** The average price written for an existing position. *)
Definition newAvgPrice (existing : position) (currentPrice quantity : Q) : Q :=
  let newQuantity := Db.quantity existing + quantity in
  if Qeq_bool newQuantity 0 then 0
  else (Js.toNumber (avg_price existing) * Db.quantity existing
        + currentPrice * quantity) / newQuantity.

(** The payload of the update of an existing position. *)
Definition positionUpdate (existing : position) (currentPrice quantity : Q)
  (t : string) : positionPatch :=
  {| set_quantity := Some (Db.quantity existing + quantity);
     set_avg_price := Some (newAvgPrice existing currentPrice quantity);
     set_current_price := Some currentPrice;
     set_market_value := None;
     set_unrealized_pnl := None;
     set_updated_at := Some t |}.

(** The row inserted for a new position; [i] is the id the store gives
    it. *)
Definition newPosition (i : nat) (a s : string)
  (currentPrice quantity : Q) (t : string) : position :=
  {| id := i;
     agent_id := a;
     symbol := s;
     quantity := quantity;
     avg_price := Some currentPrice;
     average_price := None;
     current_price := Some currentPrice;
     market_value := None;
     unrealized_pnl := None;
     created_at := Some t;
     updated_at := Some t |}.

(** The position write of [executeOrder]: update the single existing row
    of the agent and symbol, or insert a new one. *)
Definition writePosition (tbl : list position) (i : nat) (a s : string)
  (currentPrice quantity : Q) (t : string) : list position :=
  match single (filter (isPosition a s) tbl) with
  | Some existingPosition =>
      updateById (positionUpdate existingPosition currentPrice quantity t)
        (id existingPosition) tbl
  | None => tbl ++ [newPosition i a s currentPrice quantity t]
  end.

Definition resetForm (f : form) : form :=
  {| selectedAgent := EmptyString;
     selectedSymbol := EmptyString;
     orderQuantity := EmptyString;
     orderType := orderType f;
     orderSide := orderSide f;
     limitPrice := EmptyString |}.

(** Is the store's error about a missing table? *)
Definition setupError (message : string) : bool :=
  Js.includes message "schema cache" || Js.includes message "does not exist".

Section WithParseFloat.

(** [Number.parseFloat]; [None] is [NaN], which is stored as [null]. *)
Variable parseFloat : string -> option Q.

(** The row [executeOrder] inserts into [orders]. *)
Definition orderRow (f : form) (n : Z) (t : string) : order :=
  {| o_agent_id := selectedAgent f;
     o_symbol := selectedSymbol f;
     o_order_type := orderType f;
     o_side := orderSide f;
     o_quantity := inject_Z n;
     o_price := if Js.truthy (limitPrice f) then parseFloat (limitPrice f)
                else None;
     o_status := "filled";
     o_created_at := t |}.

(** [executeOrder].  The result is [None] when [orderQuantity] is not
    empty but has no integer prefix: the source then computes with [NaN],
    which rational numbers do not represent. *)
Definition executeOrder (db : database) (f : form) (w : world)
  : option outcome :=
  if negb (Js.truthy (selectedAgent f))
     || negb (Js.truthy (selectedSymbol f))
     || negb (Js.truthy (orderQuantity f))
  then Some {| out_db := db; out_form := f; out_toast := MissingInformation |}
  else
    match Js.parseInt (orderQuantity f) with
    | None => None
    | Some n =>
        match orderError w with
        | Some message =>
            Some {| out_db := db;
                    out_form := f;
                    out_toast := if setupError message
                                 then DatabaseSetupRequired
                                 else FailedToPlaceOrder |}
        | None =>
            let currentPrice := fillPrice w in
            let quantity := signedQuantity (orderSide f) n in
            Some {| out_db :=
                      {| orders := orders db ++ [orderRow f n (now w)];
                         portfolio_positions :=
                           writePosition (portfolio_positions db) (newId w)
                             (selectedAgent f) (selectedSymbol f)
                             currentPrice quantity (now w) |};
                    out_form := resetForm f;
                    out_toast := OrderPlaced |}
        end
    end.

End WithParseFloat.

(** The row [executeRebalance] inserts into [orders]. *)
Definition rebalanceRow (f : form) (recommendation : RebalanceRecommendation)
  (t : string) : order :=
  {| o_agent_id := selectedAgent f;
     o_symbol := rec_symbol recommendation;
     o_order_type := market;
     o_side := match recommendedAction recommendation with
               | rec_buy => buy
               | _ => sell
               end;
     o_quantity := rec_quantity recommendation;
     o_price := None;
     o_status := "pending";
     o_created_at := t |}.

(** [executeRebalance]. *)
Definition executeRebalance (db : database) (f : form) (w : world)
  (recommendation : RebalanceRecommendation) : outcome :=
  match orderError w with
  | Some message =>
      {| out_db := db;
         out_form := f;
         out_toast := if setupError message then DatabaseSetupRequired
                      else RebalanceFailed |}
  | None =>
      {| out_db := {| orders := orders db ++ [rebalanceRow f recommendation (now w)];
                      portfolio_positions := portfolio_positions db |};
         out_form := f;
         out_toast := RebalanceOrderPlaced |}
  end.

(** [executeAllRebalanceOrders]: one [executeRebalance] per recommendation,
    in order, each with its own answers of the surroundings. *)
Fixpoint executeAllRebalanceOrders (db : database) (f : form)
  (steps : list (world * RebalanceRecommendation)) : database :=
  match steps with
  | [] => db
  | (w, r) :: rest =>
      executeAllRebalanceOrders (out_db (executeRebalance db f w r)) f rest
  end.

(** The form is complete: agent, symbol and quantity are filled in. *)
Definition complete (f : form) : Prop :=
  selectedAgent f <> EmptyString
  /\ selectedSymbol f <> EmptyString
  /\ orderQuantity f <> EmptyString.

(** The quantity an agent holds in a symbol: the sum over its rows ([0]
    without a row, the row's quantity when there is one). *)
Definition heldQuantity (a s : string) (tbl : list position) : Q :=
  fold_right Qplus 0 (map Db.quantity (filter (isPosition a s) tbl)).

End PortfolioManagement.

(** ** The price refresh endpoint *)
Module UpdatePrices.

Import Db.
Local Open Scope string_scope.

(** One entry of the market data answer. *)
Record market : Type := {
  m_symbol : string;
  close_price : Q
}.

(** The body of the market data answer. *)
Record marketData : Type := {
  success : bool;
  data : list market
}.

Inductive response : Type :=
  | NoPositionsToUpdate
  | PortfolioPricesUpdated (updatedSymbols : nat)
  | FailedToUpdate.

(** [.neq("quantity", 0)]. *)
Definition held (r : position) : bool := negb (Qeq_bool (quantity r) 0).

(** [[...new Set(l)]]: the first occurrence of each element, in order. *)
Fixpoint unique (seen l : list string) : list string :=
  match l with
  | [] => []
  | x :: rest =>
      if existsb (String.eqb x) seen then unique seen rest
      else x :: unique (x :: seen) rest
  end.

(** The payload written for [position] from the entry [m]. *)
Definition priceUpdate (m : market) (position : Db.position) (t : string)
  : positionPatch :=
  let currentPrice := close_price m in
  let marketValue := quantity position * currentPrice in
  let unrealizedPnL :=
    (currentPrice - Js.toNumber (average_price position)) * quantity position in
  {| set_quantity := None;
     set_avg_price := None;
     set_current_price := Some currentPrice;
     set_market_value := Some marketValue;
     set_unrealized_pnl := Some unrealizedPnL;
     set_updated_at := Some t |}.

(** The updates issued for one entry: the held positions of its symbol are
    selected, then each is written through its id. *)
Definition updateSymbol (t : string) (tbl : list position) (m : market)
  : list position :=
  let positionsToUpdate :=
    filter (fun r => String.eqb (symbol r) (m_symbol m) && held r) tbl in
  fold_left
    (fun acc position => updateById (priceUpdate m position t) (id position) acc)
    positionsToUpdate tbl.

(** [POST].  [fetchMarket] is the call to the market data endpoint with the
    symbols asked for ([None]: the call or its decoding throws); the
    entries are handled one after the other. *)
Definition POST (tbl : list position)
  (fetchMarket : list string -> option marketData) (t : string)
  : list position * response :=
  let positions := filter held tbl in
  match positions with
  | [] => (tbl, NoPositionsToUpdate)
  | _ =>
      let uniqueSymbols := unique [] (map symbol positions) in
      match fetchMarket uniqueSymbols with
      | None => (tbl, FailedToUpdate)
      | Some md =>
          if negb (success md) then (tbl, FailedToUpdate)
          else (fold_left (updateSymbol t) (data md) tbl,
                PortfolioPricesUpdated (List.length uniqueSymbols))
      end
  end.

(** Two rows agree on every column other than [current_price],
    [market_value], [unrealized_pnl] and [updated_at]. *)
Definition agreeOutsidePrices (before after : position) : Prop :=
  id after = id before
  /\ agent_id after = agent_id before
  /\ symbol after = symbol before
  /\ quantity after = quantity before
  /\ avg_price after = avg_price before
  /\ average_price after = average_price before
  /\ created_at after = created_at before.

End UpdatePrices.

(** ** The live portfolio tracker *)
Module LivePortfolioTracker.

Import Db.

Record processedPosition : Type := {
  p_symbol : string;
  p_quantity : Q;
  averagePrice : option Q;
  currentPrice : option Q;
  marketValue : Q;
  unrealizedPnL : Q;
  pnlPercent : Q;
  allocation : Q
}.

(** [dayChangePercent] is [None] when the source divides by zero. *)
Record PortfolioMetrics : Type := {
  totalValue : Q;
  totalPnL : Q;
  totalPnLPercent : Q;
  dayChange : Q;
  dayChangePercent : option Q;
  positions : list processedPosition
}.

(** [l.reduce((sum, pos) => sum + f(pos), 0)], with exact additions; see
    [totalValueIn] for the sum as rounded. *)
Definition reduceSum (f : position -> Q) (l : list position) : Q :=
  fold_left (fun sum pos => sum + f pos) l 0.

Definition totalValueOf (l : list position) : Q :=
  reduceSum (fun pos => Js.orNum (market_value pos) 0) l.

Definition totalCostOf (l : list position) : Q :=
  reduceSum (fun pos => quantity pos * Js.toNumber (average_price pos)) l.

Definition totalPnLOf (l : list position) : Q :=
  reduceSum (fun pos => Js.orNum (unrealized_pnl pos) 0) l.

(** One element of [processedPositions]. *)
Definition processPosition (totalValue : Q) (pos : position)
  : processedPosition :=
  {| p_symbol := symbol pos;
     p_quantity := quantity pos;
     averagePrice := average_price pos;
     currentPrice := Js.orNull (current_price pos) (average_price pos);
     marketValue :=
       Js.orNum (market_value pos)
         (quantity pos * Js.toNumber (average_price pos));
     unrealizedPnL := Js.orNum (unrealized_pnl pos) 0;
     pnlPercent :=
       if Js.gt0 (Js.toNumber (average_price pos))
       then ((Js.toNumber (current_price pos)
              - Js.toNumber (average_price pos))
             / Js.toNumber (average_price pos)) * 100
       else 0;
     allocation :=
       if Js.gt0 totalValue
       then (Js.orNum (market_value pos) 0 / totalValue) * 100
       else 0 |}.

(** [totalValue] and [allocation] with the result of every operation
    rounded by [fl]: [Double.round] for the numbers of the source, the
    identity for the exact reading above. *)
Definition totalValueIn (fl : Q -> Q) (l : list position) : Q :=
  fold_left (fun sum pos => fl (sum + Js.orNum (market_value pos) 0)) l 0.

Definition allocationIn (fl : Q -> Q) (totalValue : Q) (pos : position) : Q :=
  if Js.gt0 totalValue
  then fl (fl (Js.orNum (market_value pos) 0 / totalValue) * 100)
  else 0.

Definition noMetrics : PortfolioMetrics :=
  {| totalValue := 0;
     totalPnL := 0;
     totalPnLPercent := 0;
     dayChange := 0;
     dayChangePercent := Some 0;
     positions := [] |}.

(** [fetchPortfolioMetrics], from the answer of the selection of the
    user's held positions ([None]: no data). *)
Definition fetchPortfolioMetrics (selected : option (list position))
  : PortfolioMetrics :=
  match selected with
  | None | Some [] => noMetrics
  | Some rows =>
      let totalValue := totalValueOf rows in
      let totalCost := totalCostOf rows in
      let totalPnL := totalPnLOf rows in
      let totalPnLPercent :=
        if Js.gt0 totalCost then (totalPnL / totalCost) * 100 else 0 in
      let dayChange := totalPnL * (1 # 10) in
      let dayChangePercent :=
        if Js.gt0 totalValue
        then if Qeq_bool (totalValue - dayChange) 0 then None
             else Some ((dayChange / (totalValue - dayChange)) * 100)
        else Some 0 in
      {| totalValue := totalValue;
         totalPnL := totalPnL;
         totalPnLPercent := totalPnLPercent;
         dayChange := dayChange;
         dayChangePercent := dayChangePercent;
         positions := map (processPosition totalValue) rows |}
  end.

End LivePortfolioTracker.

(** ** The strategy generation endpoint *)
Module GenerateStrategy.

Local Open Scope string_scope.

Set Warnings "-register-all".

(** A value decoded from JSON. *)
Inductive json : Type :=
  | JNull
  | JBool (b : bool)
  | JNum (q : Q)
  | JStr (s : string)
  | JArr (items : list json)
  | JObj (fields : list (string * json)).

(** The outcome of reading a property. *)
Inductive access : Type :=
  | TypeError
  | Undefined
  | Value (v : json).

(** The value of key [f] in an object: the last one, as [JSON.parse]
    keeps. *)
Definition lookup (f : string) (fields : list (string * json)) : option json :=
  fold_left
    (fun found kv => if String.eqb (fst kv) f then Some (snd kv) else found)
    fields None.

(** [v.f], for the property names read below ([name], [description],
    [entryRules], [exitRules], [id]): none of them is a property of a
    number, a string, a boolean or an array. *)
Definition getProp (v : json) (f : string) : access :=
  match v with
  | JNull => TypeError
  | JObj fields =>
      match lookup f fields with
      | Some x => Value x
      | None => Undefined
      end
  | _ => Undefined
  end.

Definition truthy (v : json) : bool :=
  match v with
  | JNull => false
  | JBool b => b
  | JNum q => negb (Qeq_bool q 0)
  | JStr s => Js.truthy s
  | JArr _ => true
  | JObj _ => true
  end.

(** Does [v.f] hold a truthy value (without throwing)? *)
Definition hasField (v : json) (f : string) : bool :=
  match getProp v f with
  | Value x => truthy x
  | _ => false
  end.

Definition requiredFields : list string :=
  ["name"; "description"; "entryRules"; "exitRules"].

(** The check after [JSON.parse]: [false] when the source throws. *)
Definition validated (v : json) : bool :=
  hasField v "name" && hasField v "description"
  && hasField v "entryRules" && hasField v "exitRules".

(** *** Cleaning the answer of the language model *)

(** [t.trim()]. *)
Definition trim (t : Js.text) : Js.text :=
  rev (Js.skipSpace (rev (Js.skipSpace t))).

Definition fence : Js.text := Js.units "```".

(** [t] without its prefix [p], if it starts with [p]. *)
Fixpoint dropPrefix (p t : Js.text) : option Js.text :=
  match p, t with
  | [], _ => Some t
  | c :: p', d :: t' => if N.eqb c d then dropPrefix p' t' else None
  | _ :: _, [] => None
  end.

(** [t.replace(/^```json\s*/, empty)]. *)
Definition dropOpeningFence (t : Js.text) : Js.text :=
  match dropPrefix (Js.units "```json") t with
  | Some rest => Js.skipSpace rest
  | None => t
  end.

(** [t.replace(/\s*```$/, empty)]: the match, if any, is the closing fence
    at the very end with all the white space before it. *)
Definition dropClosingFence (t : Js.text) : Js.text :=
  match dropPrefix fence (rev t) with
  | Some rest => rev (Js.skipSpace rest)
  | None => t
  end.

Definition cleanedText (text : Js.text) : Js.text :=
  dropClosingFence (dropOpeningFence (trim text)).

(** *** The numbers of the template *)

Local Open Scope Q_scope.

Definition maxPositionSize (riskTolerance : Q) : Q :=
  (riskTolerance / 100) * 0.1.

Definition stopLoss (riskTolerance : Q) : Q :=
  Js.max 0.01 ((100 - riskTolerance) / 1000).

Definition takeProfit (riskTolerance : Q) : Q :=
  Js.max 0.02 (riskTolerance / 1000).

Definition maxPositionValueINR (riskTolerance : Q) : Q :=
  riskTolerance * 2000.

Definition expectedReturn (riskTolerance : Q) : Q :=
  Js.max 0.08 (riskTolerance / 1000).

Definition maxDrawdown (riskTolerance : Q) : Q :=
  Js.max 0.03 ((100 - riskTolerance) / 2000).

Local Close Scope Q_scope.

Definition joinLines (lines : list string) : string :=
  String.concat (String (ascii_of_nat 10) EmptyString) lines.

Section WithText.

(** How a number is printed inside a template, [x.toFixed(1)], and
    [s.toLowerCase()]. *)
Variable numberToString : Q -> string.
Variable toFixed1 : Q -> string.
Variable toLowerCase : string -> string.

(** The text of the [implementation] field of the template. *)
Definition fallbackImplementation (strategyType : string) (riskTolerance : Q)
  : string :=
  joinLines
  [ "# Complete " ++ strategyType ++ " Strategy Implementation for Indian Market";
    "def indian_" ++ (toLowerCase strategyType) ++ "_strategy():";
    "    # Initialize parameters for Indian stocks";
    "    indian_stocks = ['RELIANCE', 'TCS', 'INFY', 'HDFCBANK', 'ICICIBANK']";
    "    risk_tolerance = " ++ (numberToString riskTolerance);
    "    ";
    "    for stock in indian_stocks:";
    "        # Get current market data";
    "        current_price = get_stock_price(stock)";
    "        rsi = calculate_rsi(stock, period=14)";
    "        volume = get_current_volume(stock)";
    "        avg_volume = get_average_volume(stock, period=20)";
    "        ";
    "        # Entry conditions for Indian market";
    "        if (rsi < 40 and volume > avg_volume * 1.5 and ";
    "            is_market_hours() and current_price > sma_20):";
    "            ";
    "            position_size = calculate_position_size(";
    "                portfolio_value, ";
    "                risk_per_trade=" ++ (numberToString (maxPositionSize riskTolerance));
    "            )";
    "            ";
    "            entry_price = current_price";
    "            stop_loss = entry_price * (1 - " ++ (numberToString (stopLoss riskTolerance)) ++ ")";
    "            take_profit = entry_price * (1 + " ++ (numberToString (takeProfit riskTolerance)) ++ ")";
    "            ";
    "            place_order('BUY', stock, position_size, entry_price)";
    "            set_stop_loss(stock, stop_loss)";
    "            set_take_profit(stock, take_profit)";
    "        ";
    "        # Exit conditions considering Indian market timing";
    "        if (current_time() > '15:00' or ";
    "            get_profit_loss(stock) > take_profit or";
    "            get_profit_loss(stock) < -stop_loss):";
    "            ";
    "            close_position(stock)";
    "    ";
    "    # Portfolio risk management";
    "    total_drawdown = calculate_portfolio_drawdown()";
    "    if total_drawdown > " ++ (numberToString (maxDrawdown riskTolerance)) ++ ":";
    "        reduce_all_positions(0.5)";
    "    ";
    "    return strategy_status";
    EmptyString;
    "# Helper functions for Indian market";
    "def is_market_hours():";
    "    current_time = datetime.now(timezone('Asia/Kolkata')).time()";
    "    return time(9, 15) <= current_time <= time(15, 30)";
    EmptyString;
    "def calculate_position_size(portfolio_value, risk_per_trade):";
    "    return min(portfolio_value * risk_per_trade, " ++ (numberToString (maxPositionValueINR riskTolerance)) ++ ")" ].

(** The templated strategy of the [catch] branch. *)
Definition fallbackStrategy (strategyType : string) (riskTolerance : Q) : json :=
  JObj
    [ ("name", JStr ("Indian " ++ strategyType ++ " Trading Strategy"));
      ("description",
       JStr ("A comprehensive " ++ strategyType
             ++ " strategy designed for the Indian stock market, focusing on NSE-listed stocks like RELIANCE, TCS, and INFY. This strategy uses technical analysis combined with Indian market timing to identify optimal entry and exit points while managing risk through position sizing and stop-loss mechanisms."));
      ("entryRules",
       JArr
         [ JStr ("Enter long positions when " ++ strategyType
                 ++ " signals align with RSI below 40 on Indian blue-chip stocks");
           JStr "Confirm entry with volume spike above 1.5x average daily volume during market hours (9:15 AM - 3:30 PM IST)";
           JStr "Ensure market conditions favor the strategy type with proper risk-reward ratio of at least 1:2" ]);
      ("exitRules",
       JArr
         [ JStr "Exit positions when profit target of 3-5% is reached or before market close at 3:30 PM IST";
           JStr ("Apply stop-loss at "
                 ++ toFixed1 ((((100 - riskTolerance) / 1000) * 100)%Q)
                 ++ "% to limit downside risk");
           JStr "Close all positions if overall portfolio drawdown exceeds risk tolerance limits" ]);
      ("riskParameters",
       JObj
         [ ("maxPositionSize", JNum (maxPositionSize riskTolerance));
           ("stopLoss", JNum (stopLoss riskTolerance));
           ("takeProfit", JNum (takeProfit riskTolerance));
           ("maxPositionValueINR", JNum (maxPositionValueINR riskTolerance)) ]);
      ("indicators",
       JArr [ JStr "RSI"; JStr "MACD"; JStr "SMA"; JStr "Bollinger Bands";
              JStr "Volume" ]);
      ("marketConditions",
       JArr [ JStr (strategyType ++ " trending markets");
              JStr "Indian trading hours"; JStr "High liquidity periods" ]);
      ("expectedReturn", JNum (expectedReturn riskTolerance));
      ("maxDrawdown", JNum (maxDrawdown riskTolerance));
      ("implementation",
       JStr (fallbackImplementation strategyType riskTolerance)) ].

(** [JSON.parse]; [None] when it throws. *)
Variable JSON_parse : Js.text -> option json.

(** The [try] block: the decoded answer if it decodes and passes the
    check, [None] if anything throws. *)
Definition parsedStrategy (text : Js.text) : option json :=
  match JSON_parse (cleanedText text) with
  | Some strategy => if validated strategy then Some strategy else None
  | None => None
  end.

(** [strategy] after the [try]/[catch]. *)
Definition strategyOf (strategyType : string) (riskTolerance : Q)
  (text : Js.text) : json :=
  match parsedStrategy text with
  | Some strategy => strategy
  | None => fallbackStrategy strategyType riskTolerance
  end.

(** The fields read from the request body.  [strategyType] is [None] when
    the body has no string there; [riskTolerance] is a number. *)
Record request : Type := {
  marketConditions : string;
  riskTolerance : Q;
  strategyType : option string
}.

(** The answer of the store to the insert into [strategies]: the inserted
    row (an object), an error, or an exception. *)
Inductive saveAnswer : Type :=
  | Saved (row : list (string * json))
  | SaveError
  | SaveThrows.

Inductive response : Type :=
  | Success (strategy aiGenerated : json) (warning : option string)
  | FailedToGenerate.

(** The value of a property that is there. *)
Definition propOf (v : json) (f : string) : json :=
  match getProp v f with
  | Value x => x
  | _ => JNull
  end.

(** The object returned in place of the saved row. *)
Definition unsavedStrategy (strategy : json) (strategyType : string)
  (nowMs : Q) (nowIso : string) : json :=
  JObj
    [ ("id", JNum nowMs);
      ("name", propOf strategy "name");
      ("description", propOf strategy "description");
      ("strategy_type", JStr strategyType);
      ("parameters", strategy);
      ("is_active", JBool false);
      ("created_by_ai", JBool true);
      ("created_at", JStr nowIso) ].

Definition notSavedWarning : string :=
  "Strategy generated but not saved to database. Please run database setup scripts.".

(** [POST].  [answer] is the text the language model returns ([None]: the
    call throws); [nowMs] is [Date.now()] and [nowIso] the text of the
    current date. *)
Definition POST (req : request) (answer : option Js.text) (save : saveAnswer)
  (nowMs : Q) (nowIso : string) : response :=
  match strategyType req with
  | None => FailedToGenerate
  | Some strategyType =>
      match answer with
      | None => FailedToGenerate
      | Some text =>
          let strategy := strategyOf strategyType (riskTolerance req) text in
          let savedStrategy :=
            match save with
            | Saved row => JObj row
            | _ => unsavedStrategy strategy strategyType nowMs nowIso
            end in
          Success savedStrategy strategy
            (if hasField savedStrategy "id" then None
             else Some notSavedWarning)
      end
  end.

End WithText.

End GenerateStrategy.

(** ** Concrete stores, forms and answers *)
Module Example.

Import Db.
Local Open Scope string_scope.

Definition noParseFloat (s : string) : option Q := None.

Definition clock : string := "2024-01-01T09:15:00.000Z".

(** The surroundings accept the order; [Math.random()] returns [r]. *)
Definition accepting (r : Q) : PortfolioManagement.world :=
  {| PortfolioManagement.random := r;
     PortfolioManagement.now := clock;
     PortfolioManagement.orderError := None;
     PortfolioManagement.newId := 41 |}.

(** A market order of agent [agent-1] for [TCS]. *)
Definition tcsOrder (side : OrderSide) (quantity : string)
  : PortfolioManagement.form :=
  {| PortfolioManagement.selectedAgent := "agent-1";
     PortfolioManagement.selectedSymbol := "TCS";
     PortfolioManagement.orderQuantity := quantity;
     PortfolioManagement.orderType := market;
     PortfolioManagement.orderSide := side;
     PortfolioManagement.limitPrice := EmptyString |}.

Definition emptyStore : database :=
  {| orders := []; portfolio_positions := [] |}.

(** A position of 10 TCS bought at 100 and refreshed at 100. *)
Definition tcsPosition : position :=
  {| id := 1;
     agent_id := "agent-1";
     symbol := "TCS";
     quantity := 10;
     avg_price := Some 100;
     average_price := Some 100;
     current_price := Some 100;
     market_value := Some 1000;
     unrealized_pnl := Some 0;
     created_at := Some clock;
     updated_at := Some clock |}.

Definition tcsStore : database :=
  {| orders := []; portfolio_positions := [tcsPosition] |}.

(** The market data answer: TCS closes at 100. *)
Definition tcsAt100 (symbols : list string) : option UpdatePrices.marketData :=
  Some {| UpdatePrices.success := true;
          UpdatePrices.data :=
            [ {| UpdatePrices.m_symbol := "TCS";
                 UpdatePrices.close_price := 100 |} ] |}.

(** The first mock recommendation of the component. *)
Definition sellReliance : PortfolioManagement.RebalanceRecommendation :=
  {| PortfolioManagement.rec_symbol := "RELIANCE";
     PortfolioManagement.currentAllocation := 25;
     PortfolioManagement.targetAllocation := 20;
     PortfolioManagement.recommendedAction := PortfolioManagement.rec_sell;
     PortfolioManagement.rec_quantity := 50;
     PortfolioManagement.reason :=
       "Overweight position, reduce concentration risk" |}.

(** A position whose price moved to 120 with no stored market value. *)
Definition unrefreshed : position :=
  {| id := 2;
     agent_id := "agent-1";
     symbol := "INFY";
     quantity := 10;
     avg_price := None;
     average_price := Some 100;
     current_price := Some 120;
     market_value := None;
     unrealized_pnl := None;
     created_at := Some clock;
     updated_at := Some clock |}.

(** A short position of 10 ITC, worth -100 at the price 10. *)
Definition shortPosition : position :=
  {| id := 3;
     agent_id := "agent-1";
     symbol := "ITC";
     quantity := - (10);
     avg_price := None;
     average_price := Some 12;
     current_price := Some 10;
     market_value := Some (- (100));
     unrealized_pnl := Some 20;
     created_at := Some clock;
     updated_at := Some clock |}.

(** A decoder that rejects every text, and plain renderings. *)
Definition rejectAll (t : Js.text) : option GenerateStrategy.json := None.

Definition printNumber (q : Q) : string := "50".

Definition sameCase (s : string) : string := s.

(** A request for a momentum strategy at risk tolerance 50. *)
Definition momentumRequest : GenerateStrategy.request :=
  {| GenerateStrategy.marketConditions := "volatile";
     GenerateStrategy.riskTolerance := 50;
     GenerateStrategy.strategyType := Some "Momentum" |}.

End Example.

(** ** The market data endpoint *)
Module LiveData.

Local Open Scope string_scope.

Definition TRACKED_SYMBOLS : list string :=
  [ "RELIANCE"; "TCS"; "INFY"; "HDFCBANK"; "ICICIBANK"; "HINDUNILVR"; "ITC";
    "SBIN"; "BHARTIARTL"; "ASIANPAINT" ].

Record stockInfo : Type := {
  base : Q;
  range : Q
}.

Definition indianStockPrices : list (string * stockInfo) :=
  [ ("RELIANCE", {| base := 2470; range := 50 |});
    ("TCS", {| base := 3675; range := 80 |});
    ("INFY", {| base := 1540; range := 30 |});
    ("HDFCBANK", {| base := 1690; range := 40 |});
    ("ICICIBANK", {| base := 960; range := 25 |});
    ("HINDUNILVR", {| base := 2390; range := 30 |});
    ("ITC", {| base := 425; range := 15 |});
    ("SBIN", {| base := 588; range := 20 |});
    ("BHARTIARTL", {| base := 1190; range := 25 |});
    ("ASIANPAINT", {| base := 3270; range := 40 |}) ].

(** The names of the members every object inherits from
    [Object.prototype]. *)
Definition inheritedNames : list string :=
  [ "constructor"; "__defineGetter__"; "__defineSetter__"; "hasOwnProperty";
    "__lookupGetter__"; "__lookupSetter__"; "isPrototypeOf";
    "propertyIsEnumerable"; "toString"; "valueOf"; "__proto__";
    "toLocaleString" ].

(** [indianStockPrices[symbol] || { base: 1000, range: 50 }].  [None]: the
    symbol is not in the table but names an inherited member; what is read
    is then a function or an object, which is truthy and has neither
    [base] nor [range]. *)
Definition stockInfoOf (symbol : string) : option stockInfo :=
  match find (fun kv => String.eqb (fst kv) symbol) indianStockPrices with
  | Some kv => Some (snd kv)
  | None =>
      if existsb (String.eqb symbol) inheritedNames then None
      else Some {| base := 1000; range := 50 |}
  end.

(** The five values of [Math.random()] one call of [fetchSymbolData] reads,
    in the order it reads them. *)
Record draws : Type := {
  d_base : Q;
  d_change : Q;
  d_high : Q;
  d_low : Q;
  d_volume : Q
}.

(** A price is [None] when it is [NaN], which is sent as [null]. *)
Record symbolData : Type := {
  symbol : string;
  open_price : option Q;
  high_price : option Q;
  low_price : option Q;
  close_price : option Q;
  volume : Z;
  change : Q;
  change_percent : string
}.

Inductive response : Type :=
  | Data (data : list symbolData)
  | FailedToUpdateMarketData.

Section WithToFixed.

(** [x.toFixed(2)]; [None] is a number that is not finite. *)
Variable toFixed2 : option Q -> string.

(** [fetchSymbolData].  [basePrice] is [None] ([NaN]) when the base and the
    range read are undefined. *)
Definition fetchSymbolData (symbol : string) (d : draws) : symbolData :=
  let basePrice :=
    match stockInfoOf symbol with
    | Some stockInfo =>
        Some (base stockInfo + (d_base d - 0.5) * range stockInfo)%Q
    | None => None
    end in
  let change := ((d_change d - 0.5) * 20)%Q in
  {| symbol := symbol;
     open_price := option_map (fun b => b - change * 0.5)%Q basePrice;
     high_price := option_map (fun b => b + d_high d * 10)%Q basePrice;
     low_price := option_map (fun b => b - d_low d * 10)%Q basePrice;
     close_price := option_map (fun b => b + change)%Q basePrice;
     volume := (Qfloor (d_volume d * 2000000) + 100000)%Z;
     change := change;
     change_percent :=
       toFixed2 (match basePrice with
                 | Some b =>
                     if Qeq_bool b 0 then None
                     else Some ((change / b) * 100)%Q
                 | None => None
                 end)
       ++ "%" |}.

(** [symbols.map(fetchSymbolData)]: the [i]-th symbol reads [draw i]. *)
Fixpoint fetchEach (draw : nat -> draws) (i : nat) (symbols : list string)
  : list symbolData :=
  match symbols with
  | [] => []
  | symbol :: rest =>
      fetchSymbolData symbol (draw i) :: fetchEach draw (S i) rest
  end.

(** [POST]: the body of the answer.  [symbols] is [None] when the request
    has no list there.  The upsert into [market_data], whose outcome the
    handler ignores, is left out. *)
Definition POST (symbols : option (list string)) (draw : nat -> draws)
  : response :=
  match symbols with
  | Some l => Data (fetchEach draw 0 l)
  | None => FailedToUpdateMarketData
  end.

(** [GET]: the data of the one symbol asked for, or of all tracked
    symbols. *)
Definition GET (symbol : option string) (draw : nat -> draws)
  : symbolData + list symbolData :=
  match symbol with
  | Some s =>
      if Js.truthy s then inl (fetchSymbolData s (draw 0%nat))
      else inr (fetchEach draw 0 TRACKED_SYMBOLS)
  | None => inr (fetchEach draw 0 TRACKED_SYMBOLS)
  end.

End WithToFixed.

(** The records as entries of the price refresh.  [None]: some record has
    no close price; an entry of [UpdatePrices] holds a number there. *)
Fixpoint entries (l : list symbolData) : option (list UpdatePrices.market) :=
  match l with
  | [] => Some []
  | d :: rest =>
      match close_price d, entries rest with
      | Some c, Some es =>
          Some ({| UpdatePrices.m_symbol := symbol d;
                   UpdatePrices.close_price := c |} :: es)
      | _, _ => None
      end
  end.

(** The answer as the price refresh decodes it, when every close price is
    a number. *)
Definition asMarketData (r : response) : option UpdatePrices.marketData :=
  match r with
  | Data l =>
      option_map
        (fun es => {| UpdatePrices.success := true; UpdatePrices.data := es |})
        (entries l)
  | FailedToUpdateMarketData =>
      Some {| UpdatePrices.success := false; UpdatePrices.data := [] |}
  end.

End LiveData.

(** ** The trading dashboard: positions and totals *)
Module TradingDashboard.

(** A row of [positions], with the columns the dashboard reads. *)
Record positionRow : Type := {
  symbol : string;
  quantity : Q;
  average_price : option Q;
  current_price : option Q
}.

Record PortfolioPosition : Type := {
  p_symbol : string;
  p_quantity : Q;
  p_average_price : option Q;
  p_current_price : option Q;
  market_value : Q;
  unrealized_pnl : Q
}.

(** The answer of the selection. *)
Inductive selection : Type :=
  | SelectError
  | Selected (data : option (list positionRow)).

(** One element of [transformedPositions]. *)
Definition transform (position : positionRow) : PortfolioPosition :=
  let shown := Js.orNull (current_price position) (average_price position) in
  {| p_symbol := symbol position;
     p_quantity := quantity position;
     p_average_price := average_price position;
     p_current_price := shown;
     market_value := quantity position * Js.toNumber shown;
     unrealized_pnl :=
       quantity position
       * (Js.toNumber shown - Js.toNumber (average_price position)) |}.

(** [fetchPositions]: the positions the component keeps. *)
Definition fetchPositions (answer : selection) : list PortfolioPosition :=
  match answer with
  | SelectError => []
  | Selected None => []
  | Selected (Some data) => map transform data
  end.

End TradingDashboard.

(** ** Conditions on texts *)
Module Text.

(** The text consists of white space only. *)
Definition allWhite (t : Js.text) : bool := forallb Js.isSpace t.

(** The text is not empty and has no white space at either end. *)
Definition tight (t : Js.text) : Prop :=
  t <> [] /\ Js.skipSpace t = t /\ Js.skipSpace (rev t) = rev t.

End Text.

(** ** Conditions on the store *)
Module Store.

Import Db.

(** The ids are a key of [portfolio_positions]. *)
Definition uniqueIds (tbl : list position) : Prop := NoDup (map id tbl).

(** No agent has two rows for one symbol. *)
Definition onePerKey (tbl : list position) : Prop :=
  forall a s : string,
    (List.length (filter (PortfolioManagement.isPosition a s) tbl) <= 1)%nat.

(** [Math.random()] returns a number from 0 (included) to 1 (excluded). *)
Definition unit (r : Q) : Prop := 0 <= r /\ r < 1.

(** All five values are in the range of [Math.random()]. *)
Definition unitDraws (d : LiveData.draws) : Prop :=
  unit (LiveData.d_base d) /\ unit (LiveData.d_change d)
  /\ unit (LiveData.d_high d) /\ unit (LiveData.d_low d)
  /\ unit (LiveData.d_volume d).

(** Did the store accept the order insert of a rebalancing step? *)
Definition accepted
  (step : PortfolioManagement.world
          * PortfolioManagement.RebalanceRecommendation) : bool :=
  match PortfolioManagement.orderError (fst step) with
  | None => true
  | Some _ => false
  end.

End Store.

(** ** Further concrete stores and answers *)
Module Sample.

Import Db.
Local Open Scope string_scope.

(** The store refuses the order with [message]. *)
Definition rejecting (message : string) : PortfolioManagement.world :=
  {| PortfolioManagement.random := 0;
     PortfolioManagement.now := Example.clock;
     PortfolioManagement.orderError := Some message;
     PortfolioManagement.newId := 41 |}.

(** A second row of agent-1 for TCS. *)
Definition tcsAgain : position :=
  {| id := 7;
     agent_id := "agent-1";
     symbol := "TCS";
     quantity := 4;
     avg_price := Some 90;
     average_price := Some 90;
     current_price := Some 100;
     market_value := Some 400;
     unrealized_pnl := Some 40;
     created_at := Some Example.clock;
     updated_at := Some Example.clock |}.

Definition duplicated : database :=
  {| orders := []; portfolio_positions := [Example.tcsPosition; tcsAgain] |}.

(** A flat position (quantity 0) of agent-1 in SBIN. *)
Definition flat : position :=
  {| id := 9;
     agent_id := "agent-1";
     symbol := "SBIN";
     quantity := 0;
     avg_price := Some 0;
     average_price := Some 580;
     current_price := Some 585;
     market_value := Some 0;
     unrealized_pnl := Some 0;
     created_at := Some Example.clock;
     updated_at := Some Example.clock |}.

Definition portfolio : list position :=
  [Example.tcsPosition; Example.unrefreshed; flat].

Definition portfolioStore : database :=
  {| orders := []; portfolio_positions := portfolio |}.

(** Every call of [Math.random()] returns one half. *)
Definition halves (i : nat) : LiveData.draws :=
  {| LiveData.d_base := 1 # 2;
     LiveData.d_change := 1 # 2;
     LiveData.d_high := 1 # 2;
     LiveData.d_low := 1 # 2;
     LiveData.d_volume := 1 # 2 |}.

Definition printFixed (x : option Q) : string := "0.00".

(** An answer of the market data endpoint for TCS and INFY. *)
Definition twoPrices : UpdatePrices.marketData :=
  {| UpdatePrices.success := true;
     UpdatePrices.data :=
       [ {| UpdatePrices.m_symbol := "TCS";
            UpdatePrices.close_price := 100 |};
         {| UpdatePrices.m_symbol := "INFY";
            UpdatePrices.close_price := 120 |} ] |}.

Definition answering (symbols : list string)
  : option UpdatePrices.marketData := Some twoPrices.

(** Three positions with the stored market value 1000 each. *)
Definition thirds : list position :=
  [Example.tcsPosition; Example.tcsPosition; Example.tcsPosition].

(** The columns the dashboard reads, with the values of a portfolio
    position. *)
Definition dashboardRow (r : position) : TradingDashboard.positionRow :=
  {| TradingDashboard.symbol := symbol r;
     TradingDashboard.quantity := quantity r;
     TradingDashboard.average_price := average_price r;
     TradingDashboard.current_price := current_price r |}.

End Sample.

(** ** What the price refresh should leave in a row *)
Module Refreshed.

Import Db.

(** The entry of the answer that decides the row: the last one for its
    symbol, if the row is held. *)
Definition lastEntry (entries : list UpdatePrices.market) (r : position)
  : option UpdatePrices.market :=
  if UpdatePrices.held r
  then find (fun m => String.eqb (symbol r) (UpdatePrices.m_symbol m))
         (rev entries)
  else None.

(** The row after the refresh: rewritten from its entry, or as it was. *)
Definition refreshed (t : string) (entries : list UpdatePrices.market)
  (r : position) : position :=
  match lastEntry entries r with
  | Some m => applyPatch (UpdatePrices.priceUpdate m r t) r
  | None => r
  end.

(** What one entry does to a row: a held row of its symbol is rewritten
    from it. *)
Definition onEntry (t : string) (m : UpdatePrices.market) (r : position)
  : position :=
  if String.eqb (symbol r) (UpdatePrices.m_symbol m) && UpdatePrices.held r
  then applyPatch (UpdatePrices.priceUpdate m r t) r
  else r.

(** The symbols the refresh asks the market data endpoint for. *)
Definition asked (tbl : list position) : list string :=
  UpdatePrices.unique [] (map symbol (filter UpdatePrices.held tbl)).

End Refreshed.

(** * Properties *)

Import Db.

(** ** The helpers on concrete texts *)

Section HelperChecks.

Local Open Scope string_scope.

Example parseInt_digits : Js.parseInt "5" = Some 5%Z.
Proof. reflexivity. Qed.

Example parseInt_prefix : Js.parseInt "  42abc" = Some 42%Z.
Proof. reflexivity. Qed.

Example parseInt_fraction : Js.parseInt "12.5" = Some 12%Z.
Proof. reflexivity. Qed.

Example parseInt_negative : Js.parseInt "-7" = Some (-7)%Z.
Proof. reflexivity. Qed.

Example parseInt_hex : Js.parseInt "0x1f" = Some 31%Z.
Proof. reflexivity. Qed.

Example parseInt_letters : Js.parseInt "abc" = None.
Proof. reflexivity. Qed.

Example parseInt_empty : Js.parseInt EmptyString = None.
Proof. reflexivity. Qed.

(** In double precision the largest value of [Math.random()] gives the
    fill price 1500. *)
Example fill_price_rounds_up :
  Double.round (Double.round ((1 - Double.u) * 1000) + 500) == 1500.
Proof. vm_compute. reflexivity. Qed.

(** Three equal shares of 100 per cent in double precision. *)
Example thirds_in_doubles :
  Double.round (Double.round (1000 / 3000) * 100)
  == 2345624805922133 # 70368744177664.
Proof. vm_compute. reflexivity. Qed.

Example setupError_schema_cache :
  PortfolioManagement.setupError
    "Could not find the table 'public.orders' in the schema cache" = true.
Proof. reflexivity. Qed.

Example setupError_missing_relation :
  PortfolioManagement.setupError "relation orders does not exist" = true.
Proof. reflexivity. Qed.

Example setupError_other :
  PortfolioManagement.setupError "permission denied" = false.
Proof. reflexivity. Qed.

Example unique_symbols :
  UpdatePrices.unique [] ["TCS"; "INFY"; "TCS"] = ["TCS"; "INFY"].
Proof. reflexivity. Qed.

Example parseInt_no_break_space :
  Js.parseInt (String (ascii_of_nat 160) "7") = Some 7%Z.
Proof. reflexivity. Qed.

Example cleanedText_fenced :
  GenerateStrategy.cleanedText
    (Js.units (GenerateStrategy.joinLines ["  ```json"; "{}"; "```  "]))
  = Js.units "{}".
Proof. reflexivity. Qed.

Example cleanedText_plain :
  GenerateStrategy.cleanedText (Js.units " {} ") = Js.units "{}".
Proof. reflexivity. Qed.

Example cleanedText_no_break_space :
  GenerateStrategy.cleanedText
    ([160; 65279]%N ++ Js.units "{}" ++ [8232]%N)%list
  = Js.units "{}".
Proof. reflexivity. Qed.

End HelperChecks.

(** ** Selections and updates *)

Lemma single_some (A : Type) (rows : list A) (r : A) :
  single rows = Some r -> rows = [r].
Proof.
  destruct rows as [|x [|y rest]]; simpl; intros H; try discriminate.
  now injection H as ->.
Qed.

Lemma filter_map_stable (A : Type) (keep : A -> bool) (g : A -> A) (l : list A) :
  (forall r, keep (g r) = keep r) ->
  filter keep (map g l) = map g (filter keep l).
Proof.
  intros Hg. induction l as [|x l IH]; simpl; [reflexivity|].
  rewrite Hg. destruct (keep x); simpl; now rewrite IH.
Qed.

Lemma isPosition_applyPatch a s p r :
  PortfolioManagement.isPosition a s (applyPatch p r)
  = PortfolioManagement.isPosition a s r.
Proof. reflexivity. Qed.

(** Updating through the id of the selected row rewrites that row and leaves
    it the only row of the selection. *)
Lemma filter_updateById a s p existing tbl :
  filter (PortfolioManagement.isPosition a s) tbl = [existing] ->
  filter (PortfolioManagement.isPosition a s) (updateById p (id existing) tbl)
  = [applyPatch p existing].
Proof.
  intros Hsel. unfold updateById.
  rewrite filter_map_stable.
  - rewrite Hsel. simpl. now rewrite Nat.eqb_refl.
  - intros r. destruct (Nat.eqb (id r) (id existing));
      [apply isPosition_applyPatch | reflexivity].
Qed.

Lemma isPosition_newPosition i a s price q t :
  PortfolioManagement.isPosition a s
    (PortfolioManagement.newPosition i a s price q t) = true.
Proof.
  unfold PortfolioManagement.isPosition. simpl.
  now rewrite !String.eqb_refl.
Qed.

(** The selection of the agent and symbol after the position write. *)
Lemma filter_writePosition i a s price q t tbl :
  filter (PortfolioManagement.isPosition a s)
    (PortfolioManagement.writePosition tbl i a s price q t)
  = match single (filter (PortfolioManagement.isPosition a s) tbl) with
    | Some existing =>
        [applyPatch (PortfolioManagement.positionUpdate existing price q t)
           existing]
    | None =>
        filter (PortfolioManagement.isPosition a s) tbl
        ++ [PortfolioManagement.newPosition i a s price q t]
    end.
Proof.
  unfold PortfolioManagement.writePosition.
  destruct (single _) as [existing|] eqn:Hs.
  - apply filter_updateById. now apply single_some.
  - rewrite filter_app. simpl. now rewrite isPosition_newPosition.
Qed.

(** ** What [executeOrder] does when the order goes through *)

Lemma truthy_false (s : string) : Js.truthy s = false <-> s = EmptyString.
Proof.
  unfold Js.truthy. destruct (String.eqb_spec s EmptyString) as [->|Hne];
    simpl; split; intros H; congruence.
Qed.

Lemma truthy_true (s : string) : s <> EmptyString -> Js.truthy s = true.
Proof.
  intros H. destruct (Js.truthy s) eqn:E; [reflexivity|].
  apply truthy_false in E. contradiction.
Qed.

Lemma executeOrder_placed parseFloat db f w n :
  PortfolioManagement.complete f ->
  Js.parseInt (PortfolioManagement.orderQuantity f) = Some n ->
  PortfolioManagement.orderError w = None ->
  PortfolioManagement.executeOrder parseFloat db f w
  = Some
      {| PortfolioManagement.out_db :=
           {| orders :=
                orders db
                ++ [PortfolioManagement.orderRow parseFloat f n
                      (PortfolioManagement.now w)];
              portfolio_positions :=
                PortfolioManagement.writePosition (portfolio_positions db)
                  (PortfolioManagement.newId w)
                  (PortfolioManagement.selectedAgent f)
                  (PortfolioManagement.selectedSymbol f)
                  (PortfolioManagement.fillPrice w)
                  (PortfolioManagement.signedQuantity
                     (PortfolioManagement.orderSide f) n)
                  (PortfolioManagement.now w) |};
         PortfolioManagement.out_form := PortfolioManagement.resetForm f;
         PortfolioManagement.out_toast := PortfolioManagement.OrderPlaced |}.
Proof.
  intros (Ha & Hs & Hq) Hn He. unfold PortfolioManagement.executeOrder.
  rewrite (truthy_true Ha), (truthy_true Hs), (truthy_true Hq). simpl.
  now rewrite Hn, He.
Qed.

Section OrderExecution.

Import PortfolioManagement.

Variable parseFloat : string -> option Q.

(** C8.  If the agent, the symbol or the order quantity is absent (the
    empty text) when the order is submitted, [executeOrder] inserts no
    order row and writes no position: the database is unchanged, the form
    is kept, and the validation error "Missing Information" is reported. *)
Theorem executeOrder_missing_information (db : database) (f : form) (w : world) :
  selectedAgent f = EmptyString
  \/ selectedSymbol f = EmptyString
  \/ orderQuantity f = EmptyString ->
  executeOrder parseFloat db f w
  = Some {| out_db := db; out_form := f; out_toast := MissingInformation |}.
Proof.
  intros H. unfold executeOrder.
  assert (E : negb (Js.truthy (selectedAgent f))
              || negb (Js.truthy (selectedSymbol f))
              || negb (Js.truthy (orderQuantity f)) = true).
  { destruct H as [H | [H | H]]; apply truthy_false in H; rewrite H;
      simpl; rewrite ?orb_true_r; reflexivity. }
  now rewrite E.
Qed.

(** C1, on the code.  For every order that is executed (complete form,
    integer quantity [n], order row accepted) against the existing position
    of the agent and symbol, the position stays the same row and its
    quantity becomes the old quantity plus [n] for a buy and minus [n] for
    a sell.  The weighted average of the claim,
    [(old_avg * old_qty + fill_price * signed_qty) / new_qty] ([0] when
    the new quantity is zero), is computed from the column [avg_price] and
    written to the column [avg_price].  The column [average_price], which
    the component itself displays and which the price refresh, the tracker
    and the dashboard read as the average price of the position, is left
    as it was. *)
Theorem executeOrder_existing_position
  (db : database) (f : form) (w : world) (n : Z) (existing : position) :
  complete f ->
  Js.parseInt (orderQuantity f) = Some n ->
  orderError w = None ->
  single (filter (isPosition (selectedAgent f) (selectedSymbol f))
            (portfolio_positions db)) = Some existing ->
  let old_qty := quantity existing in
  let old_avg := Js.toNumber (avg_price existing) in
  let fill_price := random w * 1000 + 500 in
  exists (out : outcome) (updated : position),
    executeOrder parseFloat db f w = Some out
    /\ out_toast out = OrderPlaced
    /\ filter (isPosition (selectedAgent f) (selectedSymbol f))
         (portfolio_positions (out_db out)) = [updated]
    /\ id updated = id existing
    /\ (orderSide f = buy ->
        quantity updated = old_qty + inject_Z n
        /\ avg_price updated
           = Some (if Qeq_bool (old_qty + inject_Z n) 0 then 0
                   else (old_avg * old_qty + fill_price * inject_Z n)
                        / (old_qty + inject_Z n)))
    /\ (orderSide f = sell ->
        quantity updated = old_qty - inject_Z n
        /\ avg_price updated
           = Some (if Qeq_bool (old_qty - inject_Z n) 0 then 0
                   else (old_avg * old_qty + fill_price * - inject_Z n)
                        / (old_qty - inject_Z n)))
    /\ average_price updated = average_price existing.
Proof.
  intros Hc Hn He Hs old_qty old_avg fill_price.
  eexists. eexists.
  split; [eapply executeOrder_placed; eassumption|].
  split; [reflexivity|]. simpl.
  rewrite filter_writePosition, Hs.
  split; [reflexivity|].
  split; [reflexivity|].
  split; [|split].
  - intros ->. split; reflexivity.
  - intros ->. split; reflexivity.
  - reflexivity.
Qed.

End OrderExecution.

(** ** Quantities and average prices over several orders *)

Lemma sum_snoc (l : list Q) (x : Q) :
  fold_right Qplus 0 (l ++ [x]) == fold_right Qplus 0 l + x.
Proof.
  induction l as [|y l IH]; simpl.
  - ring.
  - rewrite IH. ring.
Qed.

(** The position write adds the signed quantity to what the agent holds. *)
Lemma heldQuantity_writePosition i a s price q t tbl :
  PortfolioManagement.heldQuantity a s
    (PortfolioManagement.writePosition tbl i a s price q t)
  == PortfolioManagement.heldQuantity a s tbl + q.
Proof.
  unfold PortfolioManagement.heldQuantity.
  rewrite filter_writePosition.
  destruct (single _) as [existing|] eqn:Hs.
  - apply single_some in Hs. rewrite Hs. simpl. ring.
  - rewrite map_app. simpl. apply sum_snoc.
Qed.

Lemma signedQuantity_sum_zero side n1 n2 :
  PortfolioManagement.signedQuantity side n1
  + PortfolioManagement.signedQuantity side n2 == 0 ->
  (n1 + n2 = 0)%Z.
Proof.
  intros H. apply inject_Z_injective. rewrite inject_Z_plus.
  destruct side; simpl in H.
  - exact H.
  - transitivity (- (- inject_Z n1 + - inject_Z n2)); [ring|].
    rewrite H. reflexivity.
Qed.

Section OrderSequences.

Import PortfolioManagement.

Variable parseFloat : string -> option Q.

(** C3, on the code.  Starting from no position of the agent in the
    symbol, two executed orders of the same side, of quantities [q1] and
    [q2] (with [q1 + q2] not zero) that fill at prices [p1] and [p2], leave
    one position.  Its column [avg_price] holds
    [(p1*q1 + p2*q2) / (q1 + q2)]; its column [average_price], which is
    the average price of the position for the component's own table, the
    price refresh, the tracker and the dashboard, has not been written by
    either order and is null. *)
Theorem two_fills_weighted_average
  (db : database) (f1 f2 : form) (w1 w2 : world) (n1 n2 : Z) :
  complete f1 -> complete f2 ->
  selectedAgent f2 = selectedAgent f1 ->
  selectedSymbol f2 = selectedSymbol f1 ->
  orderSide f2 = orderSide f1 ->
  Js.parseInt (orderQuantity f1) = Some n1 ->
  Js.parseInt (orderQuantity f2) = Some n2 ->
  orderError w1 = None -> orderError w2 = None ->
  filter (isPosition (selectedAgent f1) (selectedSymbol f1))
    (portfolio_positions db) = [] ->
  (n1 + n2 <> 0)%Z ->
  let q1 := inject_Z n1 in
  let q2 := inject_Z n2 in
  let p1 := random w1 * 1000 + 500 in
  let p2 := random w2 * 1000 + 500 in
  exists (out1 out2 : outcome) (held : position) (avg : Q),
    executeOrder parseFloat db f1 w1 = Some out1
    /\ executeOrder parseFloat (out_db out1) f2 w2 = Some out2
    /\ filter (isPosition (selectedAgent f1) (selectedSymbol f1))
         (portfolio_positions (out_db out2)) = [held]
    /\ avg_price held = Some avg
    /\ avg == (p1 * q1 + p2 * q2) / (q1 + q2)
    /\ average_price held = None.
Proof.
  intros Hc1 Hc2 Ha Hs Hside Hn1 Hn2 He1 He2 Hnone Hsum q1 q2 p1 p2.
  eexists. eexists. eexists. eexists.
  split; [eapply executeOrder_placed; eassumption|].
  split; [eapply executeOrder_placed; eassumption|].
  simpl. rewrite Ha, Hs, Hside.
  rewrite filter_writePosition, filter_writePosition, Hnone. simpl.
  split; [reflexivity|]. simpl.
  split; [reflexivity|].
  split; [|reflexivity].
  unfold newAvgPrice, fillPrice. simpl. fold p1 p2.
  assert (Hq : ~ q1 + q2 == 0).
  { intros H. apply Hsum. apply inject_Z_injective.
    now rewrite inject_Z_plus. }
  destruct (Qeq_bool _ 0) eqn:E.
  - apply Qeq_bool_iff in E. apply signedQuantity_sum_zero in E.
    contradiction.
  - destruct (orderSide f1); simpl; fold q1 q2.
    + reflexivity.
    + field. split; [exact Hq|].
      intros H. apply Hq.
      transitivity (- (- q1 + - q2)); [ring|]. rewrite H. reflexivity.
Qed.

(** C4.  For every starting state of the positions, a buy order of quantity
    [q] followed by a sell order of quantity [q] for the same agent and
    symbol (both executed) returns the quantity held in the symbol to its
    value before the two trades; when there was exactly one position row,
    it is still the only one and its quantity is back at its old value. *)
Theorem buy_then_sell_restores_quantity
  (db : database) (fb fs : form) (wb ws : world) (n : Z) :
  complete fb -> complete fs ->
  selectedAgent fs = selectedAgent fb ->
  selectedSymbol fs = selectedSymbol fb ->
  orderSide fb = buy -> orderSide fs = sell ->
  Js.parseInt (orderQuantity fb) = Some n ->
  Js.parseInt (orderQuantity fs) = Some n ->
  orderError wb = None -> orderError ws = None ->
  exists out1 out2 : outcome,
    executeOrder parseFloat db fb wb = Some out1
    /\ executeOrder parseFloat (out_db out1) fs ws = Some out2
    /\ heldQuantity (selectedAgent fb) (selectedSymbol fb)
         (portfolio_positions (out_db out2))
       == heldQuantity (selectedAgent fb) (selectedSymbol fb)
            (portfolio_positions db)
    /\ forall existing : position,
         filter (isPosition (selectedAgent fb) (selectedSymbol fb))
           (portfolio_positions db) = [existing] ->
         exists updated : position,
           filter (isPosition (selectedAgent fb) (selectedSymbol fb))
             (portfolio_positions (out_db out2)) = [updated]
           /\ id updated = id existing
           /\ quantity updated == quantity existing.
Proof.
  intros Hcb Hcs Ha Hs Hb Hsell Hnb Hns Heb Hes.
  eexists. eexists.
  split; [eapply executeOrder_placed; eassumption|].
  split; [eapply executeOrder_placed; eassumption|].
  simpl. rewrite Ha, Hs, Hb, Hsell. simpl. split.
  - rewrite !heldQuantity_writePosition. ring.
  - intros existing Hex.
    rewrite filter_writePosition, filter_writePosition, Hex. simpl.
    eexists. split; [reflexivity|]. split; [reflexivity|]. simpl. ring.
Qed.

End OrderSequences.

(** ** The order paths on concrete inputs *)

Section OrderExamples.

Import PortfolioManagement Example.
Local Open Scope string_scope.

Lemma executeOrder_missing_information_witness :
  executeOrder noParseFloat tcsStore (tcsOrder buy EmptyString) (accepting 0)
  = Some {| out_db := tcsStore;
            out_form := tcsOrder buy EmptyString;
            out_toast := MissingInformation |}.
Proof.
  apply (@executeOrder_missing_information noParseFloat tcsStore
           (tcsOrder buy EmptyString) (accepting 0)).
  right. right. reflexivity.
Defined.

Lemma executeOrder_existing_position_witness :
  (exists (out : outcome) (updated : position) (avg : Q),
     executeOrder noParseFloat tcsStore (tcsOrder buy "5") (accepting (1 # 5))
     = Some out
     /\ filter (isPosition "agent-1" "TCS") (portfolio_positions (out_db out))
        = [updated]
     /\ quantity updated = 10 + 5
     /\ avg_price updated = Some avg
     /\ avg == 300
     /\ average_price updated = Some 100)
  /\ (exists (out : outcome) (updated : position) (avg : Q),
        executeOrder noParseFloat tcsStore (tcsOrder sell "5")
          (accepting (1 # 5)) = Some out
        /\ filter (isPosition "agent-1" "TCS")
             (portfolio_positions (out_db out)) = [updated]
        /\ quantity updated = 10 - 5
        /\ avg_price updated = Some avg
        /\ avg == - (500)
        /\ average_price updated = Some 100).
Proof.
  split.
  - destruct (@executeOrder_existing_position noParseFloat tcsStore
                (tcsOrder buy "5") (accepting (1 # 5)) 5%Z tcsPosition)
      as (out & updated & Hrun & _ & Hsel & _ & Hbuy & _ & Hkept).
    + repeat split; discriminate.
    + reflexivity.
    + reflexivity.
    + reflexivity.
    + destruct (Hbuy eq_refl) as [Hq Havg].
      exists out, updated. eexists.
      split; [exact Hrun|]. split; [exact Hsel|]. split; [exact Hq|].
      split; [exact Havg|]. split; [vm_compute; reflexivity | exact Hkept].
  - destruct (@executeOrder_existing_position noParseFloat tcsStore
                (tcsOrder sell "5") (accepting (1 # 5)) 5%Z tcsPosition)
      as (out & updated & Hrun & _ & Hsel & _ & _ & Hsell & Hkept).
    + repeat split; discriminate.
    + reflexivity.
    + reflexivity.
    + reflexivity.
    + destruct (Hsell eq_refl) as [Hq Havg].
      exists out, updated. eexists.
      split; [exact Hrun|]. split; [exact Hsel|]. split; [exact Hq|].
      split; [exact Havg|]. split; [vm_compute; reflexivity | exact Hkept].
Defined.

Lemma two_fills_weighted_average_witness :
  exists (out1 out2 : outcome) (held : position) (avg : Q),
    executeOrder noParseFloat emptyStore (tcsOrder buy "10") (accepting 0)
    = Some out1
    /\ executeOrder noParseFloat (out_db out1) (tcsOrder buy "5")
         (accepting (1 # 5)) = Some out2
    /\ filter (isPosition "agent-1" "TCS")
         (portfolio_positions (out_db out2)) = [held]
    /\ avg_price held = Some avg
    /\ avg == (500 * 10 + 700 * 5) / (10 + 5)
    /\ average_price held = None.
Proof.
  destruct (@two_fills_weighted_average noParseFloat emptyStore
              (tcsOrder buy "10") (tcsOrder buy "5")
              (accepting 0) (accepting (1 # 5)) 10%Z 5%Z)
    as (out1 & out2 & held & avg & H1 & H2 & Hsel & Havg & Heq & Hnull).
  - repeat split; discriminate.
  - repeat split; discriminate.
  - reflexivity.
  - reflexivity.
  - reflexivity.
  - reflexivity.
  - reflexivity.
  - reflexivity.
  - reflexivity.
  - reflexivity.
  - lia.
  - exists out1, out2, held, avg.
    split; [exact H1|]. split; [exact H2|].
    split; [exact Hsel|]. split; [exact Havg|].
    split; [rewrite Heq; vm_compute; reflexivity | exact Hnull].
Defined.

Lemma buy_then_sell_restores_quantity_witness :
  exists out1 out2 : outcome,
    executeOrder noParseFloat tcsStore (tcsOrder buy "5") (accepting 0)
    = Some out1
    /\ executeOrder noParseFloat (out_db out1) (tcsOrder sell "5")
         (accepting (1 # 5)) = Some out2
    /\ heldQuantity "agent-1" "TCS" (portfolio_positions (out_db out2)) == 10.
Proof.
  destruct (@buy_then_sell_restores_quantity noParseFloat tcsStore
              (tcsOrder buy "5") (tcsOrder sell "5")
              (accepting 0) (accepting (1 # 5)) 5%Z)
    as (out1 & out2 & H1 & H2 & Hheld & _).
  - repeat split; discriminate.
  - repeat split; discriminate.
  - reflexivity.
  - reflexivity.
  - reflexivity.
  - reflexivity.
  - reflexivity.
  - reflexivity.
  - reflexivity.
  - reflexivity.
  - exists out1, out2. split; [exact H1|]. split; [exact H2|].
    rewrite Hheld. vm_compute. reflexivity.
Defined.

End OrderExamples.

(** ** The cached columns and the status of orders *)

(** The row the price refresh writes satisfies the invariant of the data
    model. *)
Lemma priceUpdate_cachesDerivable (m : UpdatePrices.market) (r : position)
  (t : string) :
  cachesDerivable (applyPatch (UpdatePrices.priceUpdate m r t) r) = true.
Proof.
  unfold cachesDerivable. simpl. apply andb_true_iff. split.
  - apply Qeq_bool_iff. reflexivity.
  - apply Qeq_bool_iff. ring.
Qed.

Section CachesAndOrders.

Import PortfolioManagement Example.
Local Open Scope string_scope.

(** C2, on the code.  The row of [tcsStore] (10 TCS, average and current
    price 100, [market_value] 1000, [unrealized_pnl] 0) satisfies the
    invariant.  A buy of 5 TCS executed at the fill price 700 leaves it with
    quantity 15 and current price 700, but [executeOrder] does not write
    the cached columns: the stored [market_value] is still 1000 while
    quantity times current price is 10500, so the invariant is broken.
    Likewise the row [executeOrder] inserts into the empty store has no
    [market_value] at all. *)
Theorem executeOrder_leaves_caches_stale :
  cachesDerivable tcsPosition = true
  /\ (exists (out : outcome) (final : position),
        executeOrder noParseFloat tcsStore (tcsOrder buy "5")
          (accepting (1 # 5)) = Some out
        /\ portfolio_positions (out_db out) = [final]
        /\ quantity final == 15
        /\ Js.toNumber (current_price final) == 700
        /\ market_value final = Some 1000
        /\ ~ 1000 == quantity final * Js.toNumber (current_price final)
        /\ unrealized_pnl final = Some 0
        /\ cachesDerivable final = false)
  /\ (exists (out : outcome) (inserted : position),
        executeOrder noParseFloat emptyStore (tcsOrder buy "10")
          (accepting 0) = Some out
        /\ portfolio_positions (out_db out) = [inserted]
        /\ current_price inserted = Some (0 * 1000 + 500)
        /\ market_value inserted = None
        /\ cachesDerivable inserted = false).
Proof.
  split; [reflexivity|]. split.
  - do 2 eexists.
    split; [vm_compute; reflexivity|].
    split; [reflexivity|].
    split; [vm_compute; reflexivity|].
    split; [vm_compute; reflexivity|].
    split; [reflexivity|].
    split; [vm_compute; discriminate|].
    split; reflexivity.
  - do 2 eexists.
    split; [vm_compute; reflexivity|].
    split; [reflexivity|].
    split; [reflexivity|].
    split; reflexivity.
Qed.

(** C7 fails as stated: the order row [executeRebalance] creates for the
    first mock recommendation has status "pending", not "filled". *)
Lemma executeRebalance_order_is_pending :
  exists o : order,
    orders (out_db (executeRebalance emptyStore (tcsOrder buy EmptyString)
                      (accepting 0) sellReliance)) = [o]
    /\ o_status o = "pending"
    /\ o_status o <> "filled".
Proof.
  eexists. split; [reflexivity|]. split; [reflexivity|].
  simpl. discriminate.
Qed.

Variable parseFloat : string -> option Q.

Lemma executeOrder_orders (db : database) (f : form) (w : world)
  (out : outcome) :
  executeOrder parseFloat db f w = Some out ->
  exists created : list order,
    orders (out_db out) = (orders db ++ created)%list
    /\ Forall (fun o => o_status o = "filled") created.
Proof.
  intros Hrun. unfold executeOrder in Hrun.
  destruct (negb _ || negb _ || negb _).
  - injection Hrun as <-. exists []. simpl. now rewrite app_nil_r.
  - destruct (Js.parseInt _) as [n|]; [|discriminate].
    destruct (orderError w) as [message|].
    + injection Hrun as <-. exists []. simpl. now rewrite app_nil_r.
    + injection Hrun as <-. eexists. simpl. split; [reflexivity|].
      constructor; [reflexivity|constructor].
Qed.

Lemma executeRebalance_orders (db : database) (f : form) (w : world)
  (r : RebalanceRecommendation) :
  exists created : list order,
    orders (out_db (executeRebalance db f w r)) = (orders db ++ created)%list
    /\ Forall (fun o => o_status o = "pending") created.
Proof.
  unfold executeRebalance. destruct (orderError w) as [message|].
  - exists []. simpl. now rewrite app_nil_r.
  - eexists. simpl. split; [reflexivity|].
    constructor; [reflexivity|constructor].
Qed.

(** Rebalancing the whole portfolio creates pending orders only. *)
Lemma executeAllRebalanceOrders_orders (f : form)
  (steps : list (world * RebalanceRecommendation)) (db : database) :
  exists created : list order,
    orders (executeAllRebalanceOrders db f steps)
    = (orders db ++ created)%list
    /\ Forall (fun o => o_status o = "pending") created.
Proof.
  revert db. induction steps as [|[w r] rest IH]; intros db; simpl.
  - exists []. split; [now rewrite app_nil_r | constructor].
  - destruct (executeRebalance_orders db f w r) as (c1 & H1 & F1).
    destruct (IH (out_db (executeRebalance db f w r))) as (c2 & H2 & F2).
    exists (c1 ++ c2)%list. split.
    + now rewrite H2, H1, app_assoc.
    + apply Forall_app. now split.
Qed.

(** C7, amended.  Every order row [executeOrder] creates is marked
    "filled" when it is created; every order row [executeRebalance]
    creates is created with status "pending".  Neither changes the rows
    that were there. *)
Theorem order_status_on_creation
  (db : database) (f : form) (w : world) (r : RebalanceRecommendation) :
  (forall out : outcome,
     executeOrder parseFloat db f w = Some out ->
     exists created : list order,
       orders (out_db out) = (orders db ++ created)%list
       /\ Forall (fun o => o_status o = "filled") created)
  /\ (exists created : list order,
        orders (out_db (executeRebalance db f w r))
        = (orders db ++ created)%list
        /\ Forall (fun o => o_status o = "pending") created).
Proof.
  split.
  - intros out. apply executeOrder_orders.
  - apply executeRebalance_orders.
Qed.

End CachesAndOrders.

Lemma order_status_on_creation_witness :
  exists created : list order,
    Forall (fun o => o_status o = "filled"%string) created
    /\ created <> [].
Proof.
  destruct (@order_status_on_creation Example.noParseFloat Example.emptyStore
              (Example.tcsOrder buy "10") (Example.accepting 0)
              Example.sellReliance) as [Hfilled _].
  destruct (Hfilled
              {| PortfolioManagement.out_db :=
                   {| orders :=
                        [PortfolioManagement.orderRow Example.noParseFloat
                           (Example.tcsOrder buy "10") 10 Example.clock];
                      portfolio_positions :=
                        PortfolioManagement.writePosition [] 41
                          "agent-1" "TCS" (0 * 1000 + 500) (inject_Z 10)
                          Example.clock |};
                 PortfolioManagement.out_form :=
                   PortfolioManagement.resetForm (Example.tcsOrder buy "10");
                 PortfolioManagement.out_toast :=
                   PortfolioManagement.OrderPlaced |})
    as (created & Heq & Hall).
  - reflexivity.
  - exists created. split; [exact Hall|].
    simpl in Heq. subst created. discriminate.
Defined.

(** ** Rounding: the error of one operation, of a sum and of the shares *)

Section DoubleFacts.

Import Double.

Lemma pow2_pos (k : Z) : 0 < pow2 k.
Proof. apply Qpower_0_lt. reflexivity. Qed.

Lemma pow2_plus (j k : Z) : pow2 (j + k) == pow2 j * pow2 k.
Proof. apply Qpower_plus. discriminate. Qed.

Lemma pow2_inverse (k : Z) : pow2 k * pow2 (- k) == 1.
Proof. rewrite <- pow2_plus, Z.add_opp_diag_r. reflexivity. Qed.

Lemma nearest_error (y : Q) : Qabs (inject_Z (nearest y) - y) <= 1 # 2.
Proof.
  unfold nearest.
  pose proof (Qfloor_le y) as Hlo.
  pose proof (Qlt_floor y) as Hhi.
  rewrite inject_Z_plus in Hhi. change (inject_Z 1) with 1 in Hhi.
  set (f := Qfloor y) in *.
  destruct (Qcompare (y - inject_Z f) (1 # 2)) eqn:E.
  - apply Qeq_alt in E. destruct (Z.even f).
    + apply Qabs_Qle_condition. split; lra.
    + rewrite inject_Z_plus. change (inject_Z 1) with 1.
      apply Qabs_Qle_condition. split; lra.
  - apply Qlt_alt in E. apply Qabs_Qle_condition. split; lra.
  - apply Qgt_alt in E. rewrite inject_Z_plus. change (inject_Z 1) with 1.
    apply Qabs_Qle_condition. split; lra.
Qed.

Lemma exponent_below (a : Q) : 0 < a -> pow2 (exponent a) <= a.
Proof.
  intros Ha. unfold exponent.
  set (n := Qnum a). set (d := Zpos (Qden a)).
  destruct (Qle_bool (pow2 (Z.log2 n - Z.log2 d)) a) eqn:E.
  - now apply Qle_bool_iff.
  - clear E.
    assert (Hn : (0 < n)%Z).
    { unfold n. destruct a as [an ad]. unfold Qlt in Ha. simpl in *. lia. }
    assert (Hd : (0 < d)%Z) by (unfold d; lia).
    destruct (Z.log2_spec n Hn) as [Hn1 _].
    destruct (Z.log2_spec d Hd) as [_ Hd2].
    pose proof (Z.log2_nonneg n) as Hln.
    pose proof (Z.log2_nonneg d) as Hld.
    replace (Z.log2 n - Z.log2 d - 1)%Z
      with (Z.log2 n + - Z.succ (Z.log2 d))%Z by lia.
    rewrite pow2_plus.
    unfold pow2 at 2. rewrite Qpower_opp. fold (pow2 (Z.succ (Z.log2 d))).
    unfold pow2. rewrite <- !(Zpower_Qpower 2) by lia.
    assert (Ea : a == inject_Z n / inject_Z d).
    { unfold n, d. destruct a as [an ad]. simpl. apply Qmake_Qdiv. }
    rewrite Ea.
    assert (Hq1 : inject_Z (2 ^ Z.log2 n) <= inject_Z n)
      by (rewrite <- Zle_Qle; exact Hn1).
    assert (Hq2 : inject_Z d <= inject_Z (2 ^ Z.succ (Z.log2 d)))
      by (rewrite <- Zle_Qle; lia).
    assert (Hq3 : 0 < inject_Z d)
      by (change 0 with (inject_Z 0); rewrite <- Zlt_Qlt; exact Hd).
    assert (Hq4 : 0 < inject_Z (2 ^ Z.log2 n)).
    { change 0 with (inject_Z 0). rewrite <- Zlt_Qlt.
      apply Z.pow_pos_nonneg; lia. }
    set (x := inject_Z (2 ^ Z.log2 n)) in *.
    set (y := inject_Z (2 ^ Z.succ (Z.log2 d))) in *.
    set (N := inject_Z n) in *. set (D := inject_Z d) in *.
    clearbody x y N D.
    apply Qle_shift_div_l; [exact Hq3|].
    assert (Hy : 0 < y) by lra.
    setoid_replace (x * / y * D) with ((x * D) / y) by (field; lra).
    apply Qle_shift_div_r; [exact Hy|]. nra.
Qed.

Lemma roundPositive_error (a : Q) :
  0 < a -> Qabs (roundPositive a - a) <= u * a.
Proof.
  intros Ha. unfold roundPositive. rewrite Qred_correct.
  pose proof (@exponent_below a Ha) as He.
  set (e := exponent a) in *.
  pose proof (nearest_error (a * pow2 (52 - e))) as Hm.
  set (m := inject_Z (nearest (a * pow2 (52 - e)))) in *.
  pose proof (pow2_pos (e - 52)) as Hp.
  assert (Hinv : pow2 (52 - e) * pow2 (e - 52) == 1).
  { replace (52 - e)%Z with (- (e - 52))%Z by lia.
    rewrite Qmult_comm. apply pow2_inverse. }
  assert (Hsplit : pow2 (e - 52) == pow2 e * pow2 (-52)).
  { replace (e - 52)%Z with (e + -52)%Z by lia. apply pow2_plus. }
  assert (Hdiff : m * pow2 (e - 52) - a
                  == (m - a * pow2 (52 - e)) * pow2 (e - 52)).
  { transitivity (m * pow2 (e - 52) - a * (pow2 (52 - e) * pow2 (e - 52)));
      [rewrite Hinv; ring | ring]. }
  rewrite Hdiff, Qabs_Qmult, (Qabs_pos (pow2 (e - 52))) by lra.
  apply Qle_trans with ((1 # 2) * pow2 (e - 52)).
  - apply Qmult_le_compat_r; [exact Hm | lra].
  - rewrite Hsplit. unfold u.
    change (pow2 (-52)) with (1 # 4503599627370496).
    change (pow2 (-53)) with (1 # 9007199254740992).
    set (pe := pow2 e) in *. clearbody pe. lra.
Qed.

Lemma round_error (x : Q) : Qabs (round x - x) <= u * Qabs x.
Proof.
  unfold round. destruct (Qcompare x 0) eqn:E.
  - apply Qeq_alt in E. rewrite E. vm_compute. discriminate.
  - apply Qlt_alt in E.
    assert (Hn : 0 < - x) by lra.
    pose proof (@roundPositive_error (- x) Hn) as H.
    rewrite (Qabs_neg x) by lra.
    setoid_replace (- roundPositive (- x) - x)
      with (- (roundPositive (- x) - - x)) by ring.
    now rewrite Qabs_opp.
  - apply Qgt_alt in E.
    rewrite (Qabs_pos x) by lra. now apply roundPositive_error.
Qed.

End DoubleFacts.

Section RoundedSums.

Variable fl : Q -> Q.
Variable eps : Q.
Hypothesis eps_nonneg : 0 <= eps.
Hypothesis fl_error : forall x : Q, Qabs (fl x - x) <= eps * Qabs x.

Lemma growthOf_S (n : nat) : Double.growthOf eps (S n) == (1 + eps) * Double.growthOf eps n.
Proof.
  unfold Double.growthOf. rewrite Nat2Z.inj_succ, <- Z.add_1_l.
  rewrite Qpower_plus by lra. reflexivity.
Qed.

Lemma growthOf_ge_1 (n : nat) : 1 <= Double.growthOf eps n.
Proof.
  induction n as [|n IH]; [vm_compute; discriminate|].
  rewrite growthOf_S. nra.
Qed.

Lemma total_snoc (l : list Q) (v : Q) : Double.total (l ++ [v]) == Double.total l + v.
Proof.
  unfold Double.total. induction l as [|x l IH]; simpl; [ring | rewrite IH; ring].
Qed.

Lemma total_abs_nonneg (l : list Q) : 0 <= Double.total (map Qabs l).
Proof.
  unfold Double.total. induction l as [|x l IH]; simpl; [lra|].
  pose proof (Qabs_nonneg x). lra.
Qed.

Lemma total_abs (l : list Q) : Qabs (Double.total l) <= Double.total (map Qabs l).
Proof.
  unfold Double.total. induction l as [|x l IH]; simpl; [vm_compute; discriminate|].
  eapply Qle_trans; [apply Qabs_triangle|]. lra.
Qed.

Lemma flsum_error (l : list Q) :
  Qabs (Double.sumOf fl l - Double.total l)
  <= (Double.growthOf eps (List.length l) - 1) * Double.total (map Qabs l).
Proof.
  induction l as [|v l IH] using rev_ind.
  - vm_compute. discriminate.
  - unfold Double.sumOf. rewrite fold_left_app. cbn [fold_left]. fold (Double.sumOf fl l).
    rewrite map_app, length_app. cbn [map List.length].
    rewrite !total_snoc, Nat.add_1_r, growthOf_S.
    pose proof (fl_error (Double.sumOf fl l + v)) as Hfl.
    pose proof (total_abs l) as Habs.
    pose proof (total_abs_nonneg l) as HA.
    pose proof (growthOf_ge_1 (List.length l)) as Hg.
    pose proof (Qabs_nonneg v) as Hv.
    assert (Hsv : Qabs (Double.sumOf fl l + v)
                  <= Qabs (Double.sumOf fl l - Double.total l) + Double.total (map Qabs l) + Qabs v).
    { setoid_replace (Double.sumOf fl l + v)
        with ((Double.sumOf fl l - Double.total l) + Double.total l + v) at 1 by ring.
      eapply Qle_trans; [apply Qabs_triangle|].
      apply Qplus_le_compat; [|apply Qle_refl].
      eapply Qle_trans; [apply Qabs_triangle|]. lra. }
    assert (Hstep : Qabs (fl (Double.sumOf fl l + v) - (Double.total l + v))
                    <= Qabs (fl (Double.sumOf fl l + v) - (Double.sumOf fl l + v))
                       + Qabs (Double.sumOf fl l - Double.total l)).
    { setoid_replace (fl (Double.sumOf fl l + v) - (Double.total l + v))
        with ((fl (Double.sumOf fl l + v) - (Double.sumOf fl l + v)) + (Double.sumOf fl l - Double.total l))
        at 1 by ring.
      apply Qabs_triangle. }
    set (d := Qabs (fl (Double.sumOf fl l + v) - (Double.total l + v))) in *.
    set (r := Qabs (fl (Double.sumOf fl l + v) - (Double.sumOf fl l + v))) in *.
    set (E := Qabs (Double.sumOf fl l - Double.total l)) in *.
    set (w := Qabs (Double.sumOf fl l + v)) in *.
    set (A := Double.total (map Qabs l)) in *.
    set (g := Double.growthOf eps (List.length l)) in *.
    set (b := Qabs v) in *.
    clearbody d r E w A g b.
    assert (H1 : eps * w <= eps * (E + A + b)) by nra.
    assert (H2 : eps * E <= eps * ((g - 1) * A)) by nra.
    assert (H3 : 0 <= (g - 1) * b) by nra.
    assert (H4 : 0 <= eps * (g - 1) * b) by nra.
    nra.
Qed.


Lemma growthOf_2 : Double.growthOf eps 2 == (1 + eps) * (1 + eps).
Proof. rewrite !growthOf_S. unfold Double.growthOf. simpl. ring. Qed.

Lemma share_error (T v : Q) :
  0 < T ->
  Qabs (Double.percent fl T v - (v / T) * 100)
  <= ((Double.growthOf eps 2 - 1) * (100 / T)) * Qabs v.
Proof.
  intros HT. unfold Double.percent.
  pose proof (fl_error (v / T)) as H1.
  pose proof (fl_error (fl (v / T) * 100)) as H2.
  assert (Hx : Qabs (v / T) == Qabs v / T).
  { unfold Qdiv. rewrite Qabs_Qmult.
    rewrite (Qabs_pos (/ T)); [reflexivity|].
    apply Qlt_le_weak, Qinv_lt_0_compat, HT. }
  assert (Hy : Qabs (fl (v / T)) <= Qabs (fl (v / T) - v / T) + Qabs (v / T)).
  { setoid_replace (fl (v / T)) with ((fl (v / T) - v / T) + v / T) at 1
      by ring.
    apply Qabs_triangle. }
  assert (H100 : Qabs (fl (v / T) * 100) == 100 * Qabs (fl (v / T))).
  { rewrite Qabs_Qmult. change (Qabs 100) with 100. ring. }
  assert (Hstep : Qabs (fl (fl (v / T) * 100) - v / T * 100)
                  <= Qabs (fl (fl (v / T) * 100) - fl (v / T) * 100)
                     + 100 * Qabs (fl (v / T) - v / T)).
  { setoid_replace (fl (fl (v / T) * 100) - v / T * 100)
      with ((fl (fl (v / T) * 100) - fl (v / T) * 100)
            + (fl (v / T) - v / T) * 100) at 1 by ring.
    eapply Qle_trans; [apply Qabs_triangle|].
    rewrite (Qabs_Qmult (fl (v / T) - v / T) 100).
    change (Qabs 100) with 100. lra. }
  rewrite H100 in H2. rewrite Hx in *.
  rewrite growthOf_2.
  setoid_replace (((1 + eps) * (1 + eps) - 1) * (100 / T) * Qabs v)
    with (100 * ((2 * eps + eps * eps) * (Qabs v / T))) by (field; lra).
  pose proof (Qabs_nonneg v) as Hv.
  assert (Hq : 0 <= Qabs v / T) by (apply Qle_shift_div_l; lra).
  set (d := Qabs (fl (fl (v / T) * 100) - v / T * 100)) in *.
  set (r2 := Qabs (fl (fl (v / T) * 100) - fl (v / T) * 100)) in *.
  set (r1 := Qabs (fl (v / T) - v / T)) in *.
  set (y := Qabs (fl (v / T))) in *.
  set (x := Qabs v / T) in *.
  clearbody d r2 r1 y x.
  assert (H3 : eps * y <= eps * (r1 + x)) by nra.
  assert (H4 : eps * r1 <= eps * (eps * x)) by nra.
  nra.
Qed.

Lemma total_bound (c : Q -> Q) (K : Q) (l : list Q) :
  (forall v, Qabs (c v) <= K * Qabs v) ->
  Qabs (Double.total (map c l)) <= K * Double.total (map Qabs l).
Proof.
  intros Hc. unfold Double.total. induction l as [|x l IH]; simpl.
  - change (Qabs 0) with 0. lra.
  - eapply Qle_trans; [apply Qabs_triangle|].
    specialize (Hc x). fold (Double.total (map c l)) in *.
    fold (Double.total (map Qabs l)) in *. lra.
Qed.

Lemma total_minus (a b : Q -> Q) (l : list Q) :
  Double.total (map (fun v => a v - b v) l) == Double.total (map a l) - Double.total (map b l).
Proof.
  unfold Double.total. induction l as [|x l IH]; simpl; [ring | rewrite IH; ring].
Qed.

Lemma total_scale (T : Q) (l : list Q) :
  ~ T == 0 ->
  Double.total (map (fun v => (v / T) * 100) l) == (Double.total l / T) * 100.
Proof.
  intros HT. unfold Double.total. induction l as [|x l IH]; simpl.
  - field. exact HT.
  - rewrite IH. field. exact HT.
Qed.

(** The shares of a rounded Double.total add up to 100 up to rounding. *)
Lemma shares_total (l : list Q) :
  let T := Double.sumOf fl l in
  0 < T ->
  Qabs (Double.total (map (Double.percent fl T) l) - 100)
  <= (100 * (Double.growthOf eps (List.length l) + Double.growthOf eps 2 - 2))
     * (Double.total (map Qabs l) / T).
Proof.
  intros T HT.
  pose proof (flsum_error l) as Hsum. fold T in Hsum.
  pose proof (@total_bound (fun v => Double.percent fl T v - (v / T) * 100)
                ((Double.growthOf eps 2 - 1) * (100 / T)) l
                (fun v => @share_error T v HT)) as Hshares.
  rewrite total_minus, total_scale in Hshares by lra.
  assert (Hsplit : Double.total (map (Double.percent fl T) l) - 100
                   == (Double.total (map (Double.percent fl T) l) - Double.total l / T * 100)
                      + (Double.total l - T) * (100 / T)) by (field; lra).
  rewrite Hsplit.
  eapply Qle_trans; [apply Qabs_triangle|].
  rewrite (Qabs_Qmult (Double.total l - T)).
  assert (H100 : Qabs (100 / T) == 100 / T).
  { apply Qabs_pos. apply Qle_shift_div_l; lra. }
  rewrite H100.
  assert (Hflip : Qabs (Double.total l - T) == Qabs (T - Double.total l)).
  { setoid_replace (Double.total l - T) with (- (T - Double.total l)) by ring.
    apply Qabs_opp. }
  rewrite Hflip.
  assert (Hk : 0 < 100 / T) by (apply Qlt_shift_div_l; lra).
  setoid_replace (100 * (Double.growthOf eps (List.length l) + Double.growthOf eps 2 - 2)
                  * (Double.total (map Qabs l) / T))
    with ((Double.growthOf eps 2 - 1) * (100 / T) * Double.total (map Qabs l)
          + (Double.growthOf eps (List.length l) - 1) * Double.total (map Qabs l) * (100 / T))
    by (field; lra).
  apply Qplus_le_compat; [exact Hshares|].
  apply Qmult_le_compat_r; [exact Hsum | lra].
Qed.

Lemma growthOf_bound (n : nat) :
  inject_Z (Z.of_nat n) * eps <= 1 ->
  Double.growthOf eps n
  <= 1 + inject_Z (Z.of_nat n) * eps * (1 + inject_Z (Z.of_nat n) * eps).
Proof.
  induction n as [|n IH]; intros Hn.
  - unfold Double.growthOf. cbn [Z.of_nat]. change ((1 + eps) ^ 0) with 1.
    change (inject_Z 0) with 0. nra.
  - rewrite growthOf_S.
    rewrite Nat2Z.inj_succ in *. unfold Z.succ in *.
    rewrite inject_Z_plus in *. change (inject_Z 1) with 1 in *.
    assert (HN : 0 <= inject_Z (Z.of_nat n)).
    { change 0 with (inject_Z 0). rewrite <- Zle_Qle. lia. }
    set (N := inject_Z (Z.of_nat n)) in *. clearbody N.
    assert (Hle : N * eps <= 1) by nra.
    specialize (IH Hle).
    assert (H1 : N * (N * eps) <= N * 1) by nra.
    assert (H2 : 0 <= eps * eps) by nra.
    assert (H3 : (1 + eps) * Double.growthOf eps n
                 <= (1 + eps) * (1 + N * eps * (1 + N * eps))) by nra.
    assert (H4 : 0 <= eps * eps * (N + 1 - N * (N * eps))) by nra.
    nra.
Qed.

End RoundedSums.

Section DoubleShares.

Import Double.

Lemma u_nonneg : 0 <= u.
Proof. vm_compute. discriminate. Qed.

Lemma total_nonneg_abs (l : list Q) :
  (forall v, In v l -> 0 <= v) -> Double.total (map Qabs l) == Double.total l.
Proof.
  unfold Double.total. induction l as [|x l IH]; intros H; simpl; [reflexivity|].
  rewrite IH by (intros v Hv; apply H; now right).
  rewrite Qabs_pos by (apply H; now left). reflexivity.
Qed.

Lemma total_nonneg (l : list Q) :
  (forall v, In v l -> 0 <= v) -> 0 <= Double.total l.
Proof.
  intros H. rewrite <- total_nonneg_abs by exact H. apply total_abs_nonneg.
Qed.

Lemma shares_total_nonneg (l : list Q) :
  (forall v, In v l -> 0 <= v) ->
  (Z.of_nat (List.length l) <= 1048576)%Z ->
  let T := Double.sumOf round l in
  0 < T ->
  Qabs (Double.total (map (Double.percent round T) l) - 100)
  <= (inject_Z (Z.of_nat (List.length l)) + 2) * (1 # 70368744177664).
Proof.
  intros Hpos Hlen T HT.
  pose proof (@shares_total round u u_nonneg round_error l HT) as Hb.
  pose proof (@flsum_error round u u_nonneg round_error l) as Hsum.
  fold T in Hb, Hsum.
  rewrite (total_nonneg_abs l Hpos) in Hb, Hsum.
  pose proof (total_nonneg l Hpos) as HS.
  assert (HN0 : 0 <= inject_Z (Z.of_nat (List.length l))).
  { change 0 with (inject_Z 0). rewrite <- Zle_Qle. lia. }
  assert (HN1 : inject_Z (Z.of_nat (List.length l)) <= 1048576).
  { change 1048576 with (inject_Z 1048576). rewrite <- Zle_Qle. exact Hlen. }
  assert (Hx : inject_Z (Z.of_nat (List.length l)) * u <= 1).
  { unfold u. change (pow2 (-53)) with (1 # 9007199254740992). lra. }
  pose proof (@growthOf_bound u u_nonneg (List.length l) Hx) as Hg.
  pose proof (@growthOf_ge_1 u u_nonneg (List.length l)) as Hg1.
  pose proof (@growthOf_2 u u_nonneg) as Hg2.
  eapply Qle_trans; [exact Hb|]. clear Hb.
  assert (Hd : Qabs (T - Double.total l) == Qabs (Double.total l - T)).
  { setoid_replace (T - Double.total l) with (- (Double.total l - T)) by ring.
    apply Qabs_opp. }
  rewrite Hd in Hsum.
  assert (Hup : Double.total l - T <= (Double.growthOf u (List.length l) - 1) * Double.total l).
  { eapply Qle_trans; [apply Qle_Qabs | exact Hsum]. }
  clear Hsum Hd.
  rewrite Hg2. unfold u in *.
  change (pow2 (-53)) with (1 # 9007199254740992) in *.
  set (N := inject_Z (Z.of_nat (List.length l))) in *.
  set (g := Double.growthOf (1 # 9007199254740992) (List.length l)) in *.
  set (S := Double.total l) in *.
  clearbody N g S. clear Hpos Hlen Hx Hg2.
  assert (Hgam : g - 1 <= N * (1 # 9007199254740992) * (101 # 100)) by nra.
  assert (Hgs : g - 1 <= 1 # 1000) by nra.
  assert (HR : S / T <= 101 # 100).
  { apply Qle_shift_div_r; [exact HT|]. nra. }
  assert (HR0 : 0 <= S / T) by (apply Qle_shift_div_l; lra).
  set (R := S / T) in *. clearbody R.
  assert (Hnum : 100 * (g + (1 + (1 # 9007199254740992))
                            * (1 + (1 # 9007199254740992)) - 2)
                 <= (N + 2) * (1 # 9007199254740992) * 102).
  { nra. }
  nra.
Qed.

End DoubleShares.

(** ** The metrics of the tracker *)

Section Tracker.

Import LivePortfolioTracker Example.

Lemma Forall2_map_right (A B : Type) (R : A -> B -> Prop) (g : A -> B)
  (l : list A) :
  (forall x, R x (g x)) -> Forall2 R l (map g l).
Proof.
  intros H. induction l as [|x l IH]; simpl; constructor; auto.
Qed.

Lemma fold_left_sum (f : position -> Q) (l : list position) (a : Q) :
  fold_left (fun sum pos => sum + f pos) l a
  == a + fold_right Qplus 0 (map f l).
Proof.
  revert a. induction l as [|x l IH]; intros a; simpl.
  - ring.
  - rewrite IH. ring.
Qed.

Lemma reduceSum_sum (f : position -> Q) (l : list position) :
  reduceSum f l == fold_right Qplus 0 (map f l).
Proof. unfold reduceSum. rewrite fold_left_sum. ring. Qed.

Lemma positions_fetchPortfolioMetrics (rows : list position) :
  positions (fetchPortfolioMetrics (Some rows))
  = map (processPosition (totalValueOf rows)) rows.
Proof. destruct rows; reflexivity. Qed.

Lemma gt0_true (a : Q) : Js.gt0 a = true <-> 0 < a.
Proof.
  unfold Js.gt0. destruct (Qlt_le_dec 0 a) as [H|H]; split; intros H';
    try reflexivity; try assumption; try discriminate.
  exfalso. exact (Qlt_not_le _ _ H' H).
Qed.

(** C5, on the code.  For the position [unrefreshed] (quantity 10,
    average price 100, current price 120, no stored market value) the
    tracker shows the current price 120 beside the market value 1000,
    which is quantity times average price, not 10 times 120.  The
    dashboard's [fetchPositions], given the same quantity and prices,
    reports 1200, quantity times current price, as the claim says.  The row
    of [tcsStore] after a buy of 5 at the fill price 700 (the failing input
    of C2) is shown with the stale stored value 1000 while quantity times
    current price is 10500. *)
Theorem tracker_market_value_not_from_current_price :
  (exists p : processedPosition,
     positions (fetchPortfolioMetrics (Some [unrefreshed])) = [p]
     /\ quantity unrefreshed == 10
     /\ current_price unrefreshed = Some 120
     /\ currentPrice p = Some 120
     /\ marketValue p == 1000
     /\ ~ marketValue p == quantity unrefreshed * 120
     /\ TradingDashboard.market_value
          (TradingDashboard.transform (Sample.dashboardRow unrefreshed))
        == quantity unrefreshed * 120)
  /\ (exists (out : PortfolioManagement.outcome) (final : position)
             (p : processedPosition),
        PortfolioManagement.executeOrder noParseFloat tcsStore
          (tcsOrder buy "5") (accepting (1 # 5)) = Some out
        /\ portfolio_positions (PortfolioManagement.out_db out) = [final]
        /\ positions (fetchPortfolioMetrics (Some [final])) = [p]
        /\ marketValue p == 1000
        /\ quantity final * Js.toNumber (current_price final) == 10500).
Proof.
  split.
  - eexists. split; [reflexivity|]. split; [reflexivity|].
    split; [reflexivity|]. split; [reflexivity|].
    split; [vm_compute; reflexivity|].
    split; [vm_compute; discriminate | vm_compute; reflexivity].
  - do 3 eexists. split; [vm_compute; reflexivity|].
    split; [reflexivity|]. split; [reflexivity|].
    split; vm_compute; reflexivity.
Qed.

(** C6 fails as stated: for a single short position whose stored market
    value is -100, the sum of the market values is -100, not 0, and the
    allocation computed is 0, not -100 / -100 as a percentage. *)
Lemma allocation_with_negative_total :
  exists p : processedPosition,
    positions (fetchPortfolioMetrics (Some [shortPosition])) = [p]
    /\ totalValue (fetchPortfolioMetrics (Some [shortPosition])) == - (100)
    /\ allocation p == 0
    /\ ~ allocation p
         == (Js.orNum (market_value shortPosition) 0
             / totalValue (fetchPortfolioMetrics (Some [shortPosition])))
            * 100.
Proof.
  eexists. split; [reflexivity|].
  split; [vm_compute; reflexivity|].
  split; [vm_compute; reflexivity|].
  vm_compute. discriminate.
Qed.

Lemma totalValueIn_sumOf (fl : Q -> Q) (rows : list position) :
  totalValueIn fl rows
  = Double.sumOf fl (map (fun pos => Js.orNum (market_value pos) 0) rows).
Proof.
  unfold totalValueIn, Double.sumOf.
  assert (H : forall a : Q,
            fold_left
              (fun sum pos => fl (sum + Js.orNum (market_value pos) 0)) rows a
            = fold_left (fun s v => fl (s + v))
                (map (fun pos => Js.orNum (market_value pos) 0) rows) a).
  { induction rows as [|pos rest IH]; intros a; simpl;
      [reflexivity | apply IH]. }
  apply H.
Qed.

Lemma allocationIn_percent (fl : Q -> Q) (T : Q) (rows : list position) :
  0 < T ->
  map (allocationIn fl T) rows
  = map (Double.percent fl T)
      (map (fun pos => Js.orNum (market_value pos) 0) rows).
Proof.
  intros HT. apply gt0_true in HT. rewrite map_map. apply map_ext.
  intros pos. unfold allocationIn. now rewrite HT.
Qed.

(** C6, amended.  For every list of positions, with the numbers of the
    source rounded to double precision: the total value [T] the tracker
    computes differs from the exact sum of the stored market values (a
    missing one counting as 0) by at most [(1+u)^n - 1] times the sum of
    their absolute values, where [u = 2^-53] and [n] is the number of
    positions.  When [T] is positive, each allocation is the stored market
    value divided by [T], as a percentage, up to the relative error
    [(1+u)^2 - 1] of its two operations, and the allocations add up to 100
    up to [100 * ((1+u)^n + (1+u)^2 - 2)] times the ratio of the sum of the
    absolute values to [T]; with no negative market value and at most
    [2^20] positions that is at most [(n + 2) / 2^46].  When [T] is zero or
    negative every allocation is 0.  Without rounding the two functions are
    the total value and the allocations of [fetchPortfolioMetrics]. *)
Theorem allocation_of_positions (rows : list position) :
  let stored := fun pos : position => Js.orNum (market_value pos) 0 in
  let n := List.length rows in
  let gross := fold_right Qplus 0 (map (fun pos => Qabs (stored pos)) rows) in
  let T := totalValueIn Double.round rows in
  let shares := map (allocationIn Double.round T) rows in
  totalValue (fetchPortfolioMetrics (Some rows))
  = totalValueIn (fun x => x) rows
  /\ map allocation (positions (fetchPortfolioMetrics (Some rows)))
     = map (allocationIn (fun x => x) (totalValueIn (fun x => x) rows)) rows
  /\ Qabs (T - fold_right Qplus 0 (map stored rows))
     <= (Double.growth n - 1) * gross
  /\ (~ 0 < T -> Forall (fun a => a = 0) shares)
  /\ (0 < T ->
      Forall2
        (fun pos a =>
           Qabs (a - (stored pos / T) * 100)
           <= (Double.growth 2 - 1) * (100 / T) * Qabs (stored pos))
        rows shares)
  /\ (0 < T ->
      Qabs (fold_right Qplus 0 shares - 100)
      <= 100 * (Double.growth n + Double.growth 2 - 2) * (gross / T))
  /\ (0 < T ->
      (forall pos : position, In pos rows -> 0 <= stored pos) ->
      (Z.of_nat n <= 1048576)%Z ->
      Qabs (fold_right Qplus 0 shares - 100)
      <= (inject_Z (Z.of_nat n) + 2) * (1 # 70368744177664)).
Proof.
  intros stored n gross T shares.
  assert (Hn : List.length (map stored rows) = n) by apply length_map.
  assert (Hgross : gross = Double.total (map Qabs (map stored rows)))
    by (unfold gross; now rewrite map_map).
  assert (HT : T = Double.sumOf Double.round (map stored rows))
    by apply totalValueIn_sumOf.
  split; [destruct rows; reflexivity|].
  split.
  { rewrite positions_fetchPortfolioMetrics, map_map. apply map_ext.
    intros pos. reflexivity. }
  split.
  { rewrite HT, Hgross, <- Hn.
    apply (@flsum_error Double.round Double.u u_nonneg round_error). }
  split.
  { intros Hneg. apply Forall_map, Forall_forall. intros pos _.
    unfold allocationIn. destruct (Js.gt0 T) eqn:E; [|reflexivity].
    apply gt0_true in E. contradiction. }
  split.
  { intros Hpos. unfold shares.
    apply Forall2_map_right. intros pos. unfold allocationIn.
    rewrite (proj2 (gt0_true T) Hpos).
    apply (@share_error Double.round Double.u u_nonneg round_error T
             (stored pos) Hpos). }
  split.
  { intros Hpos. unfold shares.
    rewrite (@allocationIn_percent Double.round T rows Hpos).
    fold stored. rewrite Hgross, <- Hn.
    pose proof (@shares_total Double.round Double.u u_nonneg round_error
                  (map stored rows)) as H.
    cbv zeta in H. rewrite <- HT in H. apply H. exact Hpos. }
  intros Hpos Hall Hlen. unfold shares.
  rewrite (@allocationIn_percent Double.round T rows Hpos).
  fold stored. rewrite <- Hn.
  pose proof (@shares_total_nonneg (map stored rows)) as H.
  cbv zeta in H. rewrite <- HT in H. apply H.
  - intros v Hv. apply in_map_iff in Hv. destruct Hv as (pos & <- & Hin).
    now apply Hall.
  - now rewrite Hn.
  - exact Hpos.
Qed.

End Tracker.

Lemma allocation_of_positions_witness :
  LivePortfolioTracker.totalValueIn Double.round Sample.thirds == 3000
  /\ fold_right Qplus 0
       (map (LivePortfolioTracker.allocationIn Double.round
               (LivePortfolioTracker.totalValueIn Double.round Sample.thirds))
          Sample.thirds)
     == 100 - (1 # 70368744177664)
  /\ Qabs
       (fold_right Qplus 0
          (map (LivePortfolioTracker.allocationIn Double.round
                  (LivePortfolioTracker.totalValueIn Double.round
                     Sample.thirds))
             Sample.thirds) - 100)
     <= 5 * (1 # 70368744177664).
Proof.
  destruct (allocation_of_positions Sample.thirds)
    as (_ & _ & _ & _ & _ & _ & Hsum).
  split; [vm_compute; reflexivity|]. split; [vm_compute; reflexivity|].
  apply Hsum.
  - vm_compute. reflexivity.
  - intros pos [<- | [<- | [<- | []]]]; vm_compute; discriminate.
  - simpl. lia.
Defined.

(** ** The frame of the price refresh *)

Section RefreshFrame.

Import UpdatePrices.

Lemma agreeOutsidePrices_refl (r : position) : agreeOutsidePrices r r.
Proof. repeat split. Qed.

Lemma agreeOutsidePrices_table (l : list position) :
  Forall2 agreeOutsidePrices l l.
Proof.
  induction l; constructor; [apply agreeOutsidePrices_refl | assumption].
Qed.

Lemma agreeOutsidePrices_trans (a b c : position) :
  agreeOutsidePrices a b -> agreeOutsidePrices b c -> agreeOutsidePrices a c.
Proof.
  unfold agreeOutsidePrices.
  intros (H1 & H2 & H3 & H4 & H5 & H6 & H7) (K1 & K2 & K3 & K4 & K5 & K6 & K7).
  repeat split; congruence.
Qed.

Lemma Forall2_trans (A : Type) (R : A -> A -> Prop) :
  (forall a b c, R a b -> R b c -> R a c) ->
  forall l1 l2 l3, Forall2 R l1 l2 -> Forall2 R l2 l3 -> Forall2 R l1 l3.
Proof.
  intros HR l1 l2 l3 H12. revert l3.
  induction H12 as [|x y l1 l2 Hxy _ IH]; intros l3 H23;
    inversion H23; subst; constructor; eauto.
Qed.

(** One price update leaves the other columns of every row alone. *)
Lemma updateById_priceUpdate_frame (m : market) (selected : position)
  (t : string) (i : nat) (tbl : list position) :
  Forall2 agreeOutsidePrices tbl (updateById (priceUpdate m selected t) i tbl).
Proof.
  unfold updateById. apply Forall2_map_right. intros r.
  destruct (Nat.eqb (id r) i).
  - repeat split.
  - apply agreeOutsidePrices_refl.
Qed.

Lemma updateSymbol_frame (t : string) (m : market) (tbl : list position) :
  Forall2 agreeOutsidePrices tbl (updateSymbol t tbl m).
Proof.
  unfold updateSymbol.
  generalize (filter (fun r => String.eqb (symbol r) (m_symbol m) && held r) tbl).
  intros selection.
  assert (H : forall acc, Forall2 agreeOutsidePrices tbl acc ->
    Forall2 agreeOutsidePrices tbl
      (fold_left
         (fun acc position =>
            updateById (priceUpdate m position t) (id position) acc)
         selection acc)).
  { induction selection as [|p rest IH]; intros acc Hacc; simpl.
    - exact Hacc.
    - apply IH.
      eapply Forall2_trans;
        [exact agreeOutsidePrices_trans | exact Hacc |].
      apply updateById_priceUpdate_frame. }
  apply H, agreeOutsidePrices_table.
Qed.

(** C10.  For every row of [portfolio_positions], the price refresh writes
    at most [current_price], [market_value], [unrealized_pnl] and
    [updated_at]: after [POST] the table has the same rows in the same
    order, each with its id, [agent_id], [symbol], [quantity],
    [average_price] (and [avg_price], [created_at]) unchanged, whatever
    the market data answer is. *)
Theorem refresh_writes_only_price_columns
  (tbl : list position) (fetchMarket : list string -> option marketData)
  (t : string) :
  Forall2 agreeOutsidePrices tbl (fst (POST tbl fetchMarket t)).
Proof.
  pose proof agreeOutsidePrices_table as Hrefl.
  unfold POST. destruct (filter held tbl) as [|p rest]; [apply Hrefl|].
  destruct (fetchMarket _) as [md|]; [|apply Hrefl].
  destruct (success md); simpl; [|apply Hrefl].
  generalize (data md). intros entries.
  assert (H : forall acc, Forall2 agreeOutsidePrices tbl acc ->
    Forall2 agreeOutsidePrices tbl (fold_left (updateSymbol t) entries acc)).
  { induction entries as [|m rest' IH]; intros acc Hacc; simpl.
    - exact Hacc.
    - apply IH.
      eapply Forall2_trans;
        [exact agreeOutsidePrices_trans | exact Hacc |].
      apply updateSymbol_frame. }
  apply H, Hrefl.
Qed.

End RefreshFrame.

(** ** The fallback of the strategy endpoint *)

Section StrategyFallback.

Import GenerateStrategy.
Local Open Scope string_scope.

Variable numberToString : Q -> string.
Variable toFixed1 : Q -> string.
Variable toLowerCase : string -> string.
Variable JSON_parse : Js.text -> option json.

Lemma validated_hasField (v : json) (f : string) :
  In f requiredFields -> hasField v f = false -> validated v = false.
Proof.
  unfold requiredFields, validated.
  intros [<- | [<- | [<- | [<- | []]]]] H; rewrite H;
    rewrite ?andb_false_r; reflexivity.
Qed.

(** The check rejects [null], on which reading a property throws. *)
Lemma validated_null : validated JNull = false.
Proof. reflexivity. Qed.

(** The template itself passes the check, whatever its parameters. *)
Lemma fallbackStrategy_validated (strategyType : string) (riskTolerance : Q) :
  validated
    (fallbackStrategy numberToString toFixed1 toLowerCase
       strategyType riskTolerance) = true.
Proof. reflexivity. Qed.

(** C9.  For every answer of the language model that does not decode as
    JSON, or that decodes to a value lacking one of the required fields
    [name], [description], [entryRules], [exitRules] (absent or falsy), the
    endpoint still returns a success result, whatever the store answers to
    the insert, and the strategy in it is the template: an object with the
    four required fields, named "Indian <strategyType> Trading Strategy",
    with three entry rules and three exit rules, the five indicators, and
    the risk numbers computed from [riskTolerance]; it depends on
    [strategyType] and [riskTolerance] only, not on the answer. *)
Theorem malformed_answer_falls_back
  (req : request) (strategyType : string) (text : Js.text)
  (save : saveAnswer) (nowMs : Q) (nowIso : string) :
  GenerateStrategy.strategyType req = Some strategyType ->
  (JSON_parse (cleanedText text) = None
   \/ exists (v : json) (f : string),
        JSON_parse (cleanedText text) = Some v
        /\ In f requiredFields
        /\ hasField v f = false) ->
  let risk := riskTolerance req in
  exists (saved template : json) (warning : option string),
    POST numberToString toFixed1 toLowerCase JSON_parse
      req (Some text) save nowMs nowIso
    = Success saved template warning
    /\ template
       = fallbackStrategy numberToString toFixed1 toLowerCase
           strategyType risk
    /\ getProp template "name"
       = Value (JStr ("Indian " ++ strategyType ++ " Trading Strategy"))
    /\ (forall f : string, In f requiredFields -> hasField template f = true)
    /\ (exists description rule1 rule2 rule3 exit1 exit2 exit3 : string,
          getProp template "description" = Value (JStr description)
          /\ getProp template "entryRules"
             = Value (JArr [JStr rule1; JStr rule2; JStr rule3])
          /\ getProp template "exitRules"
             = Value (JArr [JStr exit1; JStr exit2; JStr exit3])
          /\ exit2
             = "Apply stop-loss at "
               ++ toFixed1 ((((100 - risk) / 1000) * 100)%Q)
               ++ "% to limit downside risk")
    /\ getProp template "riskParameters"
       = Value
           (JObj
              [ ("maxPositionSize", JNum ((risk / 100) * 0.1)%Q);
                ("stopLoss", JNum (Js.max 0.01 ((100 - risk) / 1000))%Q);
                ("takeProfit", JNum (Js.max 0.02 (risk / 1000))%Q);
                ("maxPositionValueINR", JNum (risk * 2000)%Q) ])
    /\ getProp template "indicators"
       = Value
           (JArr [ JStr "RSI"; JStr "MACD"; JStr "SMA";
                   JStr "Bollinger Bands"; JStr "Volume" ])
    /\ getProp template "marketConditions"
       = Value
           (JArr [ JStr (strategyType ++ " trending markets");
                   JStr "Indian trading hours";
                   JStr "High liquidity periods" ])
    /\ getProp template "expectedReturn"
       = Value (JNum (Js.max 0.08 (risk / 1000))%Q)
    /\ getProp template "maxDrawdown"
       = Value (JNum (Js.max 0.03 ((100 - risk) / 2000))%Q)
    /\ (forall row : list (string * json), save = Saved row -> saved = JObj row)
    /\ (save <> SaveError /\ save <> SaveThrows
        \/ getProp saved "parameters" = Value template).
Proof.
  intros Htype Hbad risk. unfold POST. rewrite Htype.
  assert (Hnone : parsedStrategy JSON_parse text = None).
  { unfold parsedStrategy. destruct Hbad as [-> | (v & f & -> & Hf & Hlack)].
    - reflexivity.
    - now rewrite (validated_hasField v Hf Hlack). }
  unfold strategyOf. rewrite Hnone. fold risk.
  eexists. eexists. eexists.
  split; [reflexivity|]. split; [reflexivity|]. split; [reflexivity|].
  split.
  { intros f [<- | [<- | [<- | [<- | []]]]]; reflexivity. }
  split.
  { do 7 eexists. repeat split. }
  do 5 (split; [reflexivity|]).
  split.
  { intros row ->. reflexivity. }
  destruct save as [row| |].
  - left. split; discriminate.
  - right. reflexivity.
  - right. reflexivity.
Qed.

End StrategyFallback.

Lemma malformed_answer_falls_back_witness :
  exists (saved template : GenerateStrategy.json) (warning : option string),
    GenerateStrategy.POST Example.printNumber Example.printNumber
      Example.sameCase Example.rejectAll Example.momentumRequest
      (Some (Js.units "Sure! Here is a strategy.")) GenerateStrategy.SaveError
      1700000000000 Example.clock
    = GenerateStrategy.Success saved template warning
    /\ GenerateStrategy.getProp template "name"
       = GenerateStrategy.Value
           (GenerateStrategy.JStr "Indian Momentum Trading Strategy")
    /\ GenerateStrategy.validated template = true
    /\ GenerateStrategy.getProp template "maxDrawdown"
       = GenerateStrategy.Value
           (GenerateStrategy.JNum (Js.max 0.03 ((100 - 50) / 2000))).
Proof.
  destruct (@malformed_answer_falls_back Example.printNumber
              Example.printNumber Example.sameCase Example.rejectAll
              Example.momentumRequest "Momentum"%string
              (Js.units "Sure! Here is a strategy.")
              GenerateStrategy.SaveError 1700000000000 Example.clock)
    as (saved & template & warning & Hrun & Htemplate & Hname & _ & _ & _
        & _ & _ & _ & Hdrawdown & _).
  - reflexivity.
  - left. reflexivity.
  - exists saved, template, warning.
    split; [exact Hrun|]. split; [exact Hname|].
    split; [rewrite Htemplate; reflexivity | exact Hdrawdown].
Defined.

(** * Further properties of the code *)

(** ** Order execution: what is written, and what is kept *)

(** With ids as a key, two rows of the table with one id are one row. *)
Lemma uniqueIds_same_row (tbl : list position) (r e : position) :
  Store.uniqueIds tbl -> In r tbl -> In e tbl -> id r = id e -> r = e.
Proof.
  unfold Store.uniqueIds. induction tbl as [|x tbl IH]; simpl; intros Hnd Hr He Hid.
  - contradiction.
  - inversion Hnd as [|? ? Hx Hnd']; subst.
    destruct Hr as [-> | Hr], He as [-> | He].
    + reflexivity.
    + exfalso. apply Hx. rewrite Hid. now apply in_map.
    + exfalso. apply Hx. rewrite <- Hid. now apply in_map.
    + now apply IH.
Qed.

Lemma filter_map_fixed (A : Type) (keep : A -> bool) (g : A -> A) (l : list A) :
  (forall r, keep (g r) = keep r) ->
  (forall r, In r l -> keep r = true -> g r = r) ->
  filter keep (map g l) = filter keep l.
Proof.
  intros Hk Hg. induction l as [|x l IH]; simpl; [reflexivity|].
  rewrite Hk. destruct (keep x) eqn:E.
  - rewrite (Hg x); [|now left|exact E]. f_equal. apply IH.
    intros r Hr. apply Hg. now right.
  - apply IH. intros r Hr. apply Hg. now right.
Qed.

Lemma filter_selected_in (A : Type) (keep : A -> bool) (l : list A) (x : A) :
  filter keep l = [x] -> In x l /\ keep x = true.
Proof.
  intros H. apply filter_In. rewrite H. now left.
Qed.

(** The rows of other agents and symbols after the position write. *)
Lemma others_writePosition i a s price q t tbl :
  Store.uniqueIds tbl ->
  filter (fun r => negb (PortfolioManagement.isPosition a s r))
    (PortfolioManagement.writePosition tbl i a s price q t)
  = filter (fun r => negb (PortfolioManagement.isPosition a s r)) tbl.
Proof.
  intros Hu. unfold PortfolioManagement.writePosition.
  destruct (single _) as [existing|] eqn:Hs.
  - apply single_some, filter_selected_in in Hs. destruct Hs as [Hin Hkey].
    unfold updateById. apply filter_map_fixed.
    + intros r. destruct (Nat.eqb (id r) (id existing)); reflexivity.
    + intros r Hr Hneg. destruct (Nat.eqb (id r) (id existing)) eqn:E;
        [|reflexivity].
      apply Nat.eqb_eq in E.
      rewrite (@uniqueIds_same_row tbl r existing Hu Hr Hin E), Hkey in Hneg.
      discriminate.
  - rewrite filter_app. simpl. rewrite isPosition_newPosition. simpl.
    apply app_nil_r.
Qed.

(** The ways [executeOrder] can end. *)
Lemma executeOrder_cases parseFloat db f w out :
  PortfolioManagement.executeOrder parseFloat db f w = Some out ->
  (PortfolioManagement.out_toast out <> PortfolioManagement.OrderPlaced
   /\ PortfolioManagement.out_db out = db
   /\ PortfolioManagement.out_form out = f)
  \/ (exists n : Z,
        PortfolioManagement.complete f
        /\ Js.parseInt (PortfolioManagement.orderQuantity f) = Some n
        /\ PortfolioManagement.orderError w = None
        /\ PortfolioManagement.out_toast out = PortfolioManagement.OrderPlaced
        /\ PortfolioManagement.out_form out = PortfolioManagement.resetForm f
        /\ orders (PortfolioManagement.out_db out)
           = orders db
             ++ [PortfolioManagement.orderRow parseFloat f n
                   (PortfolioManagement.now w)]
        /\ portfolio_positions (PortfolioManagement.out_db out)
           = PortfolioManagement.writePosition (portfolio_positions db)
               (PortfolioManagement.newId w)
               (PortfolioManagement.selectedAgent f)
               (PortfolioManagement.selectedSymbol f)
               (PortfolioManagement.fillPrice w)
               (PortfolioManagement.signedQuantity
                  (PortfolioManagement.orderSide f) n)
               (PortfolioManagement.now w)).
Proof.
  unfold PortfolioManagement.executeOrder. intros H.
  destruct (Js.truthy (PortfolioManagement.selectedAgent f)) eqn:Ea;
    [|injection H as <-; left; repeat split; discriminate].
  destruct (Js.truthy (PortfolioManagement.selectedSymbol f)) eqn:Es;
    [|injection H as <-; left; repeat split; discriminate].
  destruct (Js.truthy (PortfolioManagement.orderQuantity f)) eqn:Eq;
    [|injection H as <-; left; repeat split; discriminate].
  simpl in H.
  destruct (Js.parseInt _) as [n|] eqn:En; [|discriminate].
  destruct (PortfolioManagement.orderError w) as [message|] eqn:Ee.
  - injection H as <-. left. simpl.
    split; [destruct (PortfolioManagement.setupError message); discriminate|].
    split; reflexivity.
  - injection H as <-. right. exists n. simpl.
    assert (Hne : forall s, Js.truthy s = true -> s <> EmptyString).
    { intros s Ht He. apply truthy_false in He. congruence. }
    repeat split; auto.
Qed.

Lemma onePerKey_writePosition i a s price q t tbl :
  Store.onePerKey tbl ->
  Store.onePerKey (PortfolioManagement.writePosition tbl i a s price q t).
Proof.
  unfold Store.onePerKey. intros H a' s'.
  unfold PortfolioManagement.writePosition.
  destruct (single _) as [existing|] eqn:Hs.
  - unfold updateById. rewrite filter_map_stable.
    + rewrite length_map. apply H.
    + intros r. destruct (Nat.eqb (id r) (id existing));
        [apply isPosition_applyPatch | reflexivity].
  - rewrite filter_app, length_app. simpl.
    destruct (PortfolioManagement.isPosition a' s' _) eqn:E; simpl.
    + unfold PortfolioManagement.isPosition in E. simpl in E.
      apply andb_true_iff in E. destruct E as [Ea Es].
      apply String.eqb_eq in Ea, Es. subst a' s'.
      specialize (H a s).
      destruct (filter (PortfolioManagement.isPosition a s) tbl)
        as [|x [|y rest]]; simpl in *; try discriminate; lia.
    + specialize (H a' s'). lia.
Qed.

Section OrderInvariants.

Import PortfolioManagement.

Variable parseFloat : string -> option Q.

(** X1.  Unless [executeOrder] reports that the order was placed, it has
    written nothing: on the validation error, on a missing table and on
    any other error of the order insert the store and the form are as they
    were. *)
Theorem executeOrder_writes_only_when_placed
  (db : database) (f : form) (w : world) (out : outcome) :
  executeOrder parseFloat db f w = Some out ->
  out_toast out <> OrderPlaced ->
  out_db out = db /\ out_form out = f.
Proof.
  intros Hrun Hnot. destruct (executeOrder_cases _ _ _ _ Hrun)
    as [(_ & Hdb & Hf) | (n & _ & _ & _ & Hplaced & _)].
  - now split.
  - contradiction.
Qed.

(** X2.  The sign of the quantity typed in is not checked: a buy order
    whose quantity reads as [-n] writes the positions exactly as a sell
    order of [n] does. *)
Theorem negative_buy_acts_as_sell
  (db : database) (fb fs : form) (w : world) (n : Z) :
  complete fb -> complete fs ->
  selectedAgent fs = selectedAgent fb ->
  selectedSymbol fs = selectedSymbol fb ->
  orderSide fb = buy -> orderSide fs = sell ->
  Js.parseInt (orderQuantity fb) = Some (- n)%Z ->
  Js.parseInt (orderQuantity fs) = Some n ->
  orderError w = None ->
  exists outb outs : outcome,
    executeOrder parseFloat db fb w = Some outb
    /\ executeOrder parseFloat db fs w = Some outs
    /\ portfolio_positions (out_db outb) = portfolio_positions (out_db outs).
Proof.
  intros Hcb Hcs Ha Hs Hb Hsell Hnb Hns He.
  eexists. eexists.
  split; [eapply executeOrder_placed; eassumption|].
  split; [eapply executeOrder_placed; eassumption|].
  simpl. rewrite Ha, Hs, Hb, Hsell. reflexivity.
Qed.

(** X4.  [executeOrder] never creates a second row for an agent and
    symbol: if no agent has two rows for one symbol before the call, none
    has after it. *)
Theorem executeOrder_keeps_one_row_per_key
  (db : database) (f : form) (w : world) (out : outcome) :
  executeOrder parseFloat db f w = Some out ->
  Store.onePerKey (portfolio_positions db) ->
  Store.onePerKey (portfolio_positions (out_db out)).
Proof.
  intros Hrun Hu. destruct (executeOrder_cases _ _ _ _ Hrun)
    as [(_ & -> & _) | (n & _ & _ & _ & _ & _ & _ & ->)].
  - exact Hu.
  - now apply onePerKey_writePosition.
Qed.

(** X5.  With distinct ids, [executeOrder] leaves the positions of every
    other agent and symbol exactly as they were: the rows that are not of
    the order's agent and symbol are the same rows, in the same order. *)
Theorem executeOrder_leaves_other_positions
  (db : database) (f : form) (w : world) (out : outcome) :
  executeOrder parseFloat db f w = Some out ->
  Store.uniqueIds (portfolio_positions db) ->
  filter (fun r => negb (isPosition (selectedAgent f) (selectedSymbol f) r))
    (portfolio_positions (out_db out))
  = filter (fun r => negb (isPosition (selectedAgent f) (selectedSymbol f) r))
      (portfolio_positions db).
Proof.
  intros Hrun Hu. destruct (executeOrder_cases _ _ _ _ Hrun)
    as [(_ & -> & _) | (n & _ & _ & _ & _ & _ & _ & ->)].
  - reflexivity.
  - now apply others_writePosition.
Qed.

(** X6.  When the agent already has two or more rows for the symbol, the
    selection of the existing position yields no row: an executed order
    then changes none of them and inserts one more row for the same agent
    and symbol, holding just the order's signed quantity at the fill
    price. *)
Theorem executeOrder_with_duplicate_rows_inserts
  (db : database) (f : form) (w : world) (n : Z) :
  complete f ->
  Js.parseInt (orderQuantity f) = Some n ->
  orderError w = None ->
  (2 <= List.length
          (filter (isPosition (selectedAgent f) (selectedSymbol f))
             (portfolio_positions db)))%nat ->
  exists out : outcome,
    executeOrder parseFloat db f w = Some out
    /\ out_toast out = OrderPlaced
    /\ portfolio_positions (out_db out)
       = portfolio_positions db
         ++ [newPosition (newId w) (selectedAgent f)
               (selectedSymbol f) (fillPrice w)
               (signedQuantity (orderSide f) n) (now w)].
Proof.
  intros Hc Hn He Hlen. eexists.
  split; [eapply executeOrder_placed; eassumption|].
  split; [reflexivity|]. simpl. unfold writePosition.
  destruct (filter _ _) as [|x [|y rest]]; simpl in *; try lia.
  reflexivity.
Qed.

End OrderInvariants.

Section OrderInvariantExamples.

Import PortfolioManagement Example Sample.
Local Open Scope string_scope.

Lemma executeOrder_writes_only_when_placed_witness :
  exists out : outcome,
    executeOrder noParseFloat tcsStore (tcsOrder buy "5")
      (rejecting "permission denied") = Some out
    /\ out_db out = tcsStore
    /\ out_form out = tcsOrder buy "5".
Proof.
  eexists. split; [reflexivity|].
  apply (@executeOrder_writes_only_when_placed noParseFloat tcsStore
           (tcsOrder buy "5") (rejecting "permission denied")).
  - reflexivity.
  - simpl. discriminate.
Defined.

Lemma negative_buy_acts_as_sell_witness :
  exists outb outs : outcome,
    executeOrder noParseFloat tcsStore (tcsOrder buy "-5") (accepting 0)
    = Some outb
    /\ executeOrder noParseFloat tcsStore (tcsOrder sell "5") (accepting 0)
       = Some outs
    /\ portfolio_positions (out_db outb) = portfolio_positions (out_db outs).
Proof.
  apply (@negative_buy_acts_as_sell noParseFloat tcsStore
           (tcsOrder buy "-5") (tcsOrder sell "5") (accepting 0) 5%Z).
  - repeat split; discriminate.
  - repeat split; discriminate.
  - reflexivity.
  - reflexivity.
  - reflexivity.
  - reflexivity.
  - reflexivity.
  - reflexivity.
  - reflexivity.
Defined.

Lemma tcsStore_onePerKey : Store.onePerKey (portfolio_positions tcsStore).
Proof.
  intros a s. simpl. destruct (isPosition a s tcsPosition); simpl; lia.
Defined.

Lemma executeOrder_keeps_one_row_per_key_witness :
  exists out : outcome,
    executeOrder noParseFloat tcsStore (tcsOrder buy "5") (accepting 0)
    = Some out
    /\ Store.onePerKey (portfolio_positions (out_db out)).
Proof.
  eexists. split; [reflexivity|].
  apply (@executeOrder_keeps_one_row_per_key noParseFloat tcsStore
           (tcsOrder buy "5") (accepting 0)).
  - reflexivity.
  - exact tcsStore_onePerKey.
Defined.

Lemma executeOrder_leaves_other_positions_witness :
  exists out : outcome,
    executeOrder noParseFloat portfolioStore (tcsOrder buy "5") (accepting 0)
    = Some out
    /\ portfolio_positions (out_db out) <> portfolio_positions portfolioStore
    /\ filter (fun r => negb (isPosition "agent-1" "TCS" r))
         (portfolio_positions (out_db out)) = [unrefreshed; flat].
Proof.
  eexists. split; [reflexivity|]. split; [discriminate|].
  apply (@executeOrder_leaves_other_positions noParseFloat portfolioStore
           (tcsOrder buy "5") (accepting 0)).
  - reflexivity.
  - unfold Store.uniqueIds. simpl.
    repeat constructor; simpl; intuition discriminate.
Defined.

Lemma executeOrder_with_duplicate_rows_inserts_witness :
  exists out : outcome,
    executeOrder noParseFloat duplicated (tcsOrder sell "5") (accepting 0)
    = Some out
    /\ out_toast out = OrderPlaced
    /\ portfolio_positions (out_db out)
       = [tcsPosition; tcsAgain;
          newPosition 41 "agent-1" "TCS"
            (0 * 1000 + 500) (- inject_Z 5) clock].
Proof.
  apply (@executeOrder_with_duplicate_rows_inserts noParseFloat duplicated
           (tcsOrder sell "5") (accepting 0) 5%Z).
  - repeat split; discriminate.
  - reflexivity.
  - reflexivity.
  - simpl. lia.
Defined.

End OrderInvariantExamples.

(** ** The price an order fills at *)

Lemma Qeq_bool_false (x : Q) : ~ x == 0 -> Qeq_bool x 0 = false.
Proof.
  intros H. destruct (Qeq_bool x 0) eqn:E; [|reflexivity].
  apply Qeq_bool_iff in E. contradiction.
Qed.

Lemma fillPrice_range (w : PortfolioManagement.world) :
  Store.unit (PortfolioManagement.random w) ->
  500 <= PortfolioManagement.fillPrice w
  /\ PortfolioManagement.fillPrice w <= 1500.
Proof.
  unfold Store.unit, PortfolioManagement.fillPrice. intros [H0 H1].
  split; lra.
Qed.

Section FillPrice.

Import PortfolioManagement.

Variable parseFloat : string -> option Q.

(** X9.  With [Math.random()] in its range, the fill price of an executed
    order lies between 500 and 1500 (both included: the sum can round up to
    1500), whatever the order type and the limit price typed in, and the
    order leaves a row of the agent and symbol whose current price is that
    fill price. *)
Theorem executed_order_fill_price
  (db : database) (f : form) (w : world) (n : Z) :
  complete f ->
  Js.parseInt (orderQuantity f) = Some n ->
  orderError w = None ->
  Store.unit (random w) ->
  exists (out : outcome) (row : position),
    executeOrder parseFloat db f w = Some out
    /\ In row (portfolio_positions (out_db out))
    /\ isPosition (selectedAgent f) (selectedSymbol f) row = true
    /\ current_price row = Some (fillPrice w)
    /\ fillPrice w = random w * 1000 + 500
    /\ 500 <= fillPrice w
    /\ fillPrice w <= 1500.
Proof.
  intros Hc Hn He Hr.
  destruct (fillPrice_range w Hr) as [Hlo Hhi].
  assert (Hin : forall l (x : position), In x (l ++ [x]))
    by (intros l x; apply in_or_app; right; now left).
  pose proof (filter_writePosition (newId w) (selectedAgent f)
                (selectedSymbol f) (fillPrice w) (signedQuantity (orderSide f) n) (now w)
                (portfolio_positions db)) as Hsel.
  destruct (single _) as [existing|] eqn:Hs.
  - eexists. eexists.
    split; [eapply executeOrder_placed; eassumption|]. simpl.
    assert (Hrow : In (applyPatch
                         (positionUpdate existing (fillPrice w)
                            (signedQuantity (orderSide f) n) (now w))
                         existing)
                     (filter (isPosition (selectedAgent f) (selectedSymbol f))
                        (writePosition (portfolio_positions db) (newId w)
                           (selectedAgent f) (selectedSymbol f) (fillPrice w)
                           (signedQuantity (orderSide f) n) (now w))))
      by (rewrite Hsel; now left).
    apply filter_In in Hrow. destruct Hrow as [Hrow Hkey].
    split; [exact Hrow|]. split; [exact Hkey|].
    split; [reflexivity|]. split; [reflexivity|]. now split.
  - eexists. eexists.
    split; [eapply executeOrder_placed; eassumption|]. simpl.
    unfold writePosition. rewrite Hs.
    split; [apply Hin|]. split; [apply isPosition_newPosition|].
    split; [reflexivity|]. split; [reflexivity|]. now split.
Qed.

End FillPrice.

Section FillPriceExamples.

Import PortfolioManagement Example.
Local Open Scope string_scope.

Lemma executed_order_fill_price_witness :
  exists (out : outcome) (row : position),
    executeOrder noParseFloat emptyStore (tcsOrder buy "10") (accepting 0)
    = Some out
    /\ In row (portfolio_positions (out_db out))
    /\ current_price row = Some (0 * 1000 + 500).
Proof.
  destruct (@executed_order_fill_price noParseFloat emptyStore
              (tcsOrder buy "10") (accepting 0) 10%Z)
    as (out & row & Hrun & Hin & _ & Hprice & _).
  - repeat split; discriminate.
  - reflexivity.
  - reflexivity.
  - split; vm_compute; [discriminate | reflexivity].
  - exists out, row. split; [exact Hrun|]. split; [exact Hin|]. exact Hprice.
Defined.

End FillPriceExamples.

(** ** Rebalancing *)

Section Rebalancing.

Import PortfolioManagement.
Local Open Scope string_scope.

(** X10.  Rebalancing never writes a position.  It appends one order per
    recommendation whose insert the store accepted, in order, each for the
    agent typed in the form (not checked to be present), with the symbol
    and quantity recommended, status "pending", and side buy only when the
    recommended action is buy: a recommendation to hold places a sell
    order. *)
Theorem executeAllRebalanceOrders_effect
  (db : database) (f : form) (steps : list (world * RebalanceRecommendation)) :
  portfolio_positions (executeAllRebalanceOrders db f steps)
  = portfolio_positions db
  /\ exists created : list order,
       orders (executeAllRebalanceOrders db f steps)
       = (orders db ++ created)%list
       /\ Forall2
            (fun step o =>
               o_agent_id o = selectedAgent f
               /\ o_symbol o = rec_symbol (snd step)
               /\ o_quantity o = rec_quantity (snd step)
               /\ o_status o = "pending"
               /\ (o_side o = buy <-> recommendedAction (snd step) = rec_buy)
               /\ (recommendedAction (snd step) = rec_hold -> o_side o = sell))
            (filter Store.accepted steps) created.
Proof.
  revert db. induction steps as [|[w r] rest IH]; intros db; simpl.
  - split; [reflexivity|]. exists []. split; [now rewrite app_nil_r|constructor].
  - destruct (IH (out_db (executeRebalance db f w r))) as (Hpos & created & Ho & Hall).
    unfold Store.accepted at 1. simpl. unfold executeRebalance in *.
    destruct (orderError w) as [message|]; simpl in *.
    + split; [exact Hpos|]. exists created. now split.
    + split; [exact Hpos|].
      exists (rebalanceRow f r (now w) :: created). split.
      * rewrite Ho, <- app_assoc. reflexivity.
      * constructor; [|exact Hall]. simpl.
        repeat split; try reflexivity;
          destruct (recommendedAction r); intros; congruence.
Qed.

End Rebalancing.

(** ** The price refresh, row by row *)

Section RefreshRows.

Import UpdatePrices Refreshed.

Lemma fold_updateById_map (m : market) (t : string)
  (selection acc : list position) :
  fold_left
    (fun acc position => updateById (priceUpdate m position t) (id position) acc)
    selection acc
  = map
      (fun r =>
         fold_left
           (fun r' p =>
              if Nat.eqb (id r') (id p)
              then applyPatch (priceUpdate m p t) r' else r')
           selection r)
      acc.
Proof.
  revert acc. induction selection as [|p rest IH]; intros acc; simpl.
  - symmetry. apply map_id.
  - rewrite IH. unfold updateById. rewrite map_map. reflexivity.
Qed.

(** Along the updates of one entry a row is touched only by its own
    update, which may come more than once with the same effect. *)
Lemma row_fold (m : market) (t : string) (r : position)
  (selection : list position) (r0 : position) :
  r0 = r \/ r0 = applyPatch (priceUpdate m r t) r ->
  (forall p, In p selection -> id p = id r -> p = r) ->
  fold_left
    (fun r' p =>
       if Nat.eqb (id r') (id p) then applyPatch (priceUpdate m p t) r' else r')
    selection r0
  = if existsb (fun p => Nat.eqb (id p) (id r)) selection
    then applyPatch (priceUpdate m r t) r
    else r0.
Proof.
  revert r0. induction selection as [|p rest IH]; intros r0 Hr0 Hsel; simpl.
  - reflexivity.
  - assert (Hid : id r0 = id r) by (destruct Hr0 as [-> | ->]; reflexivity).
    rewrite Hid, (Nat.eqb_sym (id r) (id p)).
    destruct (Nat.eqb (id p) (id r)) eqn:E; simpl.
    + apply Nat.eqb_eq in E.
      rewrite (Hsel p (or_introl eq_refl) E).
      rewrite IH.
      * destruct Hr0 as [-> | ->]; destruct (existsb _ rest); reflexivity.
      * right. destruct Hr0 as [-> | ->]; reflexivity.
      * intros q Hq. apply Hsel. now right.
    + apply IH; [exact Hr0|]. intros q Hq. apply Hsel. now right.
Qed.

Lemma updateSymbol_map (t : string) (m : market) (tbl : list position) :
  Store.uniqueIds tbl ->
  updateSymbol t tbl m = map (onEntry t m) tbl.
Proof.
  intros Hu. unfold updateSymbol. rewrite fold_updateById_map.
  apply map_ext_in. intros r Hr.
  set (chosen := fun r0 : position =>
                   String.eqb (symbol r0) (m_symbol m) && held r0).
  rewrite (@row_fold m t r (filter chosen tbl) r).
  - unfold onEntry. fold (chosen r).
    destruct (chosen r) eqn:Hc.
    + assert (He : existsb (fun p => Nat.eqb (id p) (id r)) (filter chosen tbl)
                   = true).
      { apply existsb_exists. exists r. split.
        - apply filter_In. now split.
        - apply Nat.eqb_refl. }
      now rewrite He.
    + destruct (existsb _ _) eqn:He; [|reflexivity].
      apply existsb_exists in He. destruct He as (p & Hp & Hid).
      apply filter_In in Hp. destruct Hp as [Hp Hcp].
      apply Nat.eqb_eq in Hid.
      rewrite (@uniqueIds_same_row tbl p r Hu Hp Hr Hid) in Hcp. congruence.
  - now left.
  - intros p Hp Hid. apply filter_In in Hp. destruct Hp as [Hp _].
    exact (@uniqueIds_same_row tbl p r Hu Hp Hr Hid).
Qed.

Lemma map_id_onEntry (t : string) (m : market) (tbl : list position) :
  map id (map (onEntry t m) tbl) = map id tbl.
Proof.
  rewrite map_map. apply map_ext. intros r. unfold onEntry.
  destruct (_ && _); reflexivity.
Qed.

Lemma fold_updateSymbol_map (t : string) (entries : list market)
  (tbl : list position) :
  Store.uniqueIds tbl ->
  fold_left (updateSymbol t) entries tbl
  = map (fun r => fold_left (fun r' m => onEntry t m r') entries r) tbl.
Proof.
  revert tbl. induction entries as [|m rest IH]; intros tbl Hu; simpl.
  - symmetry. apply map_id.
  - rewrite (updateSymbol_map t m Hu), IH.
    + now rewrite map_map.
    + unfold Store.uniqueIds. now rewrite map_id_onEntry.
Qed.

(** The refreshed row is the row itself or the row rewritten from an entry:
    either way, an entry applied next sees the columns of the row. *)
Lemma onEntry_refreshed (t : string) (m : market) (entries : list market)
  (r : position) :
  onEntry t m (refreshed t entries r)
  = if String.eqb (symbol r) (m_symbol m) && held r
    then applyPatch (priceUpdate m r t) r
    else refreshed t entries r.
Proof.
  unfold refreshed. destruct (lastEntry entries r); reflexivity.
Qed.

Lemma fold_onEntry_refreshed (t : string) (entries : list market)
  (r : position) :
  fold_left (fun r' m => onEntry t m r') entries r = refreshed t entries r.
Proof.
  induction entries as [|m entries IH] using rev_ind.
  - unfold refreshed, lastEntry. simpl. now destruct (held r).
  - rewrite fold_left_app. simpl. rewrite IH, onEntry_refreshed.
    unfold refreshed, lastEntry. rewrite rev_app_distr. simpl.
    destruct (held r); simpl.
    + rewrite andb_true_r.
      destruct (String.eqb (symbol r) (m_symbol m)); reflexivity.
    + rewrite andb_false_r. reflexivity.
Qed.

(** What a successful refresh returns, with ids as a key. *)
Lemma POST_updated (tbl : list position)
  (fetchMarket : list string -> option marketData) (t : string)
  (md : marketData) :
  Store.uniqueIds tbl ->
  filter held tbl <> [] ->
  fetchMarket (asked tbl) = Some md ->
  success md = true ->
  POST tbl fetchMarket t
  = (map (refreshed t (data md)) tbl,
     PortfolioPricesUpdated (List.length (asked tbl))).
Proof.
  intros Hu Hheld Hfetch Hok. unfold POST.
  destruct (filter held tbl) as [|p rest] eqn:Hf; [congruence|].
  unfold asked in Hfetch. rewrite Hf in Hfetch. rewrite Hfetch, Hok. simpl.
  rewrite (fold_updateSymbol_map t (data md) Hu).
  f_equal.
  - apply map_ext. intros r. apply fold_onEntry_refreshed.
  - unfold asked. now rewrite Hf.
Qed.

Lemma refreshed_frame (t : string) (entries : list market) (r : position) :
  id (refreshed t entries r) = id r
  /\ symbol (refreshed t entries r) = symbol r
  /\ quantity (refreshed t entries r) = quantity r
  /\ average_price (refreshed t entries r) = average_price r.
Proof.
  unfold refreshed. destruct (lastEntry entries r); repeat split.
Qed.

Lemma held_refreshed (t : string) (entries : list market) (r : position) :
  held (refreshed t entries r) = held r.
Proof.
  unfold held. now destruct (refreshed_frame t entries r) as (_ & _ & -> & _).
Qed.

Lemma lastEntry_refreshed (t : string) (entries entries' : list market)
  (r : position) :
  lastEntry entries' (refreshed t entries r) = lastEntry entries' r.
Proof.
  unfold lastEntry. rewrite held_refreshed.
  now destruct (refreshed_frame t entries r) as (_ & -> & _ & _).
Qed.

Lemma refreshed_twice (t : string) (entries : list market) (r : position) :
  refreshed t entries (refreshed t entries r) = refreshed t entries r.
Proof.
  unfold refreshed at 1. rewrite lastEntry_refreshed.
  unfold refreshed. destruct (lastEntry entries r); reflexivity.
Qed.

Lemma filter_held_refreshed (t : string) (entries : list market)
  (tbl : list position) :
  filter held (map (refreshed t entries) tbl)
  = map (refreshed t entries) (filter held tbl).
Proof.
  apply filter_map_stable. intros r. apply held_refreshed.
Qed.

Lemma asked_refreshed (t : string) (entries : list market)
  (tbl : list position) :
  asked (map (refreshed t entries) tbl) = asked tbl.
Proof.
  unfold asked. rewrite filter_held_refreshed, map_map. f_equal.
  apply map_ext. intros r.
  now destruct (refreshed_frame t entries r) as (_ & -> & _ & _).
Qed.

End RefreshRows.

(** ** The symbols asked for *)

Lemma unique_spec (seen l : list string) (x : string) :
  In x (UpdatePrices.unique seen l) <-> In x l /\ ~ In x seen.
Proof.
  revert seen. induction l as [|y l IH]; intros seen; simpl.
  - tauto.
  - destruct (existsb (String.eqb y) seen) eqn:E.
    + apply existsb_exists in E. destruct E as (z & Hz & Hyz).
      apply String.eqb_eq in Hyz. subst z.
      rewrite IH. split.
      * intros [H1 H2]. split; [now right | exact H2].
      * intros [[<- | H1] H2]; [contradiction | now split].
    + assert (Hy : ~ In y seen).
      { intros Hin. assert (existsb (String.eqb y) seen = true).
        { apply existsb_exists. exists y. split; [exact Hin|].
          apply String.eqb_refl. }
        congruence. }
      simpl. rewrite IH. simpl. split.
      * intros [<- | [H1 H2]]; [split; [now left | exact Hy]|].
        split; [now right | tauto].
      * intros [[<- | H1] H2]; [now left|].
        destruct (string_dec y x) as [-> | Hne]; [now left|].
        right. split; [exact H1|]. intros [H | H]; [congruence | contradiction].
Qed.

Lemma unique_NoDup (seen l : list string) : NoDup (UpdatePrices.unique seen l).
Proof.
  revert seen. induction l as [|y l IH]; intros seen; simpl.
  - constructor.
  - destruct (existsb (String.eqb y) seen); [apply IH|].
    constructor; [|apply IH].
    rewrite unique_spec. intros [_ H]. apply H. now left.
Qed.

Lemma unique_length (seen l : list string) :
  (List.length (UpdatePrices.unique seen l) <= List.length l)%nat.
Proof.
  revert seen. induction l as [|y l IH]; intros seen; simpl.
  - lia.
  - destruct (existsb (String.eqb y) seen); simpl.
    + specialize (IH seen). lia.
    + specialize (IH (y :: seen)). lia.
Qed.

Section RefreshProperties.

Import UpdatePrices Refreshed.

(** X11.  The refresh asks the market data endpoint for each symbol that
    some held position (quantity not 0) has, once each, and for no other
    symbol; its result depends on the endpoint through the answer to that
    request only; and the number of updated symbols it reports is the
    number of these symbols, at least 1 and at most the number of held
    positions. *)
Theorem refresh_asks_each_held_symbol_once (tbl : list position) :
  NoDup (asked tbl)
  /\ (forall s : string,
        In s (asked tbl)
        <-> exists r : position, In r tbl /\ held r = true /\ symbol r = s)
  /\ (forall (fetchMarket fetchMarket' : list string -> option marketData)
             (t : string),
        fetchMarket (asked tbl) = fetchMarket' (asked tbl) ->
        POST tbl fetchMarket t = POST tbl fetchMarket' t)
  /\ (forall (fetchMarket : list string -> option marketData) (t : string)
             (n : nat),
        snd (POST tbl fetchMarket t) = PortfolioPricesUpdated n ->
        n = List.length (asked tbl)
        /\ (1 <= n <= List.length (filter held tbl))%nat).
Proof.
  split; [apply unique_NoDup|]. split; [|split].
  - intros s. unfold asked. rewrite unique_spec, in_map_iff. split.
    + intros [(r & Hs & Hr) _]. apply filter_In in Hr.
      exists r. tauto.
    + intros (r & Hr & Hh & Hs). split; [|intros []].
      exists r. split; [exact Hs|]. apply filter_In. now split.
  - intros fm fm' t Heq. unfold POST, asked in *.
    destruct (filter held tbl); [reflexivity|]. now rewrite Heq.
  - intros fm t n. unfold POST, asked.
    destruct (filter held tbl) as [|p rest] eqn:Hf; [discriminate|].
    destruct (fm _) as [md|]; [|discriminate].
    destruct (success md); simpl; [|discriminate].
    intros H. injection H as <-. split; [reflexivity|]. split.
    + simpl. lia.
    + change (List.length (unique [] (map symbol (p :: rest)))
              <= List.length (p :: rest))%nat.
      eapply Nat.le_trans; [apply unique_length|]. now rewrite length_map.
Qed.

(** X12.  With ids as a key, a successful refresh rewrites exactly the held
    rows whose symbol has an entry in the answer: such a row gets the close
    price of the last entry for its symbol as [current_price], quantity
    times that price as [market_value], (price - average price) times
    quantity as [unrealized_pnl], and the time as [updated_at]; every other
    row, so every row with quantity 0, is left as it is. *)
Theorem refresh_rewrites_held_rows (tbl : list position)
  (fetchMarket : list string -> option marketData) (t : string)
  (md : marketData) :
  Store.uniqueIds tbl ->
  fetchMarket (asked tbl) = Some md ->
  success md = true ->
  Forall2
    (fun r r' =>
       match lastEntry (data md) r with
       | Some m =>
           r' = applyPatch (priceUpdate m r t) r
           /\ current_price r' = Some (close_price m)
           /\ market_value r' = Some (quantity r * close_price m)
           /\ unrealized_pnl r'
              = Some ((close_price m - Js.toNumber (average_price r))
                      * quantity r)
           /\ updated_at r' = Some t
       | None => r' = r
       end)
    tbl (fst (POST tbl fetchMarket t)).
Proof.
  intros Hu Hfetch Hok.
  destruct (filter held tbl) as [|p rest] eqn:Hf.
  - unfold POST. rewrite Hf. simpl.
    assert (Hnone : forall r, In r tbl -> lastEntry (data md) r = None).
    { intros r Hr. unfold lastEntry. destruct (held r) eqn:Hh; [|reflexivity].
      assert (Hin : In r (filter held tbl)) by (apply filter_In; now split).
      rewrite Hf in Hin. contradiction. }
    clear Hf Hu Hfetch. induction tbl as [|r tbl IH]; constructor.
    + rewrite Hnone; [reflexivity | now left].
    + apply IH. intros r' Hr'. apply Hnone. now right.
  - rewrite (@POST_updated tbl fetchMarket t md Hu) by (congruence || assumption).
    simpl. apply Forall2_map_right. intros r. unfold refreshed.
    destruct (lastEntry (data md) r); [|reflexivity].
    repeat split.
Qed.

Lemma cachesDerivable_after_refresh (tbl : list position)
  (fetchMarket : list string -> option marketData) (t : string)
  (md : marketData) :
  Store.uniqueIds tbl ->
  fetchMarket (asked tbl) = Some md ->
  success md = true ->
  (forall s : string,
     In s (asked tbl) -> exists m : market, In m (data md) /\ m_symbol m = s) ->
  forall r' : position,
    In r' (fst (POST tbl fetchMarket t)) ->
    held r' = true ->
    cachesDerivable r' = true.
Proof.
  intros Hu Hfetch Hok Hcover r' Hin Hheld.
  destruct (filter held tbl) as [|p rest] eqn:Hf.
  - unfold POST in Hin. rewrite Hf in Hin. simpl in Hin.
    assert (Hr : In r' (filter held tbl)) by (apply filter_In; now split).
    rewrite Hf in Hr. contradiction.
  - rewrite (@POST_updated tbl fetchMarket t md Hu) in Hin
      by (congruence || assumption).
    simpl in Hin. apply in_map_iff in Hin. destruct Hin as (r & <- & Hr).
    rewrite held_refreshed in Hheld.
    unfold refreshed, lastEntry. rewrite Hheld.
    destruct (find _ (rev (data md))) as [m|] eqn:Hfind.
    + apply priceUpdate_cachesDerivable.
    + exfalso.
      assert (Hs : In (symbol r) (asked tbl)).
      { unfold asked. apply unique_spec. split; [|intros []].
        apply in_map. apply filter_In. now split. }
      destruct (Hcover _ Hs) as (m & Hm & Hsym).
      assert (Hm' : In m (rev (data md))) by (now apply in_rev in Hm).
      pose proof (find_none _ _ Hfind m Hm') as Hno. simpl in Hno.
      rewrite Hsym, String.eqb_refl in Hno. discriminate.
Qed.

(** X13.  With ids as a key, after a successful refresh whose answer has an
    entry for every symbol asked for, every held position satisfies the
    invariant of the data model: its stored market value and unrealized
    profit are the ones derived from its quantity and prices. *)
Theorem refresh_establishes_cache_invariant (tbl : list position)
  (fetchMarket : list string -> option marketData) (t : string)
  (md : marketData) :
  Store.uniqueIds tbl ->
  fetchMarket (asked tbl) = Some md ->
  success md = true ->
  (forall s : string,
     In s (asked tbl) -> exists m : market, In m (data md) /\ m_symbol m = s) ->
  forall r' : position,
    In r' (fst (POST tbl fetchMarket t)) ->
    held r' = true ->
    cachesDerivable r' = true.
Proof. exact (@cachesDerivable_after_refresh tbl fetchMarket t md). Qed.

(** X14.  With ids as a key, the refresh is idempotent: run again on its
    own result, at the same time and with the same endpoint, it returns the
    same table and the same answer. *)
Theorem refresh_idempotent (tbl : list position)
  (fetchMarket : list string -> option marketData) (t : string) :
  Store.uniqueIds tbl ->
  POST (fst (POST tbl fetchMarket t)) fetchMarket t = POST tbl fetchMarket t.
Proof.
  intros Hu.
  destruct (filter held tbl) as [|p rest] eqn:Hf.
  { unfold POST at 2. rewrite Hf. reflexivity. }
  destruct (fetchMarket (asked tbl)) as [md|] eqn:Hfetch.
  2:{ unfold POST at 2. rewrite Hf. unfold asked in Hfetch.
      rewrite Hf in Hfetch. rewrite Hfetch. reflexivity. }
  destruct (success md) eqn:Hok.
  2:{ unfold POST at 2. rewrite Hf. unfold asked in Hfetch.
      rewrite Hf in Hfetch. rewrite Hfetch, Hok. reflexivity. }
  assert (Hne : filter held tbl <> []) by congruence.
  rewrite (@POST_updated tbl fetchMarket t md Hu Hne Hfetch Hok). simpl.
  rewrite (@POST_updated (map (refreshed t (data md)) tbl) fetchMarket t md).
  - rewrite asked_refreshed, map_map. f_equal.
    apply map_ext. intros r. apply refreshed_twice.
  - unfold Store.uniqueIds. rewrite map_map.
    unfold Store.uniqueIds in Hu.
    replace (map (fun x => id (refreshed t (data md) x)) tbl) with (map id tbl);
      [exact Hu|].
    apply map_ext. intros r.
    now destruct (refreshed_frame t (data md) r) as (-> & _).
  - rewrite filter_held_refreshed, Hf. simpl. discriminate.
  - now rewrite asked_refreshed.
  - exact Hok.
Qed.

(** X15.  Only a refresh that reports updated prices writes: the answer
    "No positions to update" is given exactly when no row has a quantity
    other than 0, and with it, as with the failure answer (the endpoint
    cannot be read or reports no success), the table is unchanged. *)
Theorem refresh_failure_keeps_table (tbl : list position)
  (fetchMarket : list string -> option marketData) (t : string) :
  (snd (POST tbl fetchMarket t) = NoPositionsToUpdate
   <-> filter held tbl = [])
  /\ ((forall n : nat, snd (POST tbl fetchMarket t) <> PortfolioPricesUpdated n)
      -> fst (POST tbl fetchMarket t) = tbl).
Proof.
  unfold POST. destruct (filter held tbl) as [|p rest].
  - split; [tauto|]. reflexivity.
  - destruct (fetchMarket _) as [md|].
    + destruct (success md); simpl.
      * split; [split; discriminate|].
        intros H. exfalso. eapply H. reflexivity.
      * split; [split; discriminate | reflexivity].
    + simpl. split; [split; discriminate | reflexivity].
Qed.

End RefreshProperties.

Section RefreshExamples.

Import UpdatePrices Refreshed Sample.
Local Open Scope string_scope.

Lemma portfolio_uniqueIds : Store.uniqueIds portfolio.
Proof.
  unfold Store.uniqueIds. simpl.
  repeat constructor; simpl; intuition discriminate.
Defined.

Lemma twoPrices_cover (s : string) :
  In s (asked portfolio) ->
  exists m : market, In m (data twoPrices) /\ m_symbol m = s.
Proof.
  intros Hs. cbv in Hs. destruct Hs as [<- | [<- | []]].
  - eexists. split; [left; reflexivity | reflexivity].
  - eexists. split; [right; left; reflexivity | reflexivity].
Defined.

Lemma refresh_asks_each_held_symbol_once_witness :
  snd (POST portfolio answering Example.clock) = PortfolioPricesUpdated 2
  /\ asked portfolio = ["TCS"; "INFY"].
Proof.
  destruct (refresh_asks_each_held_symbol_once portfolio)
    as (_ & _ & _ & Hcount).
  destruct (Hcount answering Example.clock 2%nat) as [Hn _].
  - reflexivity.
  - split; reflexivity.
Defined.

Lemma refresh_rewrites_held_rows_witness :
  Forall2
    (fun r r' =>
       match lastEntry (data twoPrices) r with
       | Some m =>
           r' = applyPatch (priceUpdate m r Example.clock) r
           /\ current_price r' = Some (close_price m)
           /\ market_value r' = Some (quantity r * close_price m)
           /\ unrealized_pnl r'
              = Some ((close_price m - Js.toNumber (average_price r))
                      * quantity r)
           /\ updated_at r' = Some Example.clock
       | None => r' = r
       end)
    portfolio (fst (POST portfolio answering Example.clock)).
Proof.
  apply (@refresh_rewrites_held_rows portfolio answering Example.clock
           twoPrices).
  - exact portfolio_uniqueIds.
  - reflexivity.
  - reflexivity.
Defined.

Lemma refresh_establishes_cache_invariant_witness :
  Forall (fun r' => held r' = true -> cachesDerivable r' = true)
    (fst (POST portfolio answering Example.clock)).
Proof.
  apply Forall_forall. intros r' Hin.
  apply (@refresh_establishes_cache_invariant portfolio answering
           Example.clock twoPrices).
  - exact portfolio_uniqueIds.
  - reflexivity.
  - reflexivity.
  - exact twoPrices_cover.
  - exact Hin.
Defined.

Lemma refresh_idempotent_witness :
  POST (fst (POST portfolio answering Example.clock)) answering Example.clock
  = POST portfolio answering Example.clock.
Proof.
  apply (@refresh_idempotent portfolio answering Example.clock).
  exact portfolio_uniqueIds.
Defined.

Lemma refresh_failure_keeps_table_witness :
  fst (POST portfolio (fun _ => None) Example.clock) = portfolio.
Proof.
  destruct (refresh_failure_keeps_table portfolio (fun _ => None)
              Example.clock) as [_ Hkeep].
  apply Hkeep. intros n. simpl. discriminate.
Defined.

End RefreshExamples.

(** ** The market data endpoint *)

Lemma stockInfoOf_bounds (symbol : string) (info : LiveData.stockInfo) :
  LiveData.stockInfoOf symbol = Some info ->
  417 <= LiveData.base info - LiveData.range info * (1 # 2)
  /\ 0 < LiveData.range info
  /\ LiveData.range info <= 80.
Proof.
  unfold LiveData.stockInfoOf, LiveData.indianStockPrices.
  cbn [find fst snd].
  repeat match goal with
         | |- context [String.eqb ?a symbol] => destruct (String.eqb a symbol)
         end;
    try destruct (existsb _ _);
    intros H; try discriminate; injection H as <-;
    cbn [LiveData.base LiveData.range]; repeat split; lra.
Qed.

(** No name of an inherited member is a symbol of the table. *)
Lemma stockInfoOf_inherited (symbol : string) :
  In symbol LiveData.inheritedNames -> LiveData.stockInfoOf symbol = None.
Proof.
  unfold LiveData.inheritedNames. simpl.
  intros H. repeat (destruct H as [<- | H]; [reflexivity|]). contradiction.
Qed.

Lemma stockInfoOf_other (symbol : string) :
  ~ In symbol LiveData.inheritedNames ->
  exists info : LiveData.stockInfo, LiveData.stockInfoOf symbol = Some info.
Proof.
  intros Hnot. unfold LiveData.stockInfoOf.
  destruct (find _ LiveData.indianStockPrices) as [kv|]; [now eexists|].
  destruct (existsb _ _) eqn:E; [|now eexists].
  exfalso. apply Hnot. apply existsb_exists in E.
  destruct E as (x & Hx & Heq). apply String.eqb_eq in Heq. now subst x.
Qed.

Lemma Qfloor_range (x : Q) (n : Z) :
  0 <= x -> x < inject_Z n -> (0 <= Qfloor x < n)%Z.
Proof.
  intros H0 Hn. split.
  - change 0%Z with (Qfloor 0). now apply Qfloor_resp_le.
  - rewrite Zlt_Qlt. eapply Qle_lt_trans; [apply Qfloor_le | exact Hn].
Qed.

Lemma map_symbol_fetchEach toFixed2 draw (i : nat) (symbols : list string) :
  map LiveData.symbol (LiveData.fetchEach toFixed2 draw i symbols) = symbols.
Proof.
  revert i. induction symbols as [|s rest IH]; intros i; simpl.
  - reflexivity.
  - now rewrite IH.
Qed.

(** The close price stays near the base price of the symbol. *)
Lemma close_price_range toFixed2 (symbol : string) (d : LiveData.draws)
  (info : LiveData.stockInfo) :
  Store.unitDraws d ->
  LiveData.stockInfoOf symbol = Some info ->
  exists close : Q,
    LiveData.close_price (LiveData.fetchSymbolData toFixed2 symbol d)
    = Some close
    /\ LiveData.base info - LiveData.range info / 2 - 10 <= close
    /\ close <= LiveData.base info + LiveData.range info / 2 + 10
    /\ 400 < close.
Proof.
  intros (Hb & Hc & _) Hinfo.
  destruct (@stockInfoOf_bounds symbol info Hinfo) as (Hbase & Hr0 & Hr1).
  unfold LiveData.fetchSymbolData. rewrite Hinfo. simpl.
  eexists. split; [reflexivity|].
  destruct Hb as [Hb0 Hb1], Hc as [Hc0 Hc1].
  assert (H6 : 0 <= LiveData.d_base d * LiveData.range info) by nra.
  assert (H7 : LiveData.d_base d * LiveData.range info < LiveData.range info)
    by nra.
  setoid_replace ((LiveData.d_base d - 0.5) * LiveData.range info)
    with (LiveData.d_base d * LiveData.range info
          - 0.5 * LiveData.range info) by ring.
  setoid_replace (LiveData.range info / 2)
    with (0.5 * LiveData.range info) by field.
  set (xg := LiveData.d_base d * LiveData.range info) in *. clearbody xg.
  split; [|split]; lra.
Qed.

(** The entries made from the records of the symbols asked for, when none
    of them names an inherited member. *)
Lemma entries_fetchEach toFixed2 draw (symbols : list string) (i : nat) :
  (forall s : string, In s symbols -> ~ In s LiveData.inheritedNames) ->
  exists es : list UpdatePrices.market,
    LiveData.entries (LiveData.fetchEach toFixed2 draw i symbols) = Some es
    /\ map UpdatePrices.m_symbol es = symbols
    /\ forall m : UpdatePrices.market,
         In m es ->
         exists (s : string) (j : nat),
           LiveData.close_price (LiveData.fetchSymbolData toFixed2 s (draw j))
           = Some (UpdatePrices.close_price m)
           /\ ~ In s LiveData.inheritedNames.
Proof.
  revert i. induction symbols as [|s rest IH]; intros i Hnot.
  - exists []. repeat split. intros m [].
  - destruct (IH (S i)) as (es & Hes & Hsym & Hfrom).
    { intros x Hx. apply Hnot. now right. }
    assert (Hs : ~ In s LiveData.inheritedNames) by (apply Hnot; now left).
    destruct (@stockInfoOf_other s Hs) as (info & Hinfo).
    cbn [LiveData.fetchEach LiveData.entries]. rewrite Hes.
    assert (Hclose : exists c : Q,
              LiveData.close_price
                (LiveData.fetchSymbolData toFixed2 s (draw i)) = Some c).
    { unfold LiveData.fetchSymbolData. rewrite Hinfo. simpl. now eexists. }
    destruct Hclose as (c & Hc). rewrite Hc.
    eexists. split; [reflexivity|]. split.
    + simpl. now rewrite Hsym.
    + intros m [<- | Hm].
      * exists s, i. now split.
      * now apply Hfrom.
Qed.

Section MarketData.

Variable toFixed2 : option Q -> string.

(** X16.  For a symbol of the table, or any other symbol that does not
    name an inherited member of objects, and with every value of
    [Math.random()] in its range, the data made up has four prices: the low
    price is at most the high price, the change lies between -10 and 10,
    the close price is within half the symbol's range plus 10 of its base
    price and above 400, and the volume is an integer between 100000 and
    2100000.  For a symbol such as "constructor" or "toString" none of the
    four prices is a number. *)
Theorem fetchSymbolData_ranges (symbol : string) (d : LiveData.draws) :
  let data := LiveData.fetchSymbolData toFixed2 symbol d in
  (forall info : LiveData.stockInfo,
     Store.unitDraws d ->
     LiveData.stockInfoOf symbol = Some info ->
     exists opening high low close : Q,
       LiveData.open_price data = Some opening
       /\ LiveData.high_price data = Some high
       /\ LiveData.low_price data = Some low
       /\ LiveData.close_price data = Some close
       /\ low <= high
       /\ - (10) <= LiveData.change data
       /\ LiveData.change data <= 10
       /\ LiveData.base info - LiveData.range info / 2 - 10 <= close
       /\ close <= LiveData.base info + LiveData.range info / 2 + 10
       /\ 400 < close
       /\ (100000 <= LiveData.volume data <= 2100000)%Z)
  /\ (~ In symbol LiveData.inheritedNames ->
      exists info : LiveData.stockInfo,
        LiveData.stockInfoOf symbol = Some info)
  /\ (In symbol LiveData.inheritedNames ->
      LiveData.open_price data = None
      /\ LiveData.high_price data = None
      /\ LiveData.low_price data = None
      /\ LiveData.close_price data = None).
Proof.
  intros data. split; [|split].
  - intros info Hd Hinfo.
    destruct (@close_price_range toFixed2 symbol d info Hd Hinfo)
      as (close & Hclose & Hlo & Hhi & Hpos).
    destruct Hd as (_ & [Hc0 Hc1] & [Hh0 Hh1] & [Hl0 Hl1] & [Hv0 Hv1]).
    unfold data, LiveData.fetchSymbolData in *. rewrite Hinfo in *.
    cbn [LiveData.low_price LiveData.high_price LiveData.change
         LiveData.close_price LiveData.open_price LiveData.volume
         option_map] in *.
    injection Hclose as Hclose.
    do 4 eexists.
    do 4 (split; [reflexivity|]).
    rewrite Hclose.
    set (basePrice := LiveData.base info
                      + (LiveData.d_base d - 0.5) * LiveData.range info) in *.
    assert (Hineq :
              basePrice - LiveData.d_low d * 10
              <= basePrice + LiveData.d_high d * 10
              /\ - (10) <= (LiveData.d_change d - 0.5) * 20
              /\ (LiveData.d_change d - 0.5) * 20 <= 10).
    { clear Hlo Hhi Hpos Hclose. clearbody basePrice. repeat split; lra. }
    destruct Hineq as (I1 & I3 & I4).
    split; [exact I1|]. split; [exact I3|]. split; [exact I4|].
    split; [exact Hlo|]. split; [exact Hhi|]. split; [exact Hpos|].
    assert (Hf : (0 <= Qfloor (LiveData.d_volume d * 2000000) < 2000000)%Z).
    { clear - Hv0 Hv1. apply Qfloor_range; [nra|].
      change (inject_Z 2000000) with 2000000. lra. }
    lia.
  - apply stockInfoOf_other.
  - intros Hin. unfold data, LiveData.fetchSymbolData.
    rewrite (@stockInfoOf_inherited symbol Hin). repeat split.
Qed.

(** X18.  The endpoint answers with one record per symbol, in the order
    asked: [POST] for the symbols of the request (a request without a list
    fails), [GET] for the one symbol named, and for all ten tracked
    symbols when no symbol, or the empty text, is named. *)
Theorem market_data_one_record_per_symbol (draw : nat -> LiveData.draws) :
  (forall symbols : list string,
     exists data : list LiveData.symbolData,
       LiveData.POST toFixed2 (Some symbols) draw = LiveData.Data data
       /\ map LiveData.symbol data = symbols)
  /\ LiveData.POST toFixed2 None draw = LiveData.FailedToUpdateMarketData
  /\ (forall s : string,
        s <> EmptyString ->
        exists d : LiveData.symbolData,
          LiveData.GET toFixed2 (Some s) draw = inl d
          /\ LiveData.symbol d = s)
  /\ (forall asked : option string,
        asked = None \/ asked = Some EmptyString ->
        exists data : list LiveData.symbolData,
          LiveData.GET toFixed2 asked draw = inr data
          /\ map LiveData.symbol data = LiveData.TRACKED_SYMBOLS
          /\ List.length data = 10%nat).
Proof.
  split; [|split; [reflexivity|split]].
  - intros symbols. eexists. split; [reflexivity|].
    apply map_symbol_fetchEach.
  - intros s Hs. eexists. unfold LiveData.GET.
    rewrite (truthy_true Hs). split; reflexivity.
  - intros asked [-> | ->]; eexists; (split; [reflexivity|]);
      split; reflexivity.
Qed.

(** X19.  The refresh run on the answer of the repository's own market
    data endpoint.  With ids as a key, and when no held position has a
    symbol that names an inherited member of objects, the answer for the
    symbols asked has a number as every close price; given that answer the
    refresh reports the number of distinct held symbols, and after it
    every held position satisfies the invariant of the data model; with
    the random values in their range its current price is above 400. *)
Theorem refresh_with_market_data (tbl : list position)
  (draw : nat -> LiveData.draws) (t : string) :
  Store.uniqueIds tbl ->
  (forall r : position,
     In r tbl -> UpdatePrices.held r = true ->
     ~ In (symbol r) LiveData.inheritedNames) ->
  exists md : UpdatePrices.marketData,
    LiveData.asMarketData
      (LiveData.POST toFixed2 (Some (Refreshed.asked tbl)) draw) = Some md
    /\ UpdatePrices.success md = true
    /\ map UpdatePrices.m_symbol (UpdatePrices.data md) = Refreshed.asked tbl
    /\ (filter UpdatePrices.held tbl <> [] ->
        snd (UpdatePrices.POST tbl (fun _ => Some md) t)
        = UpdatePrices.PortfolioPricesUpdated
            (List.length (Refreshed.asked tbl)))
    /\ forall r' : position,
         In r' (fst (UpdatePrices.POST tbl (fun _ => Some md) t)) ->
         UpdatePrices.held r' = true ->
         cachesDerivable r' = true
         /\ ((forall i : nat, Store.unitDraws (draw i)) ->
             400 < Js.toNumber (current_price r')).
Proof.
  intros Hu Hnames.
  assert (Hasked : forall s : string,
            In s (Refreshed.asked tbl) -> ~ In s LiveData.inheritedNames).
  { intros s Hs. unfold Refreshed.asked in Hs.
    apply unique_spec in Hs. destruct Hs as [Hs _].
    apply in_map_iff in Hs. destruct Hs as (r & <- & Hr).
    apply filter_In in Hr. destruct Hr as [Hin Hheld]. now apply Hnames. }
  destruct (@entries_fetchEach toFixed2 draw (Refreshed.asked tbl) 0 Hasked)
    as (es & Hes & Hsym & Hfrom).
  set (md := {| UpdatePrices.success := true; UpdatePrices.data := es |}).
  exists md.
  split; [simpl; now rewrite Hes|].
  split; [reflexivity|]. split; [exact Hsym|].
  assert (Hfetch : (fun _ : list string => Some md) (Refreshed.asked tbl)
                   = Some md) by reflexivity.
  assert (Hok : UpdatePrices.success md = true) by reflexivity.
  assert (Hcover : forall s, In s (Refreshed.asked tbl) ->
            exists m, In m (UpdatePrices.data md) /\ UpdatePrices.m_symbol m = s).
  { intros s Hs. simpl. rewrite <- Hsym in Hs.
    apply in_map_iff in Hs. destruct Hs as (m & Hm & Hin).
    exists m. now split. }
  destruct (filter UpdatePrices.held tbl) as [|p rest] eqn:Hf.
  - unfold UpdatePrices.POST. rewrite Hf. simpl.
    split; [congruence|].
    intros r' Hin Hheld.
    assert (Hr : In r' (filter UpdatePrices.held tbl))
      by (apply filter_In; now split).
    rewrite Hf in Hr. contradiction.
  - assert (Hne : filter UpdatePrices.held tbl <> []) by congruence.
    rewrite <- Hf.
    pose proof (@POST_updated tbl (fun _ => Some md) t md
                  Hu Hne Hfetch Hok) as Hpost.
    split; [intros _; now rewrite Hpost|].
    intros r' Hin Hheld. split.
    + apply (@cachesDerivable_after_refresh tbl (fun _ => Some md) t md);
        assumption.
    + intros Hdraws. rewrite Hpost in Hin. simpl in Hin.
      apply in_map_iff in Hin. destruct Hin as (r & <- & Hr).
      rewrite held_refreshed in Hheld.
      unfold Refreshed.refreshed, Refreshed.lastEntry. rewrite Hheld.
      destruct (find _ _) as [m|] eqn:Hfind.
      * apply find_some in Hfind. destruct Hfind as [Hm _].
        apply in_rev in Hm. simpl in Hm.
        destruct (Hfrom m Hm) as (s & j & Hclose & Hs).
        destruct (@stockInfoOf_other s Hs) as (info & Hinfo).
        destruct (@close_price_range toFixed2 s (draw j) info
                    (Hdraws j) Hinfo) as (close & Hc & _ & _ & Hpos).
        rewrite Hclose in Hc. injection Hc as Hc. simpl. now rewrite Hc.
      * exfalso.
        assert (Hs : In (symbol r) (Refreshed.asked tbl)).
        { unfold Refreshed.asked. apply unique_spec. split; [|intros []].
          apply in_map. apply filter_In. now split. }
        destruct (Hcover _ Hs) as (m & Hm & Hsym').
        assert (Hm' : In m (rev (UpdatePrices.data md)))
          by (now apply in_rev in Hm).
        pose proof (find_none _ _ Hfind m Hm') as Hno. simpl in Hno.
        rewrite Hsym', String.eqb_refl in Hno. discriminate.
Qed.

End MarketData.

Section MarketDataExamples.

Import Sample.
Local Open Scope string_scope.

Lemma halves_unit (i : nat) : Store.unitDraws (halves i).
Proof.
  repeat split; vm_compute; (discriminate || reflexivity).
Defined.

Lemma fetchSymbolData_ranges_witness :
  (exists close : Q,
     LiveData.close_price (LiveData.fetchSymbolData printFixed "TCS" (halves 0))
     = Some close
     /\ 400 < close)
  /\ (100000
      <= LiveData.volume (LiveData.fetchSymbolData printFixed "TCS" (halves 0))
      <= 2100000)%Z
  /\ LiveData.close_price
       (LiveData.fetchSymbolData printFixed "constructor" (halves 0)) = None.
Proof.
  destruct (@fetchSymbolData_ranges printFixed "TCS" (halves 0))
    as (Hranges & _ & _).
  destruct (Hranges {| LiveData.base := 3675; LiveData.range := 80 |}
              (halves_unit 0) eq_refl)
    as (opening & high & low & close & _ & _ & _ & Hc & _ & _ & _ & _ & _
        & Hclose & Hvolume).
  destruct (@fetchSymbolData_ranges printFixed "constructor" (halves 0))
    as (_ & _ & Hnone).
  destruct Hnone as (_ & _ & _ & Hnull).
  { simpl. now left. }
  split; [exists close; now split|]. split; [exact Hvolume | exact Hnull].
Defined.

Lemma market_data_one_record_per_symbol_witness :
  exists d : LiveData.symbolData,
    LiveData.GET printFixed (Some "TCS") halves = inl d
    /\ LiveData.symbol d = "TCS".
Proof.
  destruct (market_data_one_record_per_symbol printFixed halves)
    as (_ & _ & Hone & _).
  apply Hone. discriminate.
Defined.

Lemma portfolio_names (r : position) :
  In r portfolio -> UpdatePrices.held r = true ->
  ~ In (symbol r) LiveData.inheritedNames.
Proof.
  intros [<- | [<- | [<- | []]]] _; simpl; intuition discriminate.
Defined.

Lemma refresh_with_market_data_witness :
  exists md : UpdatePrices.marketData,
    LiveData.asMarketData
      (LiveData.POST printFixed (Some ["TCS"; "INFY"]) halves) = Some md
    /\ snd (UpdatePrices.POST portfolio (fun _ => Some md) Example.clock)
       = UpdatePrices.PortfolioPricesUpdated 2
    /\ Forall
         (fun r' =>
            UpdatePrices.held r' = true ->
            cachesDerivable r' = true /\ 400 < Js.toNumber (current_price r'))
         (fst (UpdatePrices.POST portfolio (fun _ => Some md) Example.clock)).
Proof.
  destruct (@refresh_with_market_data printFixed portfolio halves
              Example.clock portfolio_uniqueIds portfolio_names)
    as (md & Hmd & _ & _ & Hn & Hrows).
  exists md. split; [exact Hmd|]. split.
  - apply Hn. simpl. discriminate.
  - apply Forall_forall. intros r' Hin Hheld.
    destruct (Hrows r' Hin Hheld) as [Hc Hp].
    split; [exact Hc | apply Hp; exact halves_unit].
Defined.

End MarketDataExamples.

(** ** More on the metrics of the tracker *)

Lemma orNum_zero (x : option Q) : Js.orNum x 0 == Js.toNumber x.
Proof.
  unfold Js.orNum, Js.truthyNum. destruct x as [q|]; simpl; [|reflexivity].
  destruct (Qeq_bool q 0) eqn:E; simpl; [|reflexivity].
  apply Qeq_bool_iff in E. now rewrite E.
Qed.

Lemma sum_member_le (A : Type) (f : A -> Q) (l : list A) (x : A) :
  (forall y, In y l -> 0 <= f y) -> In x l ->
  f x <= fold_right Qplus 0 (map f l).
Proof.
  induction l as [|y l IH]; simpl; intros Hpos Hin; [contradiction|].
  assert (Hrest : 0 <= fold_right Qplus 0 (map f l)).
  { clear IH Hin. induction l as [|z l IH]; simpl; [lra|].
    assert (0 <= f z) by (apply Hpos; right; now left).
    assert (0 <= fold_right Qplus 0 (map f l)).
    { apply IH. intros w [Hw | Hw]; apply Hpos; [now left | right; now right]. }
    lra. }
  destruct Hin as [-> | Hin].
  - lra.
  - assert (0 <= f y) by (apply Hpos; now left).
    assert (f x <= fold_right Qplus 0 (map f l))
      by (apply IH; [intros w Hw; apply Hpos; now right | exact Hin]).
    lra.
Qed.

Section TrackerMetrics.

Import LivePortfolioTracker.

(** X20.  When no stored market value is negative, every allocation the
    tracker computes lies between 0 and 100 per cent. *)
Theorem allocation_between_0_and_100 (rows : list position) :
  (forall pos : position,
     In pos rows -> 0 <= Js.toNumber (market_value pos)) ->
  Forall (fun p => 0 <= allocation p /\ allocation p <= 100)
    (positions (fetchPortfolioMetrics (Some rows))).
Proof.
  intros Hpos. rewrite positions_fetchPortfolioMetrics.
  apply Forall_map, Forall_forall. intros pos Hin. simpl.
  destruct (Js.gt0 (totalValueOf rows)) eqn:Hgt; [|split; lra].
  apply gt0_true in Hgt.
  assert (Hsum : totalValueOf rows
                 == fold_right Qplus 0
                      (map (fun pos => Js.orNum (market_value pos) 0) rows))
    by apply reduceSum_sum.
  assert (Hle : Js.orNum (market_value pos) 0 <= totalValueOf rows).
  { rewrite Hsum.
    apply (sum_member_le (fun pos => Js.orNum (market_value pos) 0)).
    - intros y Hy. rewrite orNum_zero. now apply Hpos.
    - exact Hin. }
  assert (H0 : 0 <= Js.orNum (market_value pos) 0)
    by (rewrite orNum_zero; now apply Hpos).
  set (v := Js.orNum (market_value pos) 0) in *.
  set (tv := totalValueOf rows) in *. clearbody v tv. clear Hsum.
  assert (Hq0 : 0 <= v / tv) by (apply Qle_shift_div_l; [exact Hgt | lra]).
  assert (Hq1 : v / tv <= 1) by (apply Qle_shift_div_r; [exact Hgt | lra]).
  set (q := v / tv) in *. clearbody q. split; lra.
Qed.

End TrackerMetrics.

Section TrackerMetricsExamples.

Import LivePortfolioTracker Example.

Lemma allocation_between_0_and_100_witness :
  Forall (fun p => 0 <= allocation p /\ allocation p <= 100)
    (positions (fetchPortfolioMetrics (Some [tcsPosition; unrefreshed]))).
Proof.
  apply (allocation_between_0_and_100 [tcsPosition; unrefreshed]).
  intros pos [<- | [<- | []]]; vm_compute; discriminate.
Defined.

End TrackerMetricsExamples.

(** ** More on the strategy endpoint *)

Section StrategyAnswers.

Import GenerateStrategy.
Local Open Scope string_scope.

Variable numberToString : Q -> string.
Variable toFixed1 : Q -> string.
Variable toLowerCase : string -> string.
Variable JSON_parse : Js.text -> option json.

(** X23.  Once the language model has answered and the request names a
    strategy type, the endpoint succeeds whatever the answer and whatever
    the store does; the strategy it returns always has the four required
    fields; and an answer that decodes to a value with the four fields is
    returned as it was decoded. *)
Theorem strategy_endpoint_succeeds
  (req : request) (kind : string) (text : Js.text) (save : saveAnswer)
  (nowMs : Q) (nowIso : string) :
  GenerateStrategy.strategyType req = Some kind ->
  exists (saved aiGenerated : json) (warning : option string),
    POST numberToString toFixed1 toLowerCase JSON_parse
      req (Some text) save nowMs nowIso
    = Success saved aiGenerated warning
    /\ validated aiGenerated = true
    /\ (forall v : json,
          JSON_parse (cleanedText text) = Some v ->
          validated v = true ->
          aiGenerated = v).
Proof.
  intros Hkind. unfold POST. rewrite Hkind.
  eexists. eexists. eexists. split; [reflexivity|].
  unfold strategyOf, parsedStrategy.
  destruct (JSON_parse (cleanedText text)) as [v|].
  - destruct (validated v) eqn:Hv.
    + split; [exact Hv|]. intros v' Hv' _. congruence.
    + split; [reflexivity|]. intros v' Hv' Hok. congruence.
  - split; [reflexivity|]. intros v' Hv'. discriminate.
Qed.

(** X24.  The warning that the strategy was not saved is not given when
    saving fails: the object returned in place of the saved row carries
    [Date.now()] as its id, so with a clock that is not at 0 the answer has
    no warning, while a saved row without an id does get the warning. *)
Theorem failed_save_has_no_warning
  (req : request) (kind : string) (text : Js.text) (save : saveAnswer)
  (nowMs : Q) (nowIso : string) :
  GenerateStrategy.strategyType req = Some kind ->
  ~ nowMs == 0 ->
  (save = SaveError \/ save = SaveThrows ->
   exists saved aiGenerated : json,
     POST numberToString toFixed1 toLowerCase JSON_parse
       req (Some text) save nowMs nowIso
     = Success saved aiGenerated None
     /\ getProp saved "id" = Value (JNum nowMs)
     /\ getProp saved "parameters" = Value aiGenerated)
  /\ (forall row : list (string * json),
        save = Saved row ->
        lookup "id" row = None ->
        exists aiGenerated : json,
          POST numberToString toFixed1 toLowerCase JSON_parse
            req (Some text) save nowMs nowIso
          = Success (JObj row) aiGenerated (Some notSavedWarning)).
Proof.
  intros Hkind Hnow. unfold POST. rewrite Hkind. split.
  - intros Hsave.
    assert (Hid : hasField
                    (unsavedStrategy
                       (strategyOf numberToString toFixed1 toLowerCase
                          JSON_parse kind (riskTolerance req) text)
                       kind nowMs nowIso) "id" = true).
    { unfold hasField. simpl. now rewrite Qeq_bool_false. }
    destruct Hsave as [-> | ->]; rewrite Hid;
      eexists; eexists; (split; [reflexivity|]); split; reflexivity.
  - intros row -> Hrow. eexists.
    unfold hasField, getProp. rewrite Hrow. reflexivity.
Qed.

End StrategyAnswers.

(** ** The numbers of the template *)

Lemma max_cases (a b : Q) :
  (a < b /\ Js.max a b = b) \/ (b <= a /\ Js.max a b = a).
Proof.
  unfold Js.max. destruct (Qlt_le_dec a b) as [H | H]; [left | right]; now split.
Qed.

Lemma max_floor (a b : Q) : a <= Js.max a b.
Proof. destruct (max_cases a b) as [[H ->] | [H ->]]; lra. Qed.

Lemma max_below (a b c : Q) : a <= c /\ b <= c -> Js.max a b <= c.
Proof. intros [Ha Hb]. destruct (max_cases a b) as [[H ->] | [H ->]]; lra. Qed.

Lemma max_monotone (a b b' : Q) : b <= b' -> Js.max a b <= Js.max a b'.
Proof.
  intros Hb. destruct (max_cases a b) as [[H ->] | [H ->]];
    destruct (max_cases a b') as [[H' ->] | [H' ->]]; lra.
Qed.

Lemma thousandth (x : Q) : x / 1000 == x * (1 # 1000).
Proof. field. Qed.

Lemma two_thousandth (x : Q) : x / 2000 == x * (1 # 2000).
Proof. field. Qed.

Lemma hundredth (x : Q) : x / 100 == x * (1 # 100).
Proof. field. Qed.

(** Divisions by the constants of the template, written as products. *)
Ltac undivide :=
  repeat match goal with
         | H : context [?x / 1000] |- _ => rewrite (thousandth x) in H
         | H : context [?x / 2000] |- _ => rewrite (two_thousandth x) in H
         | H : context [?x / 100] |- _ => rewrite (hundredth x) in H
         | |- context [?x / 1000] => rewrite (thousandth x)
         | |- context [?x / 2000] => rewrite (two_thousandth x)
         | |- context [?x / 100] => rewrite (hundredth x)
         end.

Section TemplateNumbers.

Import GenerateStrategy.
Local Open Scope string_scope.

Variable numberToString : Q -> string.
Variable toFixed1 : Q -> string.
Variable toLowerCase : string -> string.

(** X25.  The risk parameters of the templated strategy are the numbers the
    template computes, and they keep their floors for every risk
    tolerance: stop loss at least 0.01, take profit at least 0.02,
    expected return at least 0.08 and maximal drawdown at least 0.03.  For
    a risk tolerance from 0 to 100 the position size is from 0 to 0.1, stop
    loss, take profit and expected return are at most 0.1, the drawdown is
    at most 0.05 and the position value at most 200000. *)
Theorem template_numbers_in_range (kind : string) (riskTolerance : Q) :
  let template :=
    fallbackStrategy numberToString toFixed1 toLowerCase kind riskTolerance in
  let riskParameters := propOf template "riskParameters" in
  getProp riskParameters "maxPositionSize"
  = Value (JNum (maxPositionSize riskTolerance))
  /\ getProp riskParameters "stopLoss" = Value (JNum (stopLoss riskTolerance))
  /\ getProp riskParameters "takeProfit"
     = Value (JNum (takeProfit riskTolerance))
  /\ getProp riskParameters "maxPositionValueINR"
     = Value (JNum (maxPositionValueINR riskTolerance))
  /\ getProp template "expectedReturn"
     = Value (JNum (expectedReturn riskTolerance))
  /\ getProp template "maxDrawdown" = Value (JNum (maxDrawdown riskTolerance))
  /\ 0.01 <= stopLoss riskTolerance
  /\ 0.02 <= takeProfit riskTolerance
  /\ 0.08 <= expectedReturn riskTolerance
  /\ 0.03 <= maxDrawdown riskTolerance
  /\ (0 <= riskTolerance /\ riskTolerance <= 100 ->
      0 <= maxPositionSize riskTolerance
      /\ maxPositionSize riskTolerance <= 0.1
      /\ stopLoss riskTolerance <= 0.1
      /\ takeProfit riskTolerance <= 0.1
      /\ expectedReturn riskTolerance <= 0.1
      /\ maxDrawdown riskTolerance <= 0.05
      /\ 0 <= maxPositionValueINR riskTolerance
      /\ maxPositionValueINR riskTolerance <= 200000).
Proof.
  intros template riskParameters.
  do 6 (split; [reflexivity|]).
  unfold stopLoss, takeProfit, expectedReturn, maxDrawdown, maxPositionSize,
    maxPositionValueINR.
  do 4 (split; [apply max_floor|]).
  intros [H0 H100].
  split; [undivide; lra|]. split; [undivide; lra|].
  do 4 (split; [apply max_below; undivide; lra|]).
  split; lra.
Qed.

(** X26.  A higher risk tolerance never widens the stop loss or the
    drawdown limit of the template and never lowers its take profit,
    expected return, position size or position value. *)
Theorem template_numbers_monotone (low high : Q) :
  low <= high ->
  stopLoss high <= stopLoss low
  /\ maxDrawdown high <= maxDrawdown low
  /\ takeProfit low <= takeProfit high
  /\ expectedReturn low <= expectedReturn high
  /\ maxPositionSize low <= maxPositionSize high
  /\ maxPositionValueINR low <= maxPositionValueINR high.
Proof.
  intros Hle.
  unfold stopLoss, takeProfit, expectedReturn, maxDrawdown, maxPositionSize,
    maxPositionValueINR.
  do 4 (split; [apply max_monotone; undivide; lra|]).
  split; [undivide; lra | lra].
Qed.

End TemplateNumbers.

Section StrategyExamples.

Import GenerateStrategy Example.
Local Open Scope string_scope.

Lemma strategy_endpoint_succeeds_witness :
  exists (saved aiGenerated : json) (warning : option string),
    POST printNumber printNumber sameCase rejectAll momentumRequest
      (Some (Js.units "{}")) SaveThrows 1700000000000 clock
    = Success saved aiGenerated warning
    /\ validated aiGenerated = true.
Proof.
  destruct (@strategy_endpoint_succeeds printNumber printNumber sameCase
              rejectAll momentumRequest "Momentum" (Js.units "{}") SaveThrows
              1700000000000 clock)
    as (saved & ai & warning & Hrun & Hvalid & _).
  - reflexivity.
  - exists saved, ai, warning. now split.
Defined.

Lemma failed_save_has_no_warning_witness :
  exists saved aiGenerated : json,
    POST printNumber printNumber sameCase rejectAll momentumRequest
      (Some (Js.units "{}")) SaveError 1700000000000 clock
    = Success saved aiGenerated None.
Proof.
  destruct (@failed_save_has_no_warning printNumber printNumber sameCase
              rejectAll momentumRequest "Momentum" (Js.units "{}") SaveError
              1700000000000 clock) as [Hfail _].
  - reflexivity.
  - vm_compute. discriminate.
  - destruct Hfail as (saved & ai & Hrun & _); [now left|].
    now exists saved, ai.
Defined.

Lemma template_numbers_in_range_witness :
  stopLoss 50 <= 0.1 /\ 0 <= maxPositionSize 50.
Proof.
  destruct (@template_numbers_in_range printNumber printNumber sameCase
              "Momentum" 50)
    as (_ & _ & _ & _ & _ & _ & _ & _ & _ & _ & Hrange).
  destruct Hrange as (Hsize & _ & Hstop & _).
  - split; vm_compute; discriminate.
  - now split.
Defined.

Lemma template_numbers_monotone_witness :
  stopLoss 80 <= stopLoss 20 /\ takeProfit 20 <= takeProfit 80.
Proof.
  destruct (@template_numbers_monotone 20 80) as (Hstop & _ & Htake & _).
  - vm_compute. discriminate.
  - now split.
Defined.

End StrategyExamples.

(** ** Cleaning the answer of the language model *)

Section Cleaning.

Import GenerateStrategy.

Lemma allWhite_rev (ws : Js.text) :
  Text.allWhite ws = true -> Text.allWhite (rev ws) = true.
Proof.
  unfold Text.allWhite. rewrite !forallb_forall.
  intros H c Hc. apply H. now apply in_rev.
Qed.

Lemma skipSpace_white (ws t : Js.text) :
  Text.allWhite ws = true -> Js.skipSpace (ws ++ t) = Js.skipSpace t.
Proof.
  induction ws as [|c ws IH]; simpl; intros H; [reflexivity|].
  apply andb_true_iff in H. destruct H as [Hc Hws].
  rewrite Hc. now apply IH.
Qed.

Lemma skipSpace_all (ws : Js.text) :
  Text.allWhite ws = true -> Js.skipSpace ws = [].
Proof.
  intros H. rewrite <- (app_nil_r ws). now rewrite skipSpace_white.
Qed.

Lemma skipSpace_length (t : Js.text) :
  (List.length (Js.skipSpace t) <= List.length t)%nat.
Proof.
  induction t as [|c t IH]; simpl; [lia|].
  destruct (Js.isSpace c); simpl; lia.
Qed.

(** A text without leading white space keeps its start when more text
    follows. *)
Lemma skipSpace_tight (body t : Js.text) :
  body <> [] -> Js.skipSpace body = body ->
  Js.skipSpace (body ++ t) = body ++ t.
Proof.
  destruct body as [|c body]; [congruence|]. simpl. intros _ H.
  destruct (Js.isSpace c); [|reflexivity].
  exfalso. pose proof (skipSpace_length body) as Hlen.
  rewrite H in Hlen. simpl in Hlen. lia.
Qed.

Lemma dropPrefix_app (p t : Js.text) : dropPrefix p (p ++ t) = Some t.
Proof.
  induction p as [|c p IH]; simpl; [now destruct t|].
  now rewrite N.eqb_refl.
Qed.

Lemma dropOpeningFence_fenced (t : Js.text) :
  dropOpeningFence (Js.units "```json" ++ t) = Js.skipSpace t.
Proof. unfold dropOpeningFence. now rewrite dropPrefix_app. Qed.

Lemma dropClosingFence_fenced (t : Js.text) :
  dropClosingFence (t ++ fence) = rev (Js.skipSpace (rev t)).
Proof.
  unfold dropClosingFence. rewrite rev_app_distr.
  change (rev fence) with fence. now rewrite dropPrefix_app.
Qed.

Lemma trim_padded (lead t trail : Js.text) :
  Text.allWhite lead = true -> Text.allWhite trail = true ->
  Js.skipSpace t = t -> Js.skipSpace (rev t) = rev t ->
  trim (lead ++ t ++ trail) = t.
Proof.
  intros Hl Ht Hs Hr. unfold trim.
  rewrite skipSpace_white by exact Hl.
  destruct t as [|c t'].
  - simpl. rewrite (@skipSpace_all trail Ht). reflexivity.
  - rewrite skipSpace_tight by (congruence || exact Hs).
    rewrite rev_app_distr, skipSpace_white, Hr
      by (apply allWhite_rev; exact Ht).
    apply rev_involutive.
Qed.

(** X27.  An answer wrapped in a fenced block marked [json], with any white
    space (of the whole set: also a no-break space, a byte order mark or a
    line separator) around the block and around its contents, is cleaned
    to exactly the contents (a text that is not empty and has no white
    space at its ends) before it is decoded. *)
Theorem fenced_answer_is_unwrapped (lead gap1 body gap2 trail : Js.text) :
  Text.allWhite lead = true -> Text.allWhite gap1 = true ->
  Text.allWhite gap2 = true -> Text.allWhite trail = true ->
  Text.tight body ->
  cleanedText
    (lead ++ Js.units "```json" ++ gap1 ++ body ++ gap2 ++ Js.units "```"
     ++ trail)
  = body.
Proof.
  intros Hl H1 H2 Ht (Hne & Hs & Hr). unfold cleanedText.
  replace (lead ++ Js.units "```json" ++ gap1 ++ body ++ gap2
           ++ Js.units "```" ++ trail)
    with (lead ++ (Js.units "```json" ++ gap1 ++ body ++ gap2
                   ++ Js.units "```") ++ trail).
  2:{ f_equal. now rewrite <- !app_assoc. }
  rewrite trim_padded; try assumption.
  - rewrite dropOpeningFence_fenced, skipSpace_white by exact H1.
    rewrite skipSpace_tight by assumption.
    change (Js.units "```") with fence.
    rewrite app_assoc, dropClosingFence_fenced.
    rewrite rev_app_distr, skipSpace_white, Hr
      by (apply allWhite_rev; exact H2).
    apply rev_involutive.
  - reflexivity.
  - rewrite !app_assoc, rev_app_distr. reflexivity.
Qed.

(** X28.  An answer without the fence (its contents neither start with the
    opening fence nor end with the closing one) is cleaned by trimming
    only: the white space around the contents is removed and the contents
    are kept as they are. *)
Theorem plain_answer_is_trimmed (lead body trail : Js.text) :
  Text.allWhite lead = true -> Text.allWhite trail = true ->
  Text.tight body ->
  dropPrefix (Js.units "```json") body = None ->
  dropPrefix fence (rev body) = None ->
  cleanedText (lead ++ body ++ trail) = body.
Proof.
  intros Hl Ht (Hne & Hs & Hr) Hopen Hclose. unfold cleanedText.
  rewrite trim_padded by assumption.
  unfold dropOpeningFence. rewrite Hopen.
  unfold dropClosingFence. now rewrite Hclose.
Qed.

End Cleaning.

Section CleaningExamples.

Import GenerateStrategy.
Local Open Scope string_scope.

Lemma braces_tight : Text.tight (Js.units "{}").
Proof. repeat split. discriminate. Defined.

Lemma fenced_answer_is_unwrapped_witness :
  cleanedText
    ([160; 32]%N ++ Js.units "```json" ++ [10]%N ++ Js.units "{}"
     ++ [8232; 10]%N ++ Js.units "```" ++ [65279]%N)%list
  = Js.units "{}".
Proof.
  apply (@fenced_answer_is_unwrapped [160; 32]%N [10]%N (Js.units "{}")
           [8232; 10]%N [65279]%N).
  - reflexivity.
  - reflexivity.
  - reflexivity.
  - reflexivity.
  - exact braces_tight.
Defined.

Lemma plain_answer_is_trimmed_witness :
  cleanedText ([160]%N ++ Js.units "{}" ++ [32; 32]%N)%list = Js.units "{}".
Proof.
  apply (@plain_answer_is_trimmed [160]%N (Js.units "{}") [32; 32]%N).
  - reflexivity.
  - reflexivity.
  - exact braces_tight.
  - reflexivity.
  - reflexivity.
Defined.

End CleaningExamples.


(** ** The positions of the dashboard *)

Section Dashboard.

Import TradingDashboard.

(** X29.  The positions the dashboard keeps are derived, not read: every
    one has market value = quantity times the price shown and profit =
    quantity times (price shown - average price), where the price shown is
    the current price, or the average price when the current price is
    missing or 0 (then the profit is 0).  For a row with a current price
    these are the values the price refresh stores for a position of the
    same quantity and average price at that price.  With no data or an
    error there are no positions. *)
Theorem dashboard_positions_are_derived (data : list positionRow) :
  let shown := fetchPositions (Selected (Some data)) in
  Forall2
    (fun row p =>
       p_symbol p = symbol row
       /\ market_value p = p_quantity p * Js.toNumber (p_current_price p)
       /\ unrealized_pnl p
          = p_quantity p
            * (Js.toNumber (p_current_price p)
               - Js.toNumber (p_average_price p))
       /\ (Js.truthyNum (current_price row) = true ->
           p_current_price p = current_price row)
       /\ (Js.truthyNum (current_price row) = false ->
           p_current_price p = average_price row /\ unrealized_pnl p == 0)
       /\ (forall (m : UpdatePrices.market) (pos : Db.position) (t : string),
             Js.truthyNum (current_price row) = true ->
             current_price row = Some (UpdatePrices.close_price m) ->
             Db.quantity pos = quantity row ->
             Db.average_price pos = average_price row ->
             let written :=
               applyPatch (UpdatePrices.priceUpdate m pos t) pos in
             Db.market_value written = Some (market_value p)
             /\ exists pnl : Q,
                  Db.unrealized_pnl written = Some pnl
                  /\ pnl == unrealized_pnl p))
    data shown
  /\ fetchPositions SelectError = []
  /\ fetchPositions (Selected None) = [].
Proof.
  intros shown. split; [|split; reflexivity].
  unfold shown. simpl. apply Forall2_map_right. intros row.
  unfold transform, Js.orNull. simpl.
  split; [reflexivity|]. split; [reflexivity|]. split; [reflexivity|].
  split; [|split].
  - intros ->. reflexivity.
  - intros ->. split; [reflexivity | simpl; ring].
  - intros m pos t Htruthy Hprice Hq Havg. rewrite Htruthy, Hprice. simpl.
    rewrite Hq, Havg. split; [reflexivity|].
    eexists. split; [reflexivity | ring].
Qed.

End Dashboard.

Lemma dashboard_positions_are_derived_witness :
  exists p : TradingDashboard.PortfolioPosition,
    TradingDashboard.fetchPositions
      (TradingDashboard.Selected
         (Some [Sample.dashboardRow Example.unrefreshed])) = [p]
    /\ TradingDashboard.p_current_price p = Some 120
    /\ TradingDashboard.market_value p == 1200
    /\ market_value
         (applyPatch
            (UpdatePrices.priceUpdate
               {| UpdatePrices.m_symbol := "INFY";
                  UpdatePrices.close_price := 120 |}
               Example.unrefreshed Example.clock)
            Example.unrefreshed)
       = Some (TradingDashboard.market_value p).
Proof.
  destruct (dashboard_positions_are_derived
              [Sample.dashboardRow Example.unrefreshed]) as [Hrows _].
  simpl in Hrows. inversion Hrows as [|row p rows ps Hrow Hrest]; subst.
  destruct Hrow as (_ & _ & _ & Hshown & _ & Hrefresh).
  destruct (Hrefresh
              {| UpdatePrices.m_symbol := "INFY"%string;
                 UpdatePrices.close_price := 120 |}
              Example.unrefreshed Example.clock)
    as [Hvalue _]; try reflexivity.
  eexists. split; [reflexivity|].
  split; [apply Hshown; reflexivity|].
  split; [vm_compute; reflexivity | exact Hvalue].
Defined.
